(** * CKM-ECOM storefront: cart, checkout and token lifecycle

    A shallow embedding of the client-side logic of the shop-and-checkout
    web application (website-new/client) and of the mobile client
    (mobile/lib), with the properties of the specification stated over it.

    - [CartContext.tsx]  : guest / authenticated cart operations
    - [AuthContext.tsx]  : login / logout
    - [lib/api.ts]       : the axios instance with its two interceptors
    - [pages/Checkout]   : order creation and the payment widget callbacks
    - [mobile/lib]       : the Dio interceptor and the checkout screen

    Numbers ([quantity], [stock]) are integers ([Z]); the browser's
    [localStorage] is a finite map from keys to stored values; every effect
    the code performs (a call of [apiService], a toast, a console message,
    an HTTP request) is appended to a chronological trace.

    The functions of the cart and auth contexts are embedded as sequential
    programs in a state-and-error monad, the server being an oracle that
    sees the trace; the pages that race with the user (checkout, account,
    the mobile checkout screen) are event-loop machines, one transition
    per synchronous stretch between two awaits.  The first part of the
    file holds the model, the second the properties. *)

From stdpp Require Import base numbers strings gmap list pretty.
From Equations Require Import Equations.

Set Default Proof Using "Type".

(** ** Data model (CartContext.tsx, lines 6-21) *)

Module Product.
Record t := mk {
  id : string;
  name : string;
  price : Z;
  images : list string;
  slug : string;
  stock : Z;
  is_active : bool }.
End Product.

Module CartItem.
Record t := mk {
  id : option string;          (* optional: guest items have none *)
  product_id : string;
  quantity : Z;
  product : Product.t }.

(* [item.quantity = q] on one element of the array *)
Definition set_quantity (q : Z) (i : t) : t :=
  mk (id i) (product_id i) q (product i).
End CartItem.

(** A value held by [localStorage].  [Text s] is a plain string (a token,
    or any text that is not the JSON text of a cart: [JSON.parse] rejects
    it); [Stringified l] is the string [JSON.stringify(l)] of a cart.
    A string that is JSON text of something else than a cart is not
    represented: what is stated about the parsing of a [Text s] is stated
    for the strings that cannot be JSON text ([not_json] below). *)
Inductive SVal :=
| Text (s : string)
| Stringified (l : list CartItem.t).

(* JavaScript truthiness of a string: only the empty string is falsy. *)
Definition truthy (v : SVal) : bool :=
  match v with
  | Text s => negb (String.eqb s "")
  | Stringified _ => true
  end.

(** ** The collaborators: [apiService] as CartContext and the pages see it *)

Record Order := {
  order_id : string;
  order_number : string;
  order_total : string }.

Record PaymentIntent := {
  razorpay_order_id : string;
  razorpay_key_id : string;
  amount : Z;
  currency : string }.

Record RazorpayResponse := {
  rzp_order_id : string;
  rzp_payment_id : string;
  rzp_signature : string }.

Module apiService.
Inductive Call :=
| getCart
| addToCart (productId : string) (quantity : Z)
| updateCartItem (itemId : string) (quantity : Z)
| removeFromCart (itemId : string)
| clearCart
| mergeCart (items : list (string * Z))
| createOrder (addressId : string)
| getOrders
| createPayment (orderId : string)
| verifyPayment (data : RazorpayResponse).
End apiService.

(* [response.data] of a resolved call *)
Inductive Data :=
| NoData
| CartData (items : option (list CartItem.t))
| OrderData (o : Order)
| PaymentData (p : PaymentIntent).

(* what a rejected promise carries *)
Inductive Exn :=
| HttpError (status : Z) (detail : option string)
| NetworkError
| SyntaxError
| TypeError.

Inductive Res (A : Type) :=
| Ret (a : A)
| Throw (e : Exn).
Arguments Ret {A} a.
Arguments Throw {A} e.

Inductive ToastKind := success | error | info.

Inductive Method := GET | POST | PUT | DELETE.

(** An HTTP request configuration of axios.  [Authorization] holds the
    token [v] of the header [Bearer v]; [_retry] is the flag the response
    interceptor sets on the configuration it has already retried. *)
Record Request := {
  method : Method;
  url : string;
  Authorization : option SVal;
  body : list (string * option SVal);
  _retry : bool }.

(* the HTTP instance of the API service, with its interceptors
   ([this.client] of axios, [_dio] on mobile), or the bare library
   ([axios.post], [Dio().post]) *)
Inductive Instance := api_client | bare.

Inductive Event :=
| ECall (c : apiService.Call)          (* a method of apiService is called *)
| EHttp (via : Instance) (r : Request)  (* a request leaves the browser *)
| EToast (k : ToastKind) (msg : string)
| EConsole (msg : string).

(** ** The state of the page *)

Record World := {
  items : list CartItem.t;              (* CartProvider: useState *)
  loading : bool;                       (* CartProvider: useState *)
  isLoggedIn : bool;                    (* AuthProvider: useState *)
  localStorage : gmap string SVal;
  queryCache : gset string;             (* react-query's cache, by key *)
  location : option string;             (* window.location.href, once set *)
  trace : list Event }.

Definition setItems (l : list CartItem.t) (w : World) : World :=
  {| items := l; loading := loading w; isLoggedIn := isLoggedIn w;
     localStorage := localStorage w; queryCache := queryCache w;
     location := location w; trace := trace w |}.

Definition setLoading (b : bool) (w : World) : World :=
  {| items := items w; loading := b; isLoggedIn := isLoggedIn w;
     localStorage := localStorage w; queryCache := queryCache w;
     location := location w; trace := trace w |}.

Definition setIsLoggedIn (b : bool) (w : World) : World :=
  {| items := items w; loading := loading w; isLoggedIn := b;
     localStorage := localStorage w; queryCache := queryCache w;
     location := location w; trace := trace w |}.

Definition setStorage (m : gmap string SVal) (w : World) : World :=
  {| items := items w; loading := loading w; isLoggedIn := isLoggedIn w;
     localStorage := m; queryCache := queryCache w;
     location := location w; trace := trace w |}.

Definition setQueryCache (c : gset string) (w : World) : World :=
  {| items := items w; loading := loading w; isLoggedIn := isLoggedIn w;
     localStorage := localStorage w; queryCache := c;
     location := location w; trace := trace w |}.

Definition setLocation (href : string) (w : World) : World :=
  {| items := items w; loading := loading w; isLoggedIn := isLoggedIn w;
     localStorage := localStorage w; queryCache := queryCache w;
     location := Some href; trace := trace w |}.

Definition emit (e : Event) (w : World) : World :=
  {| items := items w; loading := loading w; isLoggedIn := isLoggedIn w;
     localStorage := localStorage w; queryCache := queryCache w;
     location := location w; trace := trace w ++ [e] |}.

(** ** Sequential code with exceptions: a state-and-error monad *)

Definition M (A : Type) : Type := World -> Res A * World.

Definition ret {A} (a : A) : M A := fun w => (Ret a, w).
Definition throw {A} (e : Exn) : M A := fun w => (Throw e, w).

Definition bind {A B} (m : M A) (k : A -> M B) : M B :=
  fun w => match m w with
           | (Ret a, w') => k a w'
           | (Throw e, w') => (Throw e, w')
           end.

(* try { m } catch (e) { h e } *)
Definition try_catch {A} (m : M A) (h : Exn -> M A) : M A :=
  fun w => match m w with
           | (Ret a, w') => (Ret a, w')
           | (Throw e, w') => h e w'
           end.

(* try { m } finally { f }: [f] always runs; its own exception wins *)
Definition try_finally {A} (m : M A) (f : M unit) : M A :=
  fun w => match m w with
           | (r, w') => match f w' with
                        | (Ret _, w'') => (r, w'')
                        | (Throw e, w'') => (Throw e, w'')
                        end
           end.

Definition modify (f : World -> World) : M unit := fun w => (Ret tt, f w).
Definition gets {A} (f : World -> A) : M A := fun w => (Ret (f w), w).

(* the world a computation leaves behind *)
Definition exec {A} (m : M A) (w : World) : World := snd (m w).

Declare Scope js_scope.
Delimit Scope js_scope with js.
Notation "x <- m ;; k" := (bind m (fun x => k))
  (at level 100, m at next level, right associativity) : js_scope.
Notation "m ;;; k" := (bind m (fun _ => k))
  (at level 100, right associativity) : js_scope.
Open Scope js_scope.

(** ** Browser primitives *)

Module Storage.
Definition getItem (k : string) : M (option SVal) :=
  gets (fun w => localStorage w !! k).
Definition setItem (k : string) (v : SVal) : M unit :=
  modify (fun w => setStorage (<[k := v]> (localStorage w)) w).
Definition removeItem (k : string) : M unit :=
  modify (fun w => setStorage (delete k (localStorage w)) w).
End Storage.

Definition JSON_parse (v : SVal) : M (list CartItem.t) :=
  match v with
  | Stringified l => ret l
  | Text _ => throw SyntaxError
  end.

(* the white space of JSON text: space, tab, line feed, carriage return *)
Definition json_space (c : Ascii.ascii) : bool :=
  let n := Ascii.nat_of_ascii c in
  (n =? 32) || (n =? 9) || (n =? 10) || (n =? 13).

(* the characters a JSON value begins with: an opening brace or bracket,
   a double quote, a minus sign, a digit, and the first letters of true,
   false and null *)
Definition json_start (c : Ascii.ascii) : bool :=
  let n := Ascii.nat_of_ascii c in
  (n =? 123) || (n =? 91) || (n =? 34) || (n =? 45)
  || ((48 <=? n) && (n <=? 57))
  || (n =? 116) || (n =? 102) || (n =? 110).

(* a string that cannot be JSON text, so that [JSON.parse] throws a
   SyntaxError: after white space it ends, or goes on with a character
   that begins no JSON value *)
Fixpoint not_json (s : string) : bool :=
  match s with
  | EmptyString => true
  | String c rest => if json_space c then not_json rest else negb (json_start c)
  end.

Definition toast (k : ToastKind) (msg : string) : M unit :=
  modify (emit (EToast k msg)).

Definition console_error (msg : string) : M unit :=
  modify (emit (EConsole msg)).

(** The backend, as the promise a method of [apiService] returns: it
    resolves with data or rejects, and it may depend on everything that
    happened before.  What the HTTP client underneath does on the way
    ([ApiService.client] below: after a 401 it refreshes, which writes or
    removes the two token keys of local storage and may set the
    location) is not part of this level. *)
Definition Backend : Type := list Event -> apiService.Call -> Res Data.

Definition await_call (srv : Backend) (c : apiService.Call) : M Data :=
  fun w => (srv (trace w) c, emit (ECall c) w).

(** ** CartContext.tsx

    The provider's functions close over [items] and [isLoggedIn] of the
    render that created them; the pages get new functions from the render
    that follows a state update, so that an operation runs on the state
    its predecessor committed.  The guest branches copy the array
    ([...items]) and assign the [quantity] of one element in place: the
    element is shared with the previous array, but every path that assigns
    also commits the copy with [setItems], and the state after the
    operation is the altered list. *)

Section CartContext.
Context (srv : Backend).

(* response.data?.items || [] *)
Definition cart_items_of (d : Data) : list CartItem.t :=
  match d with
  | CartData (Some l) => l
  | _ => []
  end.

(* guestItems.map(item => ({product_id, quantity})) *)
Definition mergePayload (guestItems : list CartItem.t) : list (string * Z) :=
  (fun item => (CartItem.product_id item, CartItem.quantity item)) <$> guestItems.

(* lines 51-99 *)
Definition refreshCart : M unit :=
  modify (setLoading true) ;;;
  try_finally
    (try_catch
       (logged <- gets isLoggedIn ;;
        if logged then
          (* Merge guest cart items first (if any) *)
          guestCartStr <- Storage.getItem "guest_cart" ;;
          (match guestCartStr with
           | Some v =>
               if truthy v then
                 try_finally
                   (try_catch
                      (guestItems <- JSON_parse v ;;
                       if 0 <? length guestItems then
                         _ <- await_call srv
                                (apiService.mergeCart (mergePayload guestItems)) ;;
                         ret tt
                       else ret tt)
                      (fun err => console_error "Failed to merge cart:"))
                   (* Always remove guest cart after merge attempt *)
                   (Storage.removeItem "guest_cart")
               else ret tt
           | None => ret tt
           end) ;;;
          (* Fetch server-side cart (loading still true) *)
          response <- await_call srv apiService.getCart ;;
          modify (setItems (cart_items_of response))
        else
          (* Guest mode: read from localStorage *)
          saved <- Storage.getItem "guest_cart" ;;
          match saved with
          | Some v =>
              if truthy v then
                try_catch
                  (l <- JSON_parse v ;; modify (setItems l))
                  (fun _ => modify (setItems []) ;;;
                            Storage.removeItem "guest_cart")
              else modify (setItems [])
          | None => modify (setItems [])
          end)
       (fun err =>
          console_error "Failed to load cart:" ;;;
          logged <- gets isLoggedIn ;;
          if negb logged then modify (setItems []) else ret tt))
    (modify (setLoading false)).

Definition only_available (stock : Z) : string :=
  "Only " +:+ pretty stock +:+ " items available".

(* lines 101-140; [quantity = 1] is the default parameter *)
Definition addToCart (product : Product.t) (quantity : option Z) : M unit :=
  let quantity := default 1%Z quantity in
  if negb (Product.is_active product) || (Product.stock product <? quantity)%Z then
    toast error "Product not available or out of stock"
  else
    try_catch
      (logged <- gets isLoggedIn ;;
       if logged then
         _ <- await_call srv (apiService.addToCart (Product.id product) quantity) ;;
         refreshCart ;;;
         toast success "Added to cart"
       else
         (* Guest Logic *)
         currentItems <- gets items ;;
         match list_find (fun i => CartItem.product_id i = Product.id product)
                 currentItems with
         | Some (existingIndex, existing) =>
             let newQty := (CartItem.quantity existing + quantity)%Z in
             if (newQty >? Product.stock product)%Z then
               toast error (only_available (Product.stock product))
             else
               let currentItems :=
                 alter (CartItem.set_quantity (Z.min newQty 10)) existingIndex
                       currentItems in
               modify (setItems currentItems) ;;;
               Storage.setItem "guest_cart" (Stringified currentItems) ;;;
               toast success "Added to cart"
         | None =>
             let currentItems :=
               currentItems ++
                 [CartItem.mk None (Product.id product) (Z.min quantity 10) product] in
             modify (setItems currentItems) ;;;
             Storage.setItem "guest_cart" (Stringified currentItems) ;;;
             toast success "Added to cart"
         end)
      (fun err =>
         console_error "Add to cart error:" ;;;
         toast error "Failed to add to cart").

(* item?.id, when truthy *)
Definition item_id_of (item : option CartItem.t) : option string :=
  match item with
  | Some i => match CartItem.id i with
              | Some s => if String.eqb s "" then None else Some s
              | None => None
              end
  | None => None
  end.

(* items.find(i => i.product_id === productId) *)
Definition find_item (productId : string) (l : list CartItem.t) : option CartItem.t :=
  snd <$> list_find (fun i => CartItem.product_id i = productId) l.

(* lines 142-169 *)
Definition updateQuantity (productId : string) (quantity : Z) : M unit :=
  if (quantity <? 1)%Z then ret tt
  else
    try_catch
      (logged <- gets isLoggedIn ;;
       if logged then
         l <- gets items ;;
         match item_id_of (find_item productId l) with
         | Some itemId =>
             _ <- await_call srv (apiService.updateCartItem itemId quantity) ;;
             refreshCart
         | None => ret tt
         end
       else
         currentItems <- gets items ;;
         match list_find (fun i => CartItem.product_id i = productId) currentItems with
         | Some (index, existing) =>
             if (Product.stock (CartItem.product existing) <? quantity)%Z then
               toast error (only_available (Product.stock (CartItem.product existing)))
             else
               let currentItems :=
                 alter (CartItem.set_quantity quantity) index currentItems in
               modify (setItems currentItems) ;;;
               Storage.setItem "guest_cart" (Stringified currentItems)
         | None => ret tt
         end)
      (fun err =>
         console_error "Update quantity error:" ;;;
         toast error "Failed to update quantity").

(* lines 171-190 *)
Definition removeFromCart (productId : string) : M unit :=
  try_catch
    (logged <- gets isLoggedIn ;;
     if logged then
       l <- gets items ;;
       match item_id_of (find_item productId l) with
       | Some itemId =>
           _ <- await_call srv (apiService.removeFromCart itemId) ;;
           refreshCart ;;;
           toast success "Removed from cart"
       | None => ret tt
       end
     else
       l <- gets items ;;
       let newItems := filter (fun i => CartItem.product_id i <> productId) l in
       modify (setItems newItems) ;;;
       Storage.setItem "guest_cart" (Stringified newItems) ;;;
       toast success "Removed from cart")
    (fun err =>
       console_error "Remove error:" ;;;
       toast error "Failed to remove item").

(* lines 192-203 *)
Definition clearCart : M unit :=
  try_finally
    (try_catch
       (logged <- gets isLoggedIn ;;
        if logged then _ <- await_call srv apiService.clearCart ;; ret tt
        else ret tt)
       (fun err => console_error "Clear cart error:"))
    (modify (setItems []) ;;;
     Storage.removeItem "guest_cart").

End CartContext.

(** ** AuthContext.tsx: login (lines 28-32) *)

Definition login (accessToken refreshToken : string) : M unit :=
  Storage.setItem "access_token" (Text accessToken) ;;;
  Storage.setItem "refresh_token" (Text refreshToken) ;;;
  modify (setIsLoggedIn true).

(* a fresh page for a guest: nothing stored, nothing shown *)
Definition guest_world : World :=
  {| items := []; loading := false; isLoggedIn := false;
     localStorage := ∅; queryCache := ∅; location := None; trace := [] |}.

(** ** Sequences of guest-cart operations *)

Inductive GuestOp :=
| OpAdd (product : Product.t) (quantity : option Z)
| OpUpdate (productId : string) (quantity : Z)
| OpRemove (productId : string).

Definition run_op (srv : Backend) (op : GuestOp) : M unit :=
  match op with
  | OpAdd p q => addToCart srv p q
  | OpUpdate pid q => updateQuantity srv pid q
  | OpRemove pid => removeFromCart srv pid
  end.

(* each operation runs on the state the previous render committed *)
Definition run_ops (srv : Backend) (ops : list GuestOp) (w : World) : World :=
  foldl (fun w op => exec (run_op srv op) w) w ops.

(* the calls of apiService in a trace, in order *)
Definition call_of (e : Event) : option apiService.Call :=
  match e with
  | ECall c => Some c
  | _ => None
  end.

Definition calls_of (t : list Event) : list apiService.Call := omap call_of t.

(* the notifications in a trace, in order *)
Definition toast_of (e : Event) : option (ToastKind * string) :=
  match e with
  | EToast k msg => Some (k, msg)
  | _ => None
  end.

Definition toasts_of (t : list Event) : list (ToastKind * string) := omap toast_of t.

(* a sequence in which quantities are only changed by [addToCart] *)
Definition no_update (op : GuestOp) : Prop :=
  match op with
  | OpUpdate _ _ => False
  | _ => True
  end.

(* the products a sequence of operations adds *)
Definition added_product (op : GuestOp) : option Product.t :=
  match op with
  | OpAdd p _ => Some p
  | _ => None
  end.

(* one catalogue: a product id stands for one product record *)
Definition one_catalogue (ps : list Product.t) : Prop :=
  forall p q, p ∈ ps -> q ∈ ps -> Product.id p = Product.id q -> p = q.

(** What every guest cart built by the operations satisfies. *)
Record guest_inv (w : World) : Prop := {
  inv_guest : isLoggedIn w = false;
  inv_nodup : NoDup (CartItem.product_id <$> items w);
  inv_stored :
    localStorage w !! "guest_cart" = Some (Stringified (items w)) \/
    (items w = [] /\ localStorage w !! "guest_cart" = None);
  inv_calls : calls_of (trace w) = [] }.

(* what the console shows after the merge attempt *)
Definition merge_log (r : Res Data) : list Event :=
  match r with
  | Ret _ => []
  | Throw _ => [EConsole "Failed to merge cart:"]
  end.

Definition load_log (r : Res Data) : list Event :=
  match r with
  | Ret _ => []
  | Throw _ => [EConsole "Failed to load cart:"]
  end.

(** ** lib/api.ts: the axios instance and its interceptors *)

(* [response.data] of an HTTP reply: [null] ([NoBody], [Payload NoData]),
   or an object *)
Inductive Body :=
| NoBody
| TokenPair (access_token : string) (refresh_token : option string)
| Payload (d : Data)
| Detail (msg : string).

Inductive Reply :=
| Status (code : Z) (data : Body)
| NoResponse.                       (* the request never got an answer *)

(** The network: the reply to a request may depend on everything that
    happened before. *)
Definition Network : Type := list Event -> Instance -> Request -> Reply.

Definition API_BASE_URL : string := "http://localhost:8000".

Definition set_Authorization (v : SVal) (config : Request) : Request :=
  {| method := method config; url := url config; Authorization := Some v;
     body := body config; _retry := _retry config |}.

Definition set_retry (config : Request) : Request :=
  {| method := method config; url := url config;
     Authorization := Authorization config;
     body := body config; _retry := true |}.

(* error.response?.status === 401 *)
Definition is_401 (e : Exn) : bool :=
  match e with
  | HttpError status _ => (status =? 401)%Z
  | _ => false
  end.

Definition detail_of (b : Body) : option string :=
  match b with
  | Detail msg => Some msg
  | _ => None
  end.

(* const { access_token, refresh_token: new_refresh_token } = response.data;
   a field that an object lacks reads as [undefined]; [null] cannot be
   destructured ([None]: the statement throws a TypeError) *)
Definition token_fields (b : Body) : option (SVal * option string) :=
  match b with
  | TokenPair a r => Some (Text a, r)
  | NoBody | Payload NoData => None
  | Payload _ | Detail _ => Some (Text "undefined", None)
  end.

Module ApiService.

(* axios resolves on a 2xx status and rejects otherwise *)
Definition settle (r : Reply) : Res Body :=
  match r with
  | Status code data =>
      if (200 <=? code)%Z && (code <? 300)%Z then Ret data
      else Throw (HttpError code (detail_of data))
  | NoResponse => Throw NetworkError
  end.

(* the adapter: the request leaves, the promise settles with the reply *)
Definition dispatch (net : Network) (via : Instance) (config : Request) : M Body :=
  fun w => (settle (net (trace w) via config), emit (EHttp via config) w).

(* request interceptor (lines 17-26) *)
Definition request_interceptor (w : World) (config : Request) : Request :=
  match localStorage w !! "access_token" with
  | Some token => if truthy token then set_Authorization token config else config
  | None => config
  end.

(* axios.post(`${API_BASE_URL}/api/v1/auth/refresh`, {refresh_token}) *)
Definition refresh_request (refreshToken : option SVal) : Request :=
  {| method := POST; url := API_BASE_URL +:+ "/api/v1/auth/refresh";
     Authorization := None; body := [("refresh_token", refreshToken)];
     _retry := false |}.

(* lines 38-47: ask for new tokens and store them *)
Definition refresh (net : Network) : M SVal :=
  refreshToken <- Storage.getItem "refresh_token" ;;
  data <- dispatch net bare (refresh_request refreshToken) ;;
  match token_fields data with
  | None => throw TypeError
  | Some (access_token, new_refresh_token) =>
      Storage.setItem "access_token" access_token ;;;
      (match new_refresh_token with
       | Some r => if negb (String.eqb r "")
                   then Storage.setItem "refresh_token" (Text r)
                   else ret tt
       | None => ret tt
       end) ;;;
      ret access_token
  end.

(* lines 52-55: the catch block around the refresh *)
Definition refresh_failed (refreshError : Exn) : M Body :=
  Storage.removeItem "access_token" ;;;
  Storage.removeItem "refresh_token" ;;;
  modify (setLocation "/login") ;;;
  throw refreshError.

(* how many more times the response interceptor may retry [config] *)
Definition retries_left (config : Request) : nat :=
  if _retry config then 0 else 1.

(* remember the equation of a test in the branch it selects *)
Definition inspect {A} (a : A) : {b | a = b} := exist _ a eq_refl.

(** [this.client(config)]: request interceptor, adapter, response
    interceptor (lines 29-61).  The retry re-enters the same instance. *)
Equations? client (net : Network) (config : Request) (w : World) : Res Body * World
  by wf (retries_left config) lt :=
client net config w
  with dispatch net api_client (request_interceptor w config) w => {
  | (Ret response, w1) => (Ret response, w1);
  | (Throw err, w1)
      with inspect (is_401 err && negb (_retry (request_interceptor w config))) => {
      | exist _ true Hretry with refresh net w1 => {
          | (Ret access_token, w2) =>
              client net
                (set_Authorization access_token
                   (set_retry (request_interceptor w config))) w2;
          | (Throw refreshError, w2) => refresh_failed refreshError w2 };
      | exist _ false _ => (Throw err, w1) } }.
Proof.
  apply andb_prop in Hretry as [_ Hretry].
  unfold retries_left, request_interceptor in *. simpl.
  destruct (localStorage w !! "access_token") as [token|];
    [destruct (truthy token)|]; simpl in Hretry;
    destruct (_retry config); (discriminate || lia).
Qed.

Definition request (m : Method) (u : string) : Request :=
  {| method := m; url := u; Authorization := None; body := []; _retry := false |}.

(* lines 76-83 *)
Definition logout (net : Network) : M unit :=
  try_finally
    (_ <- client net (request POST "/api/v1/auth/logout") ;; ret tt)
    (Storage.removeItem "access_token" ;;;
     Storage.removeItem "refresh_token").

End ApiService.

(** ** AuthContext.tsx: logout (lines 34-45) *)

Definition logout (net : Network) : M unit :=
  try_finally
    (try_catch
       (ApiService.logout net)
       (fun _ => ret tt (* Force logout even if API call fails *)))
    (Storage.removeItem "access_token" ;;;
     Storage.removeItem "refresh_token" ;;;
     modify (setIsLoggedIn false) ;;;
     modify (setQueryCache ∅)).

(* the requests a trace shows, per axios instance *)
Definition sent_by (via : Instance) (e : Event) : option Request :=
  match e with
  | EHttp api_client r => match via with api_client => Some r | _ => None end
  | EHttp bare r => match via with bare => Some r | _ => None end
  | _ => None
  end.

Definition requests_of (via : Instance) (t : list Event) : list Request :=
  omap (sent_by via) t.

(** ** pages/Checkout.tsx: order creation and the payment widget

    [handleCreateOrder] and the callbacks it hands to Razorpay are
    asynchronous: between two awaits other handlers run.  The page is a
    machine whose inputs are the user's clicks, the settling of the promise
    a suspended function awaits, and the events of an open payment widget;
    each transition is one synchronous stretch of the source. *)

(* where a suspended async function waits *)
Inductive Phase :=
| AwaitOrder (addressId : string)       (* line 397: apiService.createOrder *)
| AwaitPayment (orderRes : Order)       (* line 401: apiService.createPayment *)
| AwaitScript (orderRes : Order) (paymentRes : PaymentIntent)
                                        (* line 405: loadRazorpayScript *)
| AwaitVerify (orderRes : Order)        (* line 423: apiService.verifyPayment *)
| AwaitClear (orderRes : Order).        (* line 430: clearCart, at its
                                           apiService.clearCart *)

Record Checkout := {
  world : World;                          (* what the contexts provide *)
  selectedAddressId : option string;    (* useState *)
  processing : bool;                    (* useState *)
  orderInFlight : bool;                 (* useRef: the latch *)
  paymentJustCompleted : bool;          (* useRef *)
  orderSuccess : option (string * string);  (* orderNumber, total *)
  tasks : list (option Phase);          (* the async functions started so
                                           far; [None] once returned *)
  widgets : list (option Order) }.      (* the Razorpay modals opened so
                                           far; [None] once closed *)

Definition setWorld (f : World -> World) (s : Checkout) : Checkout :=
  {| world := f (world s); selectedAddressId := selectedAddressId s;
     processing := processing s; orderInFlight := orderInFlight s;
     paymentJustCompleted := paymentJustCompleted s;
     orderSuccess := orderSuccess s; tasks := tasks s; widgets := widgets s |}.

Definition setProcessing (b : bool) (s : Checkout) : Checkout :=
  {| world := world s; selectedAddressId := selectedAddressId s;
     processing := b; orderInFlight := orderInFlight s;
     paymentJustCompleted := paymentJustCompleted s;
     orderSuccess := orderSuccess s; tasks := tasks s; widgets := widgets s |}.

Definition setOrderInFlight (b : bool) (s : Checkout) : Checkout :=
  {| world := world s; selectedAddressId := selectedAddressId s;
     processing := processing s; orderInFlight := b;
     paymentJustCompleted := paymentJustCompleted s;
     orderSuccess := orderSuccess s; tasks := tasks s; widgets := widgets s |}.

Definition setPaymentJustCompleted (b : bool) (s : Checkout) : Checkout :=
  {| world := world s; selectedAddressId := selectedAddressId s;
     processing := processing s; orderInFlight := orderInFlight s;
     paymentJustCompleted := b;
     orderSuccess := orderSuccess s; tasks := tasks s; widgets := widgets s |}.

Definition setOrderSuccess (o : string * string) (s : Checkout) : Checkout :=
  {| world := world s; selectedAddressId := selectedAddressId s;
     processing := processing s; orderInFlight := orderInFlight s;
     paymentJustCompleted := paymentJustCompleted s;
     orderSuccess := Some o; tasks := tasks s; widgets := widgets s |}.

Definition setTasks (l : list (option Phase)) (s : Checkout) : Checkout :=
  {| world := world s; selectedAddressId := selectedAddressId s;
     processing := processing s; orderInFlight := orderInFlight s;
     paymentJustCompleted := paymentJustCompleted s;
     orderSuccess := orderSuccess s; tasks := l; widgets := widgets s |}.

Definition setWidgets (l : list (option Order)) (s : Checkout) : Checkout :=
  {| world := world s; selectedAddressId := selectedAddressId s;
     processing := processing s; orderInFlight := orderInFlight s;
     paymentJustCompleted := paymentJustCompleted s;
     orderSuccess := orderSuccess s; tasks := tasks s; widgets := l |}.

Module Checkout_page.

(* a method of apiService is called; its promise is awaited *)
Definition call (c : apiService.Call) : Checkout -> Checkout :=
  setWorld (emit (ECall c)).

Definition toast (k : ToastKind) (msg : string) : Checkout -> Checkout :=
  setWorld (emit (EToast k msg)).

Definition console_error (msg : string) : Checkout -> Checkout :=
  setWorld (emit (EConsole msg)).

(* task [i] suspends at [ph], or returns *)
Definition suspend (i : nat) (ph : Phase) (s : Checkout) : Checkout :=
  setTasks (<[i := Some ph]> (tasks s)) s.

Definition finish (i : nat) (s : Checkout) : Checkout :=
  setTasks (<[i := None]> (tasks s)) s.

(* setProcessing(false); orderInFlight.current = false *)
Definition release (s : Checkout) : Checkout :=
  setOrderInFlight false (setProcessing false s).

(* error.response?.data?.detail || "Failed to process order" *)
Definition order_error_message (e : Exn) : string :=
  match e with
  | HttpError _ (Some d) => if String.eqb d "" then "Failed to process order" else d
  | _ => "Failed to process order"
  end.

(* lines 468-474: the catch block of handleCreateOrder *)
Definition order_failed (i : nat) (e : Exn) (s : Checkout) : Checkout :=
  finish i
    (release
       (toast error (order_error_message e)
          (console_error "Order creation failed:" s))).

(* lines 384-397: up to the first await; the new task takes the next slot *)
Definition handleCreateOrder (s : Checkout) : Checkout :=
  match selectedAddressId s with
  | Some addressId =>
      if String.eqb addressId "" then
        toast error "Please select a delivery address" s
      else if orderInFlight s || processing s then s
      else
        (* Prevent duplicate submissions *)
        let s := setProcessing true (setOrderInFlight true s) in
        setTasks (tasks s ++ [Some (AwaitOrder addressId)])
          (call (apiService.createOrder addressId) s)
  | None => toast error "Please select a delivery address" s
  end.

(* CartContext.clearCart, lines 199-202: its finally block *)
Definition clearCart_finally (w : World) : World :=
  setStorage (delete "guest_cart" (localStorage w)) (setItems [] w).

(* lines 431-442: after clearCart, the rest of the success handler *)
Definition payment_completed (i : nat) (orderRes : Order) (s : Checkout) : Checkout :=
  finish i
    (release
       (setOrderSuccess (order_number orderRes, order_total orderRes) s)).

(* a suspended function is resumed with the outcome of what it awaited *)
Definition resume (i : nat) (ph : Phase) (r : Res Data) (s : Checkout) : Checkout :=
  match ph, r with
  | AwaitOrder _, Ret (OrderData orderRes) =>
      (* 2. Initiate Payment *)
      suspend i (AwaitPayment orderRes)
        (call (apiService.createPayment (order_id orderRes)) s)
  | AwaitOrder _, Ret _ => order_failed i TypeError s
  | AwaitOrder _, Throw e => order_failed i e s
  | AwaitPayment orderRes, Ret (PaymentData paymentRes) =>
      (* 3. Load Razorpay script *)
      suspend i (AwaitScript orderRes paymentRes) s
  | AwaitPayment _, Ret _ => order_failed i TypeError s
  | AwaitPayment _, Throw e => order_failed i e s
  | AwaitScript _ _, _ => s            (* settles through [ScriptLoaded] *)
  | AwaitVerify orderRes, Ret _ =>
      (* Mark payment as completed BEFORE clearing cart *)
      let s := setPaymentJustCompleted true s in
      if isLoggedIn (world s) then
        suspend i (AwaitClear orderRes) (call apiService.clearCart s)
      else
        payment_completed i orderRes (setWorld clearCart_finally s)
  | AwaitVerify _, Throw e =>
      finish i
        (release
           (toast error
              "Payment verification failed. Contact support if amount was deducted."
              (console_error "Payment verification failed:" s)))
  | AwaitClear orderRes, Ret _ =>
      payment_completed i orderRes (setWorld clearCart_finally s)
  | AwaitClear orderRes, Throw e =>
      payment_completed i orderRes
        (setWorld clearCart_finally (console_error "Clear cart error:" s))
  end.

(* lines 405-466: loadRazorpayScript has resolved *)
Definition script_loaded (i : nat) (orderRes : Order) (ok : bool) (s : Checkout)
  : Checkout :=
  if ok then
    (* 4. Open Razorpay Checkout *)
    finish i (setWidgets (widgets s ++ [Some orderRes]) s)
  else
    finish i
      (release
         (toast error
            "Failed to load payment gateway. Please refresh and try again." s)).

(* lines 421-423: the success handler of the widget, up to its await *)
Definition handler (j : nat) (orderRes : Order) (response : RazorpayResponse)
    (s : Checkout) : Checkout :=
  let s := setWidgets (<[j := None]> (widgets s)) s in
  setTasks (tasks s ++ [Some (AwaitVerify orderRes)])
    (call (apiService.verifyPayment response) s).

(* lines 451-456 *)
Definition ondismiss (j : nat) (s : Checkout) : Checkout :=
  (* User closed Razorpay modal: cart stays intact, order saved on backend *)
  toast info
    "Payment cancelled. Your order is saved - you can retry from your account."
    (release (setWidgets (<[j := None]> (widgets s)) s)).

(* lines 461-465: response.error.description || "Payment failed" *)
Definition payment_failed (description : option string) (s : Checkout) : Checkout :=
  let msg := match description with
             | Some d => if String.eqb d "" then "Payment failed" else d
             | None => "Payment failed"
             end in
  release (toast error msg s).

Inductive Input :=
| Click                                        (* Place Order is pressed *)
| Settle (task : nat) (r : Res Data)           (* an awaited call settles *)
| ScriptLoaded (task : nat) (ok : bool)
| PaymentSuccess (widget : nat) (response : RazorpayResponse)
| PaymentFailed (widget : nat) (description : option string)
| Dismiss (widget : nat).

(* one turn of the event loop; an input nobody waits for is ignored *)
Definition step (s : Checkout) (inp : Input) : Checkout :=
  match inp with
  | Click => handleCreateOrder s
  | Settle i r =>
      match tasks s !! i with
      | Some (Some ph) => resume i ph r s
      | _ => s
      end
  | ScriptLoaded i ok =>
      match tasks s !! i with
      | Some (Some (AwaitScript orderRes _)) => script_loaded i orderRes ok s
      | _ => s
      end
  | PaymentSuccess j response =>
      match widgets s !! j with
      | Some (Some orderRes) => handler j orderRes response s
      | _ => s
      end
  | PaymentFailed j description =>
      match widgets s !! j with
      | Some (Some _) => payment_failed description s
      | _ => s
      end
  | Dismiss j =>
      match widgets s !! j with
      | Some (Some _) => ondismiss j s
      | _ => s
      end
  end.

Definition run (s : Checkout) (inputs : list Input) : Checkout :=
  foldl step s inputs.

(* the page as it mounts for a logged-in customer *)
Definition mount (w : World) (addressId : option string) : Checkout :=
  {| world := w; selectedAddressId := addressId; processing := false;
     orderInFlight := false; paymentJustCompleted := false;
     orderSuccess := None; tasks := []; widgets := [] |}.

End Checkout_page.

(** *** What is counted on the checkout page *)

Definition is_createOrder (c : apiService.Call) : bool :=
  match c with
  | apiService.createOrder _ => true
  | _ => false
  end.

Definition is_createPayment (c : apiService.Call) : bool :=
  match c with
  | apiService.createPayment _ => true
  | _ => false
  end.

Definition count_calls (f : apiService.Call -> bool) (t : list Event) : nat :=
  length (filter (fun c => f c = true) (calls_of t)).

Definition orders_created (s : Checkout) : nat :=
  count_calls is_createOrder (trace (world s)).

Definition payments_created (s : Checkout) : nat :=
  count_calls is_createPayment (trace (world s)).

(* 1 for a submission whose order creation has not answered yet *)
Definition awaits_order (t : option Phase) : nat :=
  match t with
  | Some (AwaitOrder _) => 1
  | _ => 0
  end.

Definition pending_orders (s : Checkout) : nat :=
  sum_list_with awaits_order (tasks s).

(* the two quantities the latch protects: the order-creation calls, and
   the payment-creation calls together with those still to come *)
Definition creations (s : Checkout) : nat * nat :=
  (orders_created s, payments_created s + pending_orders s).

Definition is_clearCart (c : apiService.Call) : bool :=
  match c with
  | apiService.clearCart => true
  | _ => false
  end.

(** The two transitions of the success callback that come after its
    verification has answered: the continuation of a successful
    [verifyPayment], and the end of [clearCart]. *)
Definition after_verification (s : Checkout) (inp : Checkout_page.Input) : Prop :=
  exists i orderRes,
    (exists d, inp = Checkout_page.Settle i (Ret d) /\
               tasks s !! i = Some (Some (AwaitVerify orderRes))) \/
    (exists r, inp = Checkout_page.Settle i r /\
               tasks s !! i = Some (Some (AwaitClear orderRes))).

(* what the customer sees of the cart and of the order *)
Definition shown (s : Checkout)
  : list CartItem.t * gmap string SVal * option (string * string) * nat :=
  (items (world s), localStorage (world s), orderSuccess s,
   count_calls is_clearCart (trace (world s))).

(** ** The account page: [handleContinuePayment] (lines 212-279)

    The same shape of machine as the checkout page: a pending order is
    paid again through a new payment intent. *)

Module Account_page.

Inductive Phase :=
| AwaitPayment (order : Order)          (* line 219: apiService.createPayment *)
| AwaitScript (order : Order) (paymentRes : PaymentIntent)   (* line 222 *)
| AwaitVerify (order : Order).          (* line 239: apiService.verifyPayment *)

Record Account := {
  world : World;
  payingOrderId : option string;        (* useState *)
  paymentInFlight : bool;               (* useRef *)
  tasks : list (option Phase);
  widgets : list (option Order) }.

Definition setWorld (f : World -> World) (a : Account) : Account :=
  {| world := f (world a); payingOrderId := payingOrderId a;
     paymentInFlight := paymentInFlight a; tasks := tasks a;
     widgets := widgets a |}.

Definition setPayingOrderId (o : option string) (a : Account) : Account :=
  {| world := world a; payingOrderId := o;
     paymentInFlight := paymentInFlight a; tasks := tasks a;
     widgets := widgets a |}.

Definition setPaymentInFlight (b : bool) (a : Account) : Account :=
  {| world := world a; payingOrderId := payingOrderId a;
     paymentInFlight := b; tasks := tasks a; widgets := widgets a |}.

Definition setTasks (l : list (option Phase)) (a : Account) : Account :=
  {| world := world a; payingOrderId := payingOrderId a;
     paymentInFlight := paymentInFlight a; tasks := l; widgets := widgets a |}.

Definition setWidgets (l : list (option Order)) (a : Account) : Account :=
  {| world := world a; payingOrderId := payingOrderId a;
     paymentInFlight := paymentInFlight a; tasks := tasks a; widgets := l |}.

Definition call (c : apiService.Call) : Account -> Account :=
  setWorld (emit (ECall c)).

Definition toast (k : ToastKind) (msg : string) : Account -> Account :=
  setWorld (emit (EToast k msg)).

(* setPayingOrderId(null); paymentInFlight.current = false *)
Definition release (a : Account) : Account :=
  setPaymentInFlight false (setPayingOrderId None a).

Definition finish (i : nat) (a : Account) : Account :=
  setTasks (<[i := None]> (tasks a)) a.

(* lines 212-219: up to the first await *)
Definition handleContinuePayment (order : Order) (a : Account) : Account :=
  if paymentInFlight a then a
  else
    let a := setPayingOrderId (Some (order_id order)) (setPaymentInFlight true a) in
    (* Create payment for the existing pending order *)
    setTasks (tasks a ++ [Some (AwaitPayment order)])
      (call (apiService.createPayment (order_id order)) a).

(* error.response?.data?.detail || "Failed to initiate payment" *)
Definition payment_error_message (e : Exn) : string :=
  match e with
  | HttpError _ (Some d) => if String.eqb d "" then "Failed to initiate payment" else d
  | _ => "Failed to initiate payment"
  end.

Definition resume (i : nat) (ph : Phase) (r : Res Data) (a : Account) : Account :=
  match ph, r with
  | AwaitPayment order, Ret (PaymentData paymentRes) =>
      setTasks (<[i := Some (AwaitScript order paymentRes)]> (tasks a)) a
  | AwaitPayment _, Ret _ =>
      finish i (release (toast error (payment_error_message TypeError) a))
  | AwaitPayment _, Throw e =>
      finish i (release (toast error (payment_error_message e) a))
  | AwaitScript _ _, _ => a
  | AwaitVerify _, Ret _ =>
      finish i
        (release
           (call apiService.getOrders       (* refetchOrders() *)
              (toast success "Payment successful! Order confirmed." a)))
  | AwaitVerify _, Throw e =>
      finish i
        (release
           (toast error
              "Payment verification failed. Contact support if amount was deducted."
              (setWorld (emit (EConsole "Payment verification failed:")) a)))
  end.

Definition script_loaded (i : nat) (order : Order) (ok : bool) (a : Account)
  : Account :=
  if ok then finish i (setWidgets (widgets a ++ [Some order]) a)
  else
    finish i
      (release (toast error "Failed to load payment gateway. Please refresh." a)).

Definition handler (j : nat) (order : Order) (response : RazorpayResponse)
    (a : Account) : Account :=
  let a := setWidgets (<[j := None]> (widgets a)) a in
  setTasks (tasks a ++ [Some (AwaitVerify order)])
    (call (apiService.verifyPayment response) a).

Definition ondismiss (j : nat) (a : Account) : Account :=
  toast info "Payment cancelled. You can retry anytime."
    (release (setWidgets (<[j := None]> (widgets a)) a)).

Definition payment_failed (description : option string) (a : Account) : Account :=
  let msg := match description with
             | Some d => if String.eqb d "" then "Payment failed" else d
             | None => "Payment failed"
             end in
  release (toast error msg a).

Inductive Input :=
| ContinuePayment (order : Order)       (* Pay Now on a pending order *)
| Settle (task : nat) (r : Res Data)
| ScriptLoaded (task : nat) (ok : bool)
| PaymentSuccess (widget : nat) (response : RazorpayResponse)
| PaymentFailed (widget : nat) (description : option string)
| Dismiss (widget : nat).

Definition step (a : Account) (inp : Input) : Account :=
  match inp with
  | ContinuePayment order => handleContinuePayment order a
  | Settle i r =>
      match tasks a !! i with
      | Some (Some ph) => resume i ph r a
      | _ => a
      end
  | ScriptLoaded i ok =>
      match tasks a !! i with
      | Some (Some (AwaitScript order _)) => script_loaded i order ok a
      | _ => a
      end
  | PaymentSuccess j response =>
      match widgets a !! j with
      | Some (Some order) => handler j order response a
      | _ => a
      end
  | PaymentFailed j description =>
      match widgets a !! j with
      | Some (Some _) => payment_failed description a
      | _ => a
      end
  | Dismiss j =>
      match widgets a !! j with
      | Some (Some _) => ondismiss j a
      | _ => a
      end
  end.

Definition mount (w : World) : Account :=
  {| world := w; payingOrderId := None; paymentInFlight := false;
     tasks := []; widgets := [] |}.

End Account_page.

(** ** The mobile client (mobile/lib) *)

Module Mobile.

(** *** services/api_service.dart: the Dio instance (lines 136-197) *)

Record Device := {
  secure_storage : gmap string string;    (* FlutterSecureStorage *)
  log : list Event }.

Definition write (k : string) (v : option string) (d : Device) : Device :=
  {| secure_storage := match v with
                       | Some s => <[k := s]> (secure_storage d)
                       | None => delete k (secure_storage d)
                       end;
     log := log d |}.

Definition record (e : Event) (d : Device) : Device :=
  {| secure_storage := secure_storage d; log := log d ++ [e] |}.

Definition baseUrl : string := "https://api.yourstore.com/api/v1".

(* 'Bearer $token': a null token prints as "null" *)
Definition bearer (token : option string) : SVal :=
  Text (default "null" token).

Definition refresh_request (refreshToken : string) : Request :=
  {| method := POST; url := baseUrl +:+ "/auth/refresh";
     Authorization := None;
     body := [("refresh_token", Some (Text refreshToken))];
     _retry := false |}.

(* response.data['access_token'] and response.data['refresh_token']: a
   key the map lacks reads as null; the index operator throws on null
   ([None]) *)
Definition token_entries (data : Body) : option (option string * option string) :=
  match data with
  | TokenPair access_token refresh_token => Some (Some access_token, refresh_token)
  | NoBody | Payload NoData => None
  | Payload _ | Detail _ => Some (None, None)
  end.

(* lines 180-197; [write] with a null value deletes the key *)
Definition _refreshToken (net : Network) (d : Device) : bool * Device :=
  match secure_storage d !! "refresh_token" with
  | None => (false, d)
  | Some refreshToken =>
      let rq := refresh_request refreshToken in
      let d1 := record (EHttp bare rq) d in
      match ApiService.settle (net (log d) bare rq) with
      | Ret data =>
          match token_entries data with
          | Some (access_token, refresh_token) =>
              (true, write "refresh_token" refresh_token
                       (write "access_token" access_token d1))
          | None => (false, d1)     (* response.data[...] throws: caught *)
          end
      | Throw _ => (false, d1)
      end
  end.

(** [_dio.fetch(opts)] with the interceptor of lines 154-177.  The retry
    goes through the same instance, hence through the same interceptor;
    nothing marks a request as already retried, so the recursion has no
    bound of its own: [fuel] counts the requests still allowed.  The
    result is [None] while the future of the call has not completed:
    the requests allowed have run out, or nothing completes it.  The
    latter is the case of a retry that fails: [await _dio.fetch(opts)]
    throws inside the asynchronous [onError], which then calls neither
    [handler.resolve] nor [handler.next]. *)
Fixpoint fetch (fuel : nat) (net : Network) (opts : Request) (d : Device)
  : option (Res Body) * Device :=
  match fuel with
  | 0 => (None, d)
  | S fuel =>
      (* onRequest *)
      let opts := match secure_storage d !! "access_token" with
                  | Some token => set_Authorization (Text token) opts
                  | None => opts
                  end in
      let d1 := record (EHttp api_client opts) d in
      match ApiService.settle (net (log d) api_client opts) with
      | Ret response => (Some (Ret response), d1)
      | Throw err =>
          (* onError *)
          if is_401 err then
            (* Try to refresh token *)
            match _refreshToken net d1 with
            | (true, d2) =>
                (* Retry original request *)
                let token := secure_storage d2 !! "access_token" in
                match fetch fuel net (set_Authorization (bearer token) opts) d2 with
                | (Some (Ret response), d3) =>
                    (Some (Ret response), d3)     (* handler.resolve(response) *)
                | (_, d3) => (None, d3)
                end
            | (false, d2) => (Some (Throw err), d2)   (* handler.next(error) *)
            end
          else (Some (Throw err), d1)
      end
  end.

(** *** screens/checkout/checkout_screen.dart (lines 15-89, 303) *)

Inductive Phase :=
| AwaitOrder                       (* OrderNotifier.createOrder: line 81 *)
| AwaitOrders (order : Order)      (* its loadOrders(): line 82 *)
| AwaitPayment (order : Order).    (* processPayment: line 91 *)

Record CheckoutScreen := {
  _currentStep : Z;
  _selectedAddressId : option string;
  _isProcessing : bool;
  mounted : bool;
  calls : list apiService.Call;
  snackbars : list string;
  razorpay_open : list Order;            (* _razorpay.open(options) *)
  route : option string;                 (* context.go *)
  tasks : list (option Phase) }.

(* initState: the fields as declared on lines 16-18 *)
Definition initial : CheckoutScreen :=
  {| _currentStep := 0; _selectedAddressId := None; _isProcessing := false;
     mounted := true; calls := []; snackbars := []; razorpay_open := [];
     route := None; tasks := [] |}.

Definition set_currentStep (n : Z) (s : CheckoutScreen) : CheckoutScreen :=
  {| _currentStep := n; _selectedAddressId := _selectedAddressId s;
     _isProcessing := _isProcessing s; mounted := mounted s; calls := calls s;
     snackbars := snackbars s; razorpay_open := razorpay_open s;
     route := route s; tasks := tasks s |}.

Definition set_isProcessing (b : bool) (s : CheckoutScreen) : CheckoutScreen :=
  {| _currentStep := _currentStep s; _selectedAddressId := _selectedAddressId s;
     _isProcessing := b; mounted := mounted s; calls := calls s;
     snackbars := snackbars s; razorpay_open := razorpay_open s;
     route := route s; tasks := tasks s |}.

Definition set_mounted (b : bool) (s : CheckoutScreen) : CheckoutScreen :=
  {| _currentStep := _currentStep s; _selectedAddressId := _selectedAddressId s;
     _isProcessing := _isProcessing s; mounted := b; calls := calls s;
     snackbars := snackbars s; razorpay_open := razorpay_open s;
     route := route s; tasks := tasks s |}.

Definition call (c : apiService.Call) (s : CheckoutScreen) : CheckoutScreen :=
  {| _currentStep := _currentStep s; _selectedAddressId := _selectedAddressId s;
     _isProcessing := _isProcessing s; mounted := mounted s;
     calls := calls s ++ [c];
     snackbars := snackbars s; razorpay_open := razorpay_open s;
     route := route s; tasks := tasks s |}.

Definition showSnackBar (msg : string) (s : CheckoutScreen) : CheckoutScreen :=
  {| _currentStep := _currentStep s; _selectedAddressId := _selectedAddressId s;
     _isProcessing := _isProcessing s; mounted := mounted s; calls := calls s;
     snackbars := snackbars s ++ [msg]; razorpay_open := razorpay_open s;
     route := route s; tasks := tasks s |}.

Definition open_razorpay (o : Order) (s : CheckoutScreen) : CheckoutScreen :=
  {| _currentStep := _currentStep s; _selectedAddressId := _selectedAddressId s;
     _isProcessing := _isProcessing s; mounted := mounted s; calls := calls s;
     snackbars := snackbars s; razorpay_open := razorpay_open s ++ [o];
     route := route s; tasks := tasks s |}.

Definition go (r : string) (s : CheckoutScreen) : CheckoutScreen :=
  {| _currentStep := _currentStep s; _selectedAddressId := _selectedAddressId s;
     _isProcessing := _isProcessing s; mounted := mounted s; calls := calls s;
     snackbars := snackbars s; razorpay_open := razorpay_open s;
     route := Some r; tasks := tasks s |}.

Definition set_tasks (l : list (option Phase)) (s : CheckoutScreen) : CheckoutScreen :=
  {| _currentStep := _currentStep s; _selectedAddressId := _selectedAddressId s;
     _isProcessing := _isProcessing s; mounted := mounted s; calls := calls s;
     snackbars := snackbars s; razorpay_open := razorpay_open s;
     route := route s; tasks := l |}.

(* lines 62-66: finally { if (mounted) setState(() => _isProcessing = false) } *)
Definition finally_ (i : nat) (s : CheckoutScreen) : CheckoutScreen :=
  let s := if mounted s then set_isProcessing false s else s in
  set_tasks (<[i := None]> (tasks s)) s.

(* lines 38-49: up to the first await *)
Definition _placeOrder (s : CheckoutScreen) : CheckoutScreen :=
  match _selectedAddressId s with
  | None => showSnackBar "Please select a delivery address" s
  | Some addressId =>
      let s := set_isProcessing true s in
      set_tasks (tasks s ++ [Some AwaitOrder])
        (call (apiService.createOrder addressId) s)
  end.

Definition resume (i : nat) (ph : Phase) (r : Res Data) (s : CheckoutScreen)
  : CheckoutScreen :=
  match ph, r with
  | AwaitOrder, Ret (OrderData order) =>
      set_tasks (<[i := Some (AwaitOrders order)]> (tasks s))
        (call apiService.getOrders s)
  | AwaitOrder, _ => finally_ i s             (* createOrder returned null *)
  | AwaitOrders order, _ =>
      if mounted s then
        (* Process payment *)
        set_tasks (<[i := Some (AwaitPayment order)]> (tasks s))
          (call (apiService.createPayment (order_id order)) s)
      else finally_ i s
  | AwaitPayment order, Ret (PaymentData _) =>
      (* Navigate to success *)
      finally_ i (go ("/orders/" +:+ order_id order) (open_razorpay order s))
  | AwaitPayment _, _ => finally_ i (showSnackBar "Order failed" s)
  end.

Inductive Input :=
| StepContinue                      (* Stepper.onStepContinue, lines 83-89 *)
| StepCancel                        (* Stepper.onStepCancel, lines 90-94 *)
| PlaceOrderPressed                 (* the button of line 303 *)
| Settle (task : nat) (r : Res Data)
| Dispose.                          (* the screen leaves the tree *)

Definition step (s : CheckoutScreen) (inp : Input) : CheckoutScreen :=
  match inp with
  | StepContinue =>
      if negb (mounted s) then s
      else if (_currentStep s <? 2)%Z then set_currentStep (_currentStep s + 1) s
      else _placeOrder s
  | StepCancel =>
      if negb (mounted s) then s
      else if (_currentStep s >? 0)%Z then set_currentStep (_currentStep s - 1) s
      else s
  | PlaceOrderPressed =>
      (* onPressed: _isProcessing ? null : _placeOrder *)
      if negb (mounted s) || _isProcessing s then s else _placeOrder s
  | Settle i r =>
      match tasks s !! i with
      | Some (Some ph) => resume i ph r s
      | _ => s
      end
  | Dispose => set_mounted false s
  end.

Definition run (s : CheckoutScreen) (inputs : list Input) : CheckoutScreen :=
  foldl step s inputs.

End Mobile.

(** ** Concrete inputs used by the examples *)

(* a backend that is unreachable *)
Definition offline : Backend := fun _ _ => Throw NetworkError.

(* a backend that accepts everything and answers with an empty cart *)
Definition accepting : Backend := fun _ _ => Ret (CartData (Some [])).

Definition mala : Product.t :=
  Product.mk "p1" "Karungali Mala" 499 [] "karungali-mala-108" 20 true.

Definition mala_item (id : option string) (q : Z) : CartItem.t :=
  CartItem.mk id "p1" q mala.

(* a guest who has [l] in the cart, as persisted by the guest operations *)
Definition guest_with (l : list CartItem.t) : World :=
  {| items := l; loading := false; isLoggedIn := false;
     localStorage := {[ "guest_cart" := Stringified l ]};
     queryCache := ∅; location := None; trace := [] |}.

(* a logged-in customer whose server cart holds [l] *)
Definition customer_with (l : list CartItem.t) : World :=
  {| items := l; loading := false; isLoggedIn := true;
     localStorage := {[ "access_token" := Text "at"; "refresh_token" := Text "rt" ]};
     queryCache := ∅; location := None; trace := [] |}.

(* a backend that applies whatever it is asked, without looking at stock *)
Definition lenient : Backend :=
  fun _ c => match c with
             | apiService.getCart => Ret (CartData (Some [mala_item (Some "i1") 25]))
             | _ => Ret NoData
             end.

(* a network on which the access token is never accepted, while the
   refresh endpoint keeps handing out tokens *)
Definition always_401 : Network :=
  fun _ via _ =>
    match via with
    | api_client => Status 401 NoBody
    | bare => Status 200 (TokenPair "at2" (Some "rt2"))
    end.

Definition get_cart_request : Request := ApiService.request GET "/api/v1/cart".

Definition order1 : Order :=
  {| order_id := "o1"; order_number := "KH-0001"; order_total := "499" |}.

Definition intent1 : PaymentIntent :=
  {| razorpay_order_id := "order_R1"; razorpay_key_id := "rzp_key";
     amount := 49900; currency := "INR" |}.

Definition paid1 : RazorpayResponse :=
  {| rzp_order_id := "order_R1"; rzp_payment_id := "pay_1";
     rzp_signature := "sig" |}.

(* a customer at checkout with one item and a selected address *)
Definition at_checkout : Checkout :=
  Checkout_page.mount (customer_with [mala_item (Some "i1") 1]) (Some "addr1").

(* the customer hammers Place Order while the submission proceeds *)
Definition impatient : list Checkout_page.Input :=
  [Checkout_page.Click; Checkout_page.Click;
   Checkout_page.Settle 0 (Ret (OrderData order1));
   Checkout_page.Click;
   Checkout_page.Settle 0 (Ret (PaymentData intent1));
   Checkout_page.Click;
   Checkout_page.ScriptLoaded 0 true;
   Checkout_page.Click].

(* the checkout page with the payment widget of [order1] open *)
Definition widget_open : Checkout :=
  Checkout_page.run at_checkout impatient.

(* a device that holds both tokens *)
Definition signed_in_device : Mobile.Device :=
  {| Mobile.secure_storage := {[ "access_token" := "at"; "refresh_token" := "rt" ]};
     Mobile.log := [] |}.

(* the customer presses + ten times on a cart that holds one unit *)
Definition ten_plus_clicks : list GuestOp :=
  OpAdd mala None ::
  (OpUpdate "p1" <$> [2; 3; 4; 5; 6; 7; 8; 9; 10; 11]%Z).

(** * Further parts of the code *)

(** ** CartContext.tsx: the item count (lines 42-43) and the first render

    Quantities are whole numbers; a JavaScript number holds them, and
    their sums, exactly as long as they stay within [safe_integer]. *)

(* Number.MAX_SAFE_INTEGER + 1 *)
Definition safe_integer : Z := 2 ^ 53.

(* items.reduce((sum, item) => sum + item.quantity, 0) *)
Definition itemCount (l : list CartItem.t) : Z :=
  foldl (fun sum item => (sum + CartItem.quantity item)%Z) 0%Z l.

(** The providers as they mount on a page load: [useState([])],
    [useState(true)] in CartProvider (lines 38-39) and
    [useState(() => !!localStorage.getItem('access_token'))] in
    AuthProvider (line 14); local storage is what the browser kept. *)
Definition page_load (storage : gmap string SVal) : World :=
  {| items := []; loading := true;
     isLoggedIn := match storage !! "access_token" with
                   | Some v => truthy v
                   | None => false
                   end;
     localStorage := storage; queryCache := ∅; location := None; trace := [] |}.

(* AuthContext.tsx, lines 19-23: the storage event of another tab *)
Definition handleStorage (key : string) (newValue : option SVal) : M unit :=
  if String.eqb key "access_token" then
    modify (setIsLoggedIn (match newValue with
                           | Some v => truthy v
                           | None => false
                           end))
  else ret tt.

(* an addToCart that asks for at least one unit, as every caller does *)
Definition positive_add (op : GuestOp) : Prop :=
  match op with
  | OpAdd _ q => (1 <= default 1 q)%Z
  | _ => True
  end.

(** ** pages/Cart.tsx: the controls of a cart line (lines 116-148) *)

Module Cart_page.

(* disabled={item.quantity <= 1} *)
Definition minus_disabled (item : CartItem.t) : bool :=
  (CartItem.quantity item <=? 1)%Z.

(* disabled={item.quantity >= item.product.stock} *)
Definition plus_disabled (item : CartItem.t) : bool :=
  (CartItem.quantity item >=? Product.stock (CartItem.product item))%Z.

(* a disabled button does not fire its onClick *)
Definition press_minus (srv : Backend) (item : CartItem.t) : M unit :=
  if minus_disabled item then ret tt
  else updateQuantity srv (CartItem.product_id item) (CartItem.quantity item - 1).

Definition press_plus (srv : Backend) (item : CartItem.t) : M unit :=
  if plus_disabled item then ret tt
  else updateQuantity srv (CartItem.product_id item) (CartItem.quantity item + 1).

Definition press_remove (srv : Backend) (item : CartItem.t) : M unit :=
  removeFromCart srv (CartItem.product_id item).

(* the three buttons of a line *)
Inductive Button := Minus | Plus | Trash.

Definition disabled (b : Button) (item : CartItem.t) : bool :=
  match b with
  | Minus => minus_disabled item
  | Plus => plus_disabled item
  | Trash => false
  end.

Definition press (srv : Backend) (b : Button) (item : CartItem.t) : M unit :=
  match b with
  | Minus => press_minus srv item
  | Plus => press_plus srv item
  | Trash => press_remove srv item
  end.

(* a click on button [b] of the [n]-th line of [items.map(...)]; while
   the cart is loading the page shows no lines (lines 25-34) *)
Definition click (srv : Backend) (c : Button * nat) (w : World) : World :=
  if loading w then w
  else match items w !! c.2 with
       | Some item => exec (press srv c.1 item) w
       | None => w
       end.

(* each click is handled by the render its predecessor left *)
Definition clicks (srv : Backend) (cs : list (Button * nat)) (w : World) : World :=
  foldl (fun w c => click srv c w) w cs.

End Cart_page.

(* the units a button is meant to add to its line *)
Definition units (b : Cart_page.Button) (item : CartItem.t) : Z :=
  match b with
  | Cart_page.Minus => -1
  | Cart_page.Plus => 1
  | Cart_page.Trash => - CartItem.quantity item
  end.

(* a line whose quantity is at least one and within the stock *)
Definition in_range (item : CartItem.t) : Prop :=
  (1 <= CartItem.quantity item <= Product.stock (CartItem.product item))%Z.

(* the line of [productId] gets quantity [q]; the other lines stay *)
Definition with_quantity (productId : string) (q : Z) (l : list CartItem.t)
  : list CartItem.t :=
  (fun i => if decide (CartItem.product_id i = productId)
            then CartItem.set_quantity q i else i) <$> l.

(* what a guest finds in local storage under [guest_cart] *)
Definition stored_cart (storage : gmap string SVal) : list CartItem.t :=
  match storage !! "guest_cart" with
  | Some (Stringified l) => l
  | _ => []
  end.

(* a backend that refuses every call *)
Definition refusing : Backend := fun _ _ => Throw (HttpError 500 None).

(* [l.reduce((sum, x) => sum + g(x), 0)] *)
Definition reduce_sum {A} (g : A -> Z) (l : list A) : Z :=
  foldl (fun sum x => (sum + g x)%Z) 0%Z l.

(* a network that answers every request 403 *)
Definition forbidding : Network := fun _ _ _ => Status 403 (Detail "Forbidden").

(* a network that does not answer *)
Definition unplugged : Network := fun _ _ _ => NoResponse.

(* the part of the page the HTTP layer has no business with *)
Definition page_state (w : World) : list CartItem.t * bool * bool * gset string :=
  (items w, loading w, isLoggedIn w, queryCache w).

(** ** pages/Checkout.tsx: what the page derives from its state *)

(* something is under way: a suspended function, or an open payment widget *)
Definition in_progress (s : Checkout) : Prop :=
  (exists i ph, tasks s !! i = Some (Some ph)) \/
  (exists j orderRes, widgets s !! j = Some (Some orderRes)).

(* lines 313-317: the condition under which the empty cart guard sends
   the customer to /cart; [cartSettled] is the ref of lines 300-310 *)
Definition empty_cart_guard (cartSettled : bool) (s : Checkout) : bool :=
  cartSettled && negb (loading (world s))
  && (itemCount (items (world s)) =? 0)%Z
  && negb (paymentJustCompleted s).

(** ** The account page: what a payment from there can call *)

Definition payment_call (c : apiService.Call) : bool :=
  match c with
  | apiService.createPayment _ | apiService.verifyPayment _
  | apiService.getOrders => true
  | _ => false
  end.

(* Pay Now is under way: a suspended function, or an open widget *)
Definition paying (a : Account_page.Account) : Prop :=
  (exists i ph, Account_page.tasks a !! i = Some (Some ph)) \/
  (exists j order, Account_page.widgets a !! j = Some (Some order)).

(** ** The mobile client: the request as [onRequest] sends it
    (api_service.dart, lines 154-160) *)

Definition onRequest (d : Mobile.Device) (options : Request) : Request :=
  match Mobile.secure_storage d !! "access_token" with
  | Some token => set_Authorization (Text token) options
  | None => options
  end.

(* the access token is never accepted; the refresh endpoint answers with
   a new access token and no refresh token *)
Definition stingy : Network :=
  fun _ via _ =>
    match via with
    | api_client => Status 401 NoBody
    | bare => Status 200 (TokenPair "at2" None)
    end.

(* a device that holds an access token and no refresh token *)
Definition half_signed_in_device : Mobile.Device :=
  {| Mobile.secure_storage := {[ "access_token" := "at" ]}; Mobile.log := [] |}.

(** ** mobile/lib/screens/auth/otp_screen.dart

    The screen as a machine: its inputs are what the customer does, a
    turn of a running countdown loop, and the settling of the future a
    suspended handler awaits.  The futures of [AuthNotifier] settle as
    the outside decides. *)

Module OtpScreen.

Inductive NotifierCall :=
| verifyOtp (mobile otp : string)
| sendOtp (mobile : string).

Inductive Phase :=
| AwaitVerifyOtp        (* line 50 *)
| AwaitSendOtp.         (* line 80 *)

Record State := {
  mobileNumber : string;            (* widget.mobileNumber *)
  text : string;                    (* _otpController.text *)
  _isLoading : bool;
  _resendSeconds : Z;
  _canResend : bool;
  mounted : bool;
  timers : nat;                     (* the loops of [Future.doWhile] that
                                       still run *)
  tasks : list (option Phase);      (* suspended handlers; [None] once
                                       returned *)
  calls : list NotifierCall;
  snackbars : list string;
  route : option string }.          (* context.go *)

Definition set_text (t : string) (s : State) : State :=
  {| mobileNumber := mobileNumber s; text := t; _isLoading := _isLoading s;
     _resendSeconds := _resendSeconds s; _canResend := _canResend s;
     mounted := mounted s; timers := timers s; tasks := tasks s;
     calls := calls s; snackbars := snackbars s; route := route s |}.

Definition set_isLoading (b : bool) (s : State) : State :=
  {| mobileNumber := mobileNumber s; text := text s; _isLoading := b;
     _resendSeconds := _resendSeconds s; _canResend := _canResend s;
     mounted := mounted s; timers := timers s; tasks := tasks s;
     calls := calls s; snackbars := snackbars s; route := route s |}.

Definition set_resendSeconds (n : Z) (s : State) : State :=
  {| mobileNumber := mobileNumber s; text := text s; _isLoading := _isLoading s;
     _resendSeconds := n; _canResend := _canResend s;
     mounted := mounted s; timers := timers s; tasks := tasks s;
     calls := calls s; snackbars := snackbars s; route := route s |}.

Definition set_canResend (b : bool) (s : State) : State :=
  {| mobileNumber := mobileNumber s; text := text s; _isLoading := _isLoading s;
     _resendSeconds := _resendSeconds s; _canResend := b;
     mounted := mounted s; timers := timers s; tasks := tasks s;
     calls := calls s; snackbars := snackbars s; route := route s |}.

Definition set_mounted (b : bool) (s : State) : State :=
  {| mobileNumber := mobileNumber s; text := text s; _isLoading := _isLoading s;
     _resendSeconds := _resendSeconds s; _canResend := _canResend s;
     mounted := b; timers := timers s; tasks := tasks s;
     calls := calls s; snackbars := snackbars s; route := route s |}.

Definition set_timers (n : nat) (s : State) : State :=
  {| mobileNumber := mobileNumber s; text := text s; _isLoading := _isLoading s;
     _resendSeconds := _resendSeconds s; _canResend := _canResend s;
     mounted := mounted s; timers := n; tasks := tasks s;
     calls := calls s; snackbars := snackbars s; route := route s |}.

Definition set_tasks (l : list (option Phase)) (s : State) : State :=
  {| mobileNumber := mobileNumber s; text := text s; _isLoading := _isLoading s;
     _resendSeconds := _resendSeconds s; _canResend := _canResend s;
     mounted := mounted s; timers := timers s; tasks := l;
     calls := calls s; snackbars := snackbars s; route := route s |}.

Definition call (c : NotifierCall) (s : State) : State :=
  {| mobileNumber := mobileNumber s; text := text s; _isLoading := _isLoading s;
     _resendSeconds := _resendSeconds s; _canResend := _canResend s;
     mounted := mounted s; timers := timers s; tasks := tasks s;
     calls := calls s ++ [c]; snackbars := snackbars s; route := route s |}.

Definition showSnackBar (msg : string) (s : State) : State :=
  {| mobileNumber := mobileNumber s; text := text s; _isLoading := _isLoading s;
     _resendSeconds := _resendSeconds s; _canResend := _canResend s;
     mounted := mounted s; timers := timers s; tasks := tasks s;
     calls := calls s; snackbars := snackbars s ++ [msg]; route := route s |}.

Definition go (r : string) (s : State) : State :=
  {| mobileNumber := mobileNumber s; text := text s; _isLoading := _isLoading s;
     _resendSeconds := _resendSeconds s; _canResend := _canResend s;
     mounted := mounted s; timers := timers s; tasks := tasks s;
     calls := calls s; snackbars := snackbars s; route := Some r |}.

(* lines 29-42: one more loop of [Future.doWhile] runs *)
Definition _startResendTimer (s : State) : State :=
  set_timers (S (timers s)) s.

(* lines 19-27: the fields and [initState] *)
Definition initState (mobile : string) : State :=
  _startResendTimer
    {| mobileNumber := mobile; text := ""; _isLoading := false;
       _resendSeconds := 30; _canResend := false; mounted := true;
       timers := 0; tasks := []; calls := []; snackbars := []; route := None |}.

(* lines 31-40: one turn of a running loop, after its second of delay;
   the loop goes on while the callback returns true *)
Definition tick (s : State) : State :=
  match timers s with
  | 0 => s
  | S running =>
      if negb (mounted s) then set_timers running s
      else
        let s := if (_resendSeconds s >? 0)%Z
                 then set_resendSeconds (_resendSeconds s - 1) s
                 else set_canResend true s in
        if (_resendSeconds s >? 0)%Z then s else set_timers running s
  end.

(* lines 44-50: up to the await *)
Definition _verifyOtp (s : State) : State :=
  if negb (String.length (text s) =? 6) then s
  else
    let s := set_isLoading true s in
    set_tasks (tasks s ++ [Some AwaitVerifyOtp])
      (call (verifyOtp (mobileNumber s) (text s)) s).

(* lines 71-80: up to the await *)
Definition _resendOtp (s : State) : State :=
  if negb (_canResend s) then s
  else
    let s := set_resendSeconds 30 (set_canResend false s) in
    set_tasks (tasks s ++ [Some AwaitSendOtp])
      (call (sendOtp (mobileNumber s)) s).

(* lines 64-68: the finally block of [_verifyOtp] *)
Definition verify_finally (i : nat) (s : State) : State :=
  set_tasks (<[i := None]> (tasks s))
    (if mounted s then set_isLoading false s else s).

(* the future a handler awaits has settled: for [verifyOtp] with the
   value of [success], for [sendOtp] with its bare completion *)
Definition resume (i : nat) (ph : Phase) (r : Res bool) (s : State) : State :=
  match ph, r with
  | AwaitVerifyOtp, Ret ok =>
      verify_finally i (if mounted s && ok then go "/" s else s)
  | AwaitVerifyOtp, Throw _ =>
      verify_finally i
        (if mounted s then showSnackBar "Invalid OTP. Please try again." s else s)
  | AwaitSendOtp, Ret _ =>
      let s := _startResendTimer s in
      set_tasks (<[i := None]> (tasks s))
        (if mounted s then showSnackBar "OTP sent successfully!" s else s)
  | AwaitSendOtp, Throw _ =>
      set_tasks (<[i := None]> (tasks s))
        (if mounted s
         then showSnackBar "Failed to resend OTP" (set_canResend true s)
         else s)
  end.

Inductive Input :=
| Tick                              (* a second has passed for one loop *)
| Typed (t : string)                (* the OTP field changes *)
| VerifyPressed
| ResendPressed
| Settle (task : nat) (r : Res bool)
| Dispose.

(* the widgets answer only while the screen is mounted; [Pinput] calls
   [onCompleted] when the sixth character is entered (line 154); the
   buttons are disabled as lines 163 and 181 say *)
Definition step (s : State) (inp : Input) : State :=
  match inp with
  | Tick => tick s
  | Typed t =>
      if negb (mounted s) then s
      else
        let s := set_text t s in
        if String.length t =? 6 then _verifyOtp s else s
  | VerifyPressed =>
      if negb (mounted s) || _isLoading s then s else _verifyOtp s
  | ResendPressed =>
      if negb (mounted s) || negb (_canResend s) then s else _resendOtp s
  | Settle i r =>
      match tasks s !! i with
      | Some (Some ph) => resume i ph r s
      | _ => s
      end
  | Dispose => set_mounted false s
  end.

Definition run (s : State) (inputs : list Input) : State :=
  foldl step s inputs.

Definition is_sendOtp (c : NotifierCall) : bool :=
  match c with
  | sendOtp _ => true
  | verifyOtp _ _ => false
  end.

End OtpScreen.

(* what the countdown keeps: a loop runs only above zero, and nothing
   waits for [sendOtp] *)
Definition otp_inv (s : OtpScreen.State) : Prop :=
  OtpScreen._canResend s = false /\
  (0 <= OtpScreen._resendSeconds s <= 30)%Z /\
  OtpScreen.timers s <= 1 /\
  (OtpScreen.timers s = 1 -> (0 < OtpScreen._resendSeconds s)%Z) /\
  Forall (fun t => t <> Some OtpScreen.AwaitSendOtp) (OtpScreen.tasks s) /\
  Forall (fun c => OtpScreen.is_sendOtp c = false) (OtpScreen.calls s).

(** ** pages/Checkout.tsx, [handleAddAddress]: the mobile number of a new
    address (lines 346-350)

    A JavaScript string is a sequence of UTF-16 code units. *)

(* \s of a JavaScript regular expression: white space and line
   terminators *)
Definition is_space (c : N) : bool :=
  ((c =? 9) || (c =? 10) || (c =? 11) || (c =? 12) || (c =? 13) || (c =? 32)
   || (c =? 160) || (c =? 5760) || ((8192 <=? c) && (c <=? 8202))
   || (c =? 8232) || (c =? 8233) || (c =? 8239) || (c =? 8287)
   || (c =? 12288) || (c =? 65279))%N.

(* \d *)
Definition is_digit (c : N) : bool := ((48 <=? c) && (c <=? 57))%N.

(* [\s\-()] *)
Definition separator (c : N) : bool :=
  (is_space c || (c =? 45) || (c =? 40) || (c =? 41))%N.

(* mobile.replace(/[\s\-()]/g, '') *)
Definition without_separators (mobile : list N) : list N :=
  filter (fun c => separator c = false) mobile.

(* mobile.startsWith(c), for a one-character [c] *)
Definition startsWith (c : N) (mobile : list N) : bool :=
  match mobile with
  | x :: _ => (x =? c)%N
  | [] => false
  end.

(* the characters + 9 1 *)
Definition plus_91 : list N := [43; 57; 49]%N.

(* lines 347-349 *)
Definition sanitize_mobile (mobile : list N) : list N :=
  let mobile := without_separators mobile in
  let mobile := if startsWith 48 mobile then drop 1 mobile else mobile in
  if negb (startsWith 43 mobile) && (length mobile =? 10)
  then plus_91 ++ mobile else mobile.

(* line 350: /^\+?[1-9]\d{9,14}$/.test(mobile) *)
Definition valid_mobile (mobile : list N) : bool :=
  let digits := if startsWith 43 mobile then drop 1 mobile else mobile in
  match digits with
  | c :: rest =>
      (49 <=? c)%N && (c <=? 57)%N && forallb is_digit rest
      && (9 <=? length rest) && (length rest <=? 14)
  | [] => false
  end.

(* 98765 43210, as typed into the form: "(0) 98765-43210" *)
Definition typed_number : list N :=
  [40; 48; 41; 32; 57; 56; 55; 54; 53; 45; 52; 51; 50; 49; 48]%N.

(** ** The pages and the router

    What the pages share besides the two contexts: the session storage,
    the route of react-router, the notifications of [useToast] and the
    calls of the login page to [apiService]. *)

Inductive AuthCall :=
| sendOTP (mobileNumber : string)
| verifyOTP (mobileNumber otp : string).

Record Browser := {
  page : World;
  sessionStorage : gmap string string;
  path : option string;                 (* the last target of navigate() *)
  auth_calls : list AuthCall;
  notices : list (string * string) }.   (* title, description *)

Definition set_page (w : World) (b : Browser) : Browser :=
  {| page := w; sessionStorage := sessionStorage b; path := path b;
     auth_calls := auth_calls b; notices := notices b |}.

Definition set_sessionStorage (m : gmap string string) (b : Browser) : Browser :=
  {| page := page b; sessionStorage := m; path := path b;
     auth_calls := auth_calls b; notices := notices b |}.

Definition navigate (to : string) (b : Browser) : Browser :=
  {| page := page b; sessionStorage := sessionStorage b; path := Some to;
     auth_calls := auth_calls b; notices := notices b |}.

Definition auth_call (c : AuthCall) (b : Browser) : Browser :=
  {| page := page b; sessionStorage := sessionStorage b; path := path b;
     auth_calls := auth_calls b ++ [c]; notices := notices b |}.

Definition notice (title description : string) (b : Browser) : Browser :=
  {| page := page b; sessionStorage := sessionStorage b; path := path b;
     auth_calls := auth_calls b; notices := notices b ++ [(title, description)] |}.

(* a page as the browser opens the site: no route taken yet *)
Definition browse (w : World) : Browser :=
  {| page := w; sessionStorage := ∅; path := None; auth_calls := [];
     notices := [] |}.

Module Cart.

(* pages/Cart.tsx, lines 14-23 *)
Definition handleCheckout (b : Browser) : Browser :=
  if (itemCount (items (page b)) =? 0)%Z then b
  else if negb (isLoggedIn (page b)) then
    navigate "/login"
      (set_sessionStorage (<["return_url" := "/checkout"]> (sessionStorage b)) b)
  else navigate "/checkout" b.

End Cart.

Module Checkout_effects.

(* pages/Checkout.tsx, lines 292-297: the auth guard *)
Definition auth_guard (b : Browser) : Browser :=
  if negb (isLoggedIn (page b)) then
    navigate "/login"
      (set_sessionStorage (<["return_url" := "/checkout"]> (sessionStorage b)) b)
  else b.

End Checkout_effects.

Module Login.

(* error.response?.data?.detail || "Please try again" *)
Definition description_of (e : Exn) : string :=
  match e with
  | HttpError _ (Some d) => if String.eqb d "" then "Please try again" else d
  | _ => "Please try again"
  end.

(* pages/Login.tsx, lines 52-100; [r] is how [apiService.verifyOTP]
   settles.  A field the response lacks reads as [undefined].  The
   [verifying] state (lines 62 and 98) only drives the spinner of the
   button and is left out; [console.error(error)] is recorded by the
   description of the error.  The OTP is the text of the six slots of
   the input: the length compared with 6 is its number of characters,
   one byte each here.  What the HTTP client does to the token keys and
   to the location while the call is answered 401 is not part of [r]. *)
Definition handleVerifyOTP (mobileNumber otp : string) (r : Res Body)
    (b : Browser) : Browser :=
  if negb (String.length otp =? 6) then
    notice "Invalid OTP" "Please enter the 6-digit OTP" b
  else
    let b := auth_call (verifyOTP mobileNumber otp) b in
    match r with
    | Ret (TokenPair access_token refresh_token) =>
        if negb (String.eqb access_token "") then
          (* Use AuthContext login: single source of truth for token storage *)
          let b := set_page
                     (exec (login access_token (default "undefined" refresh_token))
                           (page b)) b in
          let b := notice "Login Successful" "Welcome back!" b in
          (* Check for return url *)
          match sessionStorage b !! "return_url" with
          | Some returnUrl =>
              if negb (String.eqb returnUrl "") then
                navigate returnUrl
                  (set_sessionStorage (delete "return_url" (sessionStorage b)) b)
              else navigate "/account" b
          | None => navigate "/account" b
          end
        else notice "Error" "Failed to retrieve access token" b
    | Ret _ => notice "Error" "Failed to retrieve access token" b
    | Throw e =>
        notice "Invalid OTP" (description_of e)
          (set_page (emit (EConsole (description_of e)) (page b)) b)
    end.

End Login.

Module Index.

(* the home page, lines 25-40; [isLoggedIn] is the value of the render
   that created the handler *)
Definition handleBuyNow (srv : Backend) (productData : option Product.t)
    (b : Browser) : Browser :=
  match productData with
  | None => b
  | Some product =>
      let isLoggedIn := isLoggedIn (page b) in
      match addToCart srv product (Some 1%Z) (page b) with
      | (Ret _, w) =>
          (* Logged-in users go straight to checkout; guests go to cart *)
          if isLoggedIn then navigate "/checkout" (set_page w b)
          else navigate "/cart" (set_page w b)
      | (Throw _, w) =>
          set_page (exec (toast error "Failed to add to cart") w) b
      end
  end.

End Index.

(* a product that is sold out *)
Definition sold_out : Product.t :=
  Product.mk "p2" "Karungali Bracelet" 299 [] "karungali-bracelet" 0 true.

(** ** The cart of the mobile app: [CartNotifier] (cart_provider.dart) *)

Module CartNotifier.

Record CartState := {
  cart : option Data;           (* the map the server sent; [const {}]
                                   before the first answer *)
  isLoading : bool;
  error : option string }.

(* lines 16-26: [error] is not kept *)
Definition copyWith (cart' : option Data) (isLoading' : option bool)
    (error' : option string) (s : CartState) : CartState :=
  {| cart := match cart' with Some c => Some c | None => cart s end;
     isLoading := default (isLoading s) isLoading';
     error := error' |}.

Record Notifier := {
  state : CartState;
  log : list Event }.

Definition set_state (s : CartState) (n : Notifier) : Notifier :=
  {| state := s; log := log n |}.

(* a method of the API service is awaited *)
Definition await_api (srv : Backend) (c : apiService.Call) (n : Notifier)
  : Res Data * Notifier :=
  (srv (log n) c, {| state := state n; log := log n ++ [ECall c] |}).

(* [response.data as Map<String, dynamic>]: the cast of null throws *)
Definition as_map (d : Data) : option Data :=
  match d with
  | NoData => None
  | _ => Some d
  end.

(* lines 35-49 *)
Definition loadCart (srv : Backend) (n : Notifier) : Notifier :=
  let n := set_state (copyWith None (Some true) None (state n)) n in
  match await_api srv apiService.getCart n with
  | (Ret d, n) =>
      match as_map d with
      | Some m => set_state (copyWith (Some m) (Some false) None (state n)) n
      | None =>
          set_state (copyWith None (Some false) (Some "Failed to load cart")
                       (state n)) n
      end
  | (Throw _, n) =>
      set_state (copyWith None (Some false) (Some "Failed to load cart")
                   (state n)) n
  end.

(* lines 51-76: the three changes have one shape *)
Definition change (srv : Backend) (c : apiService.Call) (n : Notifier) : Notifier :=
  match await_api srv c n with
  | (Ret _, n) => loadCart srv n
  | (Throw _, n) => n           (* Handle error *)
  end.

Definition addItem (srv : Backend) (productId : string) (quantity : Z) :=
  change srv (apiService.addToCart productId quantity).

Definition updateQuantity (srv : Backend) (itemId : string) (quantity : Z) :=
  change srv (apiService.updateCartItem itemId quantity).

Definition removeItem (srv : Backend) (itemId : string) :=
  change srv (apiService.removeFromCart itemId).

(* the buttons of a line of cart_screen.dart *)
Inductive Tap :=
| add (productId : string) (quantity : Z)
| update (itemId : string) (quantity : Z)
| remove (itemId : string).

Definition call_of_tap (t : Tap) : apiService.Call :=
  match t with
  | add productId quantity => apiService.addToCart productId quantity
  | update itemId quantity => apiService.updateCartItem itemId quantity
  | remove itemId => apiService.removeFromCart itemId
  end.

Definition tap (srv : Backend) (t : Tap) : Notifier -> Notifier :=
  match t with
  | add productId quantity => addItem srv productId quantity
  | update itemId quantity => updateQuantity srv itemId quantity
  | remove itemId => removeItem srv itemId
  end.

End CartNotifier.

(* the mobile cart after a first load that brought one line *)
Definition mobile_cart : CartNotifier.Notifier :=
  {| CartNotifier.state :=
       {| CartNotifier.cart := Some (CartData (Some [mala_item (Some "i1") 2]));
          CartNotifier.isLoading := false; CartNotifier.error := None |};
     CartNotifier.log := [ECall apiService.getCart] |}.

(* every character of the string is one byte here and one UTF-16 code
   unit in the browser, so that [String.length] is the [length] of the
   code *)
Fixpoint ascii_only (s : string) : bool :=
  match s with
  | EmptyString => true
  | String c rest => (Ascii.nat_of_ascii c <? 128) && ascii_only rest
  end.

(* a verification that does not hand over an access token: the OTP does
   not have six characters, or the answer carries no token *)
Definition no_token (otp : string) (r : Res Body) : Prop :=
  (ascii_only otp = true /\ String.length otp <> 6) \/
  match r with
  | Ret (TokenPair access_token _) => access_token = ""
  | _ => True
  end.

(** * Proofs *)

Ltac unfold_js :=
  unfold exec, bind, try_catch, try_finally, gets, modify, ret, throw, toast,
    console_error, await_call, JSON_parse,
    Storage.getItem, Storage.setItem, Storage.removeItem in *.

(* evaluate the straight-line part, keeping the map operations folded *)
Ltac js_simpl := cbn -[lookup delete insert].

Lemma calls_of_app t1 t2 : calls_of (t1 ++ t2) = calls_of t1 ++ calls_of t2.
Proof. apply omap_app. Qed.

Lemma toasts_of_app t1 t2 : toasts_of (t1 ++ t2) = toasts_of t1 ++ toasts_of t2.
Proof. apply omap_app. Qed.

Lemma product_id_alter q i (l : list CartItem.t) :
  CartItem.product_id <$> alter (CartItem.set_quantity q) i l
  = CartItem.product_id <$> l.
Proof.
  rewrite (list_fmap_alter CartItem.product_id (CartItem.set_quantity q) id).
  - apply list_alter_id. done.
  - apply Forall_forall. done.
Qed.

Lemma product_id_fresh pid (l : list CartItem.t) :
  list_find (fun i => CartItem.product_id i = pid) l = None ->
  pid ∉ CartItem.product_id <$> l.
Proof.
  intros Hnone%list_find_None Hin.
  apply list_elem_of_fmap in Hin as (x & -> & Hx).
  rewrite Forall_forall in Hnone. by apply (Hnone x).
Qed.

Lemma product_id_filter_NoDup pid (l : list CartItem.t) :
  NoDup (CartItem.product_id <$> l) ->
  NoDup (CartItem.product_id <$> filter (fun i => CartItem.product_id i <> pid) l).
Proof.
  intros Hnd. eapply sublist_NoDup; [exact Hnd|].
  apply fmap_sublist, sublist_filter.
Qed.

Section GuestInvariant.
Context (srv : Backend).

Lemma guest_world_inv : guest_inv guest_world.
Proof. split; simpl; auto using NoDup_nil_2. Qed.

Ltac inv_fields Hc :=
  split; simpl; rewrite ?calls_of_app, ?Hc, ?product_id_alter, ?lookup_insert_eq;
  auto.

Lemma addToCart_guest_inv p q w :
  guest_inv w -> guest_inv (exec (addToCart srv p q) w).
Proof.
  intros [Hg Hnd Hst Hc]. unfold addToCart.
  destruct (negb _ || _); [unfold_js; by inv_fields Hc|].
  unfold_js. simpl. rewrite Hg.
  destruct (list_find _ (items w)) as [[i x]|] eqn:Hfind; simpl.
  - destruct (_ >? _)%Z; simpl; by inv_fields Hc.
  - inv_fields Hc.
    rewrite fmap_app. apply NoDup_app. split_and!; [done| |apply NoDup_singleton].
    intros y Hy ->%list_elem_of_singleton.
    by eapply product_id_fresh.
Qed.

Lemma updateQuantity_guest_inv pid q w :
  guest_inv w -> guest_inv (exec (updateQuantity srv pid q) w).
Proof.
  intros [Hg Hnd Hst Hc]. unfold updateQuantity.
  destruct (q <? 1)%Z; [unfold_js; by inv_fields Hc|].
  unfold_js. simpl. rewrite Hg.
  destruct (list_find _ (items w)) as [[i x]|] eqn:Hfind; simpl;
    [|by inv_fields Hc].
  destruct (_ <? _)%Z; simpl; by inv_fields Hc.
Qed.

Lemma removeFromCart_guest_inv pid w :
  guest_inv w -> guest_inv (exec (removeFromCart srv pid) w).
Proof.
  intros [Hg Hnd Hst Hc]. unfold removeFromCart.
  unfold_js. simpl. rewrite Hg. simpl.
  inv_fields Hc. by apply product_id_filter_NoDup.
Qed.

Lemma run_ops_guest_inv ops w :
  guest_inv w -> guest_inv (run_ops srv ops w).
Proof.
  revert w. induction ops as [|op ops IH]; intros w Hw; [done|].
  simpl. apply IH. destruct op; simpl;
    auto using addToCart_guest_inv, updateQuantity_guest_inv, removeFromCart_guest_inv.
Qed.

End GuestInvariant.

(** ** The login transition: [refreshCart] with a persisted guest cart *)

Section LoginMerge.
Context (srv : Backend).

Lemma refreshCart_merge w l :
  isLoggedIn w = true ->
  localStorage w !! "guest_cart" = Some (Stringified l) ->
  l <> [] ->
  let merge := apiService.mergeCart (mergePayload l) in
  let t1 := (trace w ++ [ECall merge]) ++ merge_log (srv (trace w) merge) in
  let w' := exec (refreshCart srv) w in
  fst (refreshCart srv w) = Ret tt /\
  trace w' = (t1 ++ [ECall apiService.getCart]) ++ load_log (srv t1 apiService.getCart) /\
  localStorage w' = delete "guest_cart" (localStorage w) /\
  items w' = match srv t1 apiService.getCart with
             | Ret d => cart_items_of d
             | Throw _ => items w
             end /\
  isLoggedIn w' = true.
Proof.
  intros Hlog Hst Hne. destruct l as [|i l]; [done|].
  unfold refreshCart. unfold_js. js_simpl. rewrite Hlog. js_simpl. rewrite Hst.
  js_simpl.
  destruct (srv (trace w) _) as [d|e]; js_simpl.
  - rewrite app_nil_r.
    destruct (srv (trace w ++ _) apiService.getCart) as [d'|e'];
      repeat (js_simpl; rewrite ?Hlog, ?app_nil_r); done.
  - destruct (srv ((trace w ++ _) ++ _) apiService.getCart) as [d'|e'];
      repeat (js_simpl; rewrite ?Hlog, ?app_nil_r); done.
Qed.

(* no guest cart stored, or an empty one: no merge call at all *)
Lemma refreshCart_no_merge w :
  isLoggedIn w = true ->
  localStorage w !! "guest_cart" = None \/
  localStorage w !! "guest_cart" = Some (Stringified []) ->
  let w' := exec (refreshCart srv) w in
  trace w' = (trace w ++ [ECall apiService.getCart])
               ++ load_log (srv (trace w) apiService.getCart) /\
  localStorage w' !! "guest_cart" = None /\
  items w' = match srv (trace w) apiService.getCart with
             | Ret d => cart_items_of d
             | Throw _ => items w
             end.
Proof.
  intros Hlog [Hst|Hst]; unfold refreshCart; unfold_js; js_simpl;
    rewrite Hlog; js_simpl; rewrite Hst; js_simpl;
    destruct (srv (trace w) apiService.getCart) as [d'|e'];
    repeat (js_simpl; rewrite ?Hlog, ?app_nil_r, ?lookup_delete_eq); done.
Qed.

End LoginMerge.

(** ** Properties of the cart *)

Lemma calls_of_merge_log r : calls_of (merge_log r) = [].
Proof. by destruct r. Qed.

Lemma calls_of_load_log r : calls_of (load_log r) = [].
Proof. by destruct r. Qed.

Lemma login_spec a r w :
  let w1 := exec (login a r) w in
  isLoggedIn w1 = true /\ trace w1 = trace w /\ items w1 = items w /\
  localStorage w1 !! "guest_cart" = localStorage w !! "guest_cart".
Proof.
  unfold login. unfold_js. js_simpl. split_and!; try done.
  by rewrite !lookup_insert_ne.
Qed.

(** C1 (not met by the code): a guest adds one unit of a
    product with stock 20 and presses + ten times; each press calls
    [updateQuantity] with the next quantity, which only compares it with
    the stock.  The cart then holds 11 units, above the cap of 10 that
    [addToCart] enforces. *)
Theorem C1_updateQuantity_exceeds_cap :
  let w := run_ops offline ten_plus_clicks guest_world in
  items w = [mala_item None 11] /\
  exists i, i ∈ items w /\
    ~ (CartItem.quantity i <= Z.min (Product.stock (CartItem.product i)) 10)%Z.
Proof.
  intros w.
  assert (items w = [mala_item None 11]) as Hw by (vm_compute; reflexivity).
  split; [exact Hw|].
  exists (mala_item None 11). rewrite Hw. split.
  - by apply list_elem_of_singleton.
  - simpl. lia.
Qed.

(* the stock half of the invariant does hold, for a guest who shops from
   one catalogue: no operation lets a quantity exceed the stock *)
Lemma guest_quantity_within_stock srv ops :
  one_catalogue (omap added_product ops) ->
  Forall (fun i => (CartItem.quantity i <= Product.stock (CartItem.product i))%Z)
         (items (run_ops srv ops guest_world)).
Proof.
  intros Hcat.
  set (ps := omap added_product ops) in *.
  set (ok := fun i => CartItem.product i ∈ ps /\
                      CartItem.product_id i = Product.id (CartItem.product i) /\
                      (CartItem.quantity i <= Product.stock (CartItem.product i))%Z).
  assert (forall ops' w,
            omap added_product ops' ⊆ ps -> isLoggedIn w = false ->
            Forall ok (items w) -> Forall ok (items (run_ops srv ops' w))) as Hrun.
  { induction ops' as [|op ops' IH]; intros w Hsub Hg Hok; [done|].
    assert (omap added_product ops' ⊆ ps) as Hsub'.
    { intros x Hx. apply Hsub. destruct op; simpl; [right|..]; done. }
    simpl. destruct op as [p q|pid q|pid]; simpl.
    - assert (p ∈ ps) as Hp by (apply Hsub; simpl; left).
      unfold addToCart. destruct (negb _ || _) eqn:Hguard.
      { unfold_js. js_simpl. by apply IH. }
      apply orb_false_iff in Hguard as [_ Hstock%Z.ltb_ge].
      unfold_js. js_simpl. rewrite Hg.
      destruct (list_find _ (items w)) as [[i x]|] eqn:Hfind; js_simpl.
      + apply list_find_Some in Hfind as (Hix & Hid & _).
        destruct (_ >? _)%Z eqn:Hnew; js_simpl; apply IH; try done.
        rewrite Z.gtb_ltb in Hnew. apply Z.ltb_ge in Hnew.
        apply Forall_alter; [done|]. intros y Hy (Hin & Hpid & _).
        assert (y = x) as -> by congruence.
        assert (CartItem.product x = p) as Hxp.
        { apply Hcat; [done..|]. by rewrite <- Hpid. }
        split_and!; try done. simpl. rewrite Hxp. lia.
      + apply IH; try done. apply Forall_app. split; [done|].
        apply Forall_singleton. split_and!; try done. simpl. lia.
    - unfold updateQuantity. destruct (q <? 1)%Z.
      { unfold_js. js_simpl. by apply IH. }
      unfold_js. js_simpl. rewrite Hg.
      destruct (list_find _ (items w)) as [[i x]|] eqn:Hfind; js_simpl;
        [|by apply IH].
      apply list_find_Some in Hfind as (Hix & _ & _).
      destruct (_ <? _)%Z eqn:Hstock; js_simpl; apply IH; try done.
      apply Z.ltb_ge in Hstock.
      apply Forall_alter; [done|]. intros y Hy (Hin & Hpid & _).
      assert (y = x) as -> by congruence. split_and!; done.
    - unfold removeFromCart. unfold_js. js_simpl. rewrite Hg. js_simpl.
      apply IH; try done. apply Forall_forall.
      intros y [_ Hy]%list_elem_of_filter.
      rewrite Forall_forall in Hok. by apply Hok. }
  specialize (Hrun ops guest_world (reflexivity _) eq_refl (Forall_nil_2 _)).
  eapply Forall_impl; [exact Hrun|]. by intros i (_ & _ & Hq).
Qed.

(* the sibling path: as long as the quantity is only changed by
   [addToCart] (and items removed), the cap of 10 holds *)
Lemma addToCart_keeps_cap srv ops w :
  isLoggedIn w = false ->
  Forall no_update ops ->
  Forall (fun i => (CartItem.quantity i <= 10)%Z) (items w) ->
  Forall (fun i => (CartItem.quantity i <= 10)%Z) (items (run_ops srv ops w)).
Proof.
  intros Hg Hops. revert w Hg.
  induction Hops as [|op ops Hop Hops IH]; intros w Hg Hcap; [done|].
  simpl. destruct op as [p q|pid q|pid]; [|done|]; simpl.
  - unfold addToCart. destruct (negb _ || _).
    { unfold_js. js_simpl. by apply IH. }
    unfold_js. js_simpl. rewrite Hg.
    destruct (list_find _ (items w)) as [[i x]|] eqn:Hfind; js_simpl.
    + destruct (_ >? _)%Z; js_simpl; apply IH; try done.
      apply Forall_alter; [done|]. intros y _ _. simpl. lia.
    + apply IH; try done. apply Forall_app. split; [done|].
      apply Forall_singleton. simpl. lia.
  - unfold removeFromCart. unfold_js. js_simpl. rewrite Hg. js_simpl.
    apply IH; try done. apply Forall_forall. intros y [_ Hy]%list_elem_of_filter.
    rewrite Forall_forall in Hcap. by apply Hcap.
Qed.

Lemma mergePayload_fst (l : list CartItem.t) :
  (mergePayload l).*1 = CartItem.product_id <$> l.
Proof. unfold mergePayload. rewrite <- list_fmap_compose. done. Qed.

(** C8: in every guest cart built from the empty cart by [addToCart],
    [updateQuantity] and [removeFromCart] no two entries share a
    [product_id].  At login a non-empty cart is sent in one merge call,
    whose payload is that cart: it names each product once; no other
    merge call is ever made; and the [guest_cart] key is gone from local
    storage afterwards. *)
Theorem C8_guest_cart_one_entry_per_product
    (srv : Backend) (ops : list GuestOp) (accessToken refreshToken : string) :
  let w1 := run_ops srv ops guest_world in
  let w2 := exec (refreshCart srv) (exec (login accessToken refreshToken) w1) in
  NoDup (CartItem.product_id <$> items w1) /\
  (forall payload, apiService.mergeCart payload ∈ calls_of (trace w2) ->
     payload = mergePayload (items w1) /\ NoDup payload.*1) /\
  (items w1 <> [] ->
     calls_of (trace w2)
     = [apiService.mergeCart (mergePayload (items w1)); apiService.getCart]) /\
  localStorage w2 !! "guest_cart" = None.
Proof.
  intros w1 w2.
  destruct (run_ops_guest_inv srv ops guest_world (guest_world_inv)) as [Hg Hnd Hst Hc].
  fold w1 in Hg, Hnd, Hst, Hc.
  destruct (login_spec accessToken refreshToken w1) as (Hlog & Htr & Hit & Hgc).
  split; [done|].
  assert (localStorage (exec (login accessToken refreshToken) w1) !! "guest_cart" = None \/
          (items w1 = [] /\
           localStorage (exec (login accessToken refreshToken) w1) !! "guest_cart"
           = Some (Stringified []))
          \/ (items w1 <> [] /\
              localStorage (exec (login accessToken refreshToken) w1) !! "guest_cart"
              = Some (Stringified (items w1)))) as Hcases.
  { rewrite Hgc. destruct Hst as [Hst|[Hnil Hst]]; [|by left].
    destruct (items w1) eqn:Hi; [by right; left|]. right; right. by rewrite Hst. }
  destruct Hcases as [Hnone|[[Hnil Hempty]|[Hne Hsome]]].
  - destruct (refreshCart_no_merge srv _ Hlog (or_introl Hnone)) as (Ht & Hs & _).
    assert (items w1 = []) as Hnil.
    { destruct Hst as [Hst|[Hnil _]]; [|done]. rewrite Hgc, Hst in Hnone. done. }
    split_and!; [|done|done]. intros payload. unfold w2. rewrite Ht, Htr.
    rewrite !calls_of_app, Hc, calls_of_load_log. simpl.
    intros Hin%list_elem_of_singleton. done.
  - destruct (refreshCart_no_merge srv _ Hlog (or_intror Hempty)) as (Ht & Hs & _).
    split_and!; [|done|done]. intros payload. unfold w2. rewrite Ht, Htr.
    rewrite !calls_of_app, Hc, calls_of_load_log. simpl.
    intros Hin%list_elem_of_singleton. done.
  - destruct (refreshCart_merge srv _ _ Hlog Hsome Hne) as (_ & Ht & Hs & _ & _).
    assert (calls_of (trace w2)
            = [apiService.mergeCart (mergePayload (items w1)); apiService.getCart])
      as Hcalls.
    { unfold w2. rewrite Ht, Htr.
      by rewrite !calls_of_app, Hc, calls_of_load_log, calls_of_merge_log. }
    split_and!.
    + intros payload. rewrite Hcalls.
      intros Hin. apply elem_of_cons in Hin as [Heq|Hin].
      * inversion Heq; subst. split; [done|]. by rewrite mergePayload_fst.
      * apply list_elem_of_singleton in Hin. done.
    + done.
    + unfold w2. rewrite Hs. apply lookup_delete_eq.
Qed.



(** C10: when the product is inactive or its stock is below the requested
    quantity, [addToCart] returns after one error notification and changes
    nothing: items and local storage are the same and no call reaches the
    server, for a guest as for a logged-in customer. *)
Theorem C10_addToCart_unavailable
    (srv : Backend) (product : Product.t) (quantity : option Z) (w : World) :
  Product.is_active product = false \/
  (Product.stock product < default 1 quantity)%Z ->
  addToCart srv product quantity w
  = (Ret tt, emit (EToast error "Product not available or out of stock") w) /\
  let w' := exec (addToCart srv product quantity) w in
  items w' = items w /\
  localStorage w' = localStorage w /\
  isLoggedIn w' = isLoggedIn w /\
  calls_of (trace w') = calls_of (trace w) /\
  toasts_of (trace w')
  = toasts_of (trace w) ++ [(error, "Product not available or out of stock")].
Proof.
  intros Hbad.
  assert (negb (Product.is_active product)
          || (Product.stock product <? default 1%Z quantity)%Z = true) as Hguard.
  { destruct Hbad as [->|Hlt]; [done|].
    apply orb_true_iff. right. by apply Z.ltb_lt. }
  unfold exec, addToCart. rewrite Hguard. unfold_js. js_simpl.
  split_and!; try done.
  - rewrite calls_of_app. simpl. by rewrite app_nil_r.
  - by rewrite toasts_of_app.
Qed.

Lemma C10_addToCart_unavailable_witness :
  addToCart accepting mala (Some 21%Z) (customer_with [])
  = (Ret tt, emit (EToast error "Product not available or out of stock")
               (customer_with [])).
Proof.
  apply (C10_addToCart_unavailable accepting mala (Some 21%Z) (customer_with [])).
  right. simpl. lia.
Defined.

Lemma find_item_list_find pid (l : list CartItem.t) x :
  find_item pid l = Some x ->
  exists i, list_find (fun i => CartItem.product_id i = pid) l = Some (i, x).
Proof.
  unfold find_item. destruct (list_find _ l) as [[i y]|]; simpl; [|done].
  intros [= ->]. by exists i.
Qed.

(** C7, as the code has it: a requested quantity below 1 (in either mode)
    is dropped silently, with no notification; for a guest, a quantity
    above the stock of the item in the cart is rejected with one error
    notification.  In both cases the call returns normally, and items,
    local storage and server are left untouched. *)
Theorem C7_updateQuantity_rejects
    (srv : Backend) (productId : string) (quantity : Z) (w : World)
    (x : CartItem.t) :
  (quantity < 1)%Z \/
  (isLoggedIn w = false /\
   find_item productId (items w) = Some x /\
   (Product.stock (CartItem.product x) < quantity)%Z) ->
  let w' := exec (updateQuantity srv productId quantity) w in
  fst (updateQuantity srv productId quantity w) = Ret tt /\
  items w' = items w /\
  localStorage w' = localStorage w /\
  calls_of (trace w') = calls_of (trace w) /\
  toasts_of (trace w')
  = toasts_of (trace w)
    ++ (if (quantity <? 1)%Z then []
        else [(error, only_available (Product.stock (CartItem.product x)))]).
Proof.
  intros Hcase. unfold exec, updateQuantity.
  destruct (quantity <? 1)%Z eqn:Hq.
  { unfold_js. js_simpl. by rewrite app_nil_r. }
  destruct Hcase as [Hlt|(Hg & Hfind & Hstock)].
  { apply Z.ltb_ge in Hq. lia. }
  apply find_item_list_find in Hfind as [i Hfind].
  apply Z.ltb_lt in Hstock.
  unfold_js. js_simpl. rewrite Hg, Hfind. js_simpl. rewrite Hstock. js_simpl.
  rewrite calls_of_app, toasts_of_app. simpl. by rewrite app_nil_r.
Qed.

Lemma C7_updateQuantity_rejects_witness :
  let w := guest_with [mala_item None 2] in
  let w' := exec (updateQuantity offline "p1" 25) w in
  items w' = items w /\
  toasts_of (trace w') = [(error, "Only 20 items available")].
Proof.
  destruct (C7_updateQuantity_rejects offline "p1" 25
              (guest_with [mala_item None 2]) (mala_item None 2))
    as (_ & Hi & _ & _ & Ht).
  - right. split; [reflexivity|]. split; [reflexivity|]. simpl. lia.
  - split; [exact Hi | exact Ht].
Defined.

(** C7 as stated fails twice.  A guest who asks for quantity 0 gets no
    notification at all; and for a logged-in customer a quantity above the
    stock is sent to the server, whose answer then replaces the cart. *)
Lemma C7_counterexample :
  (let w := guest_with [mala_item None 2] in
   let w' := exec (updateQuantity offline "p1" 0) w in
   ~ exists k msg, EToast k msg ∈ trace w') /\
  (let c := customer_with [mala_item (Some "i1") 2] in
   let c' := exec (updateQuantity lenient "p1" 25) c in
   (Product.stock mala < 25)%Z /\
   items c' <> items c /\
   calls_of (trace c') = [apiService.updateCartItem "i1" 25; apiService.getCart]).
Proof.
  split.
  - intros w w' (k & msg & Hin). vm_compute in Hin. by apply elem_of_nil in Hin.
  - intros c c'. split_and!.
    + simpl. lia.
    + vm_compute. discriminate.
    + vm_compute. reflexivity.
Qed.

(** ** The axios instance *)

Lemma bool_inspect_elim (a : bool) (P : {b | a = b} -> Prop) :
  (forall H : a = true, P (exist _ true H)) ->
  (forall H : a = false, P (exist _ false H)) ->
  P (ApiService.inspect a).
Proof. intros Ht Hf. unfold ApiService.inspect. destruct a; [apply Ht | apply Hf]. Qed.

(* the defining equation of [client], without the bookkeeping *)
Lemma client_unfold net config w :
  ApiService.client net config w =
  match ApiService.dispatch net api_client (ApiService.request_interceptor w config) w with
  | (Ret r, w1) => (Ret r, w1)
  | (Throw err, w1) =>
      if is_401 err && negb (_retry (ApiService.request_interceptor w config)) then
        match ApiService.refresh net w1 with
        | (Ret access_token, w2) =>
            ApiService.client net (set_Authorization access_token
                          (set_retry (ApiService.request_interceptor w config))) w2
        | (Throw e, w2) => ApiService.refresh_failed e w2
        end
      else (Throw err, w1)
  end.
Proof.
  rewrite ApiService.client_equation_1. unfold ApiService.client_unfold_clause_1.
  destruct (ApiService.dispatch _ _ _ _) as [[r|e] w1]; [done|].
  pattern (ApiService.inspect (is_401 e && negb (_retry (ApiService.request_interceptor w config)))).
  apply bool_inspect_elim; intros H.
  - assert (forall A B : Res Body * World,
              (if is_401 e && negb (_retry (ApiService.request_interceptor w config))
               then A else B) = A) as -> by (intros; by rewrite H).
    simpl. unfold ApiService.client_unfold_clause_1_clause_2_clause_1.
    destruct (ApiService.refresh net w1) as [[a|e'] w2]; done.
  - assert (forall A B : Res Body * World,
              (if is_401 e && negb (_retry (ApiService.request_interceptor w config))
               then A else B) = B) as -> by (intros; by rewrite H).
    done.
Qed.

Lemma request_interceptor_retry w config :
  _retry (ApiService.request_interceptor w config) = _retry config.
Proof.
  unfold ApiService.request_interceptor.
  destruct (localStorage w !! "access_token") as [t|]; [|done].
  by destruct (truthy t).
Qed.

(* a configuration that was already retried is sent once and never refreshed *)
Lemma client_retried net config w :
  _retry config = true ->
  ApiService.client net config w
  = ApiService.dispatch net api_client (ApiService.request_interceptor w config) w.
Proof.
  intros Hr. rewrite client_unfold. unfold ApiService.dispatch.
  rewrite request_interceptor_retry, Hr.
  destruct (ApiService.settle _) as [r|e]; [done|]. by rewrite andb_false_r.
Qed.

(** C9: whatever the server answers to the logout request (even if the
    call throws), [logout] returns normally, both tokens are gone from
    local storage, the logged-in flag is false and the query cache is
    empty. *)
Theorem C9_logout_clears_session (net : Network) (w : World) :
  let w' := exec (logout net) w in
  fst (logout net w) = Ret tt /\
  localStorage w' !! "access_token" = None /\
  localStorage w' !! "refresh_token" = None /\
  isLoggedIn w' = false /\
  queryCache w' = ∅.
Proof.
  unfold logout, ApiService.logout. unfold_js.
  destruct (ApiService.client net _ w) as [[r|e] w1]; js_simpl;
    rewrite lookup_delete_eq, lookup_delete_ne, lookup_delete_eq; done.
Qed.

Lemma set_Authorization_idem v config :
  set_Authorization v (set_Authorization v config) = set_Authorization v config.
Proof. done. Qed.

(* the retried configuration already carries the refreshed token: the
   request interceptor leaves it as it is *)
Lemma request_interceptor_fresh w v config :
  localStorage w !! "access_token" = Some v ->
  ApiService.request_interceptor w (set_Authorization v config)
  = set_Authorization v config.
Proof.
  intros Hv. unfold ApiService.request_interceptor. rewrite Hv.
  by destruct (truthy v).
Qed.

(* what a refresh leaves behind: a reply that cannot be read fails it
   like a rejected request *)
Lemma refresh_spec net w :
  let rq := ApiService.refresh_request (localStorage w !! "refresh_token") in
  match ApiService.settle (net (trace w) bare rq) with
  | Throw e =>
      ApiService.refresh net w = (Throw e, emit (EHttp bare rq) w)
  | Ret data =>
      match token_fields data with
      | None =>
          ApiService.refresh net w = (Throw TypeError, emit (EHttp bare rq) w)
      | Some (access_token, new_refresh_token) =>
          exists w2,
            ApiService.refresh net w = (Ret access_token, w2) /\
            trace w2 = trace w ++ [EHttp bare rq] /\
            localStorage w2 !! "access_token" = Some access_token /\
            localStorage w2 !! "refresh_token"
            = match new_refresh_token with
              | Some r => if String.eqb r "" then localStorage w !! "refresh_token"
                          else Some (Text r)
              | None => localStorage w !! "refresh_token"
              end /\
            location w2 = location w /\ items w2 = items w /\
            isLoggedIn w2 = isLoggedIn w
      end
  end.
Proof.
  intros rq. unfold ApiService.refresh, ApiService.dispatch. unfold_js. js_simpl.
  fold rq. destruct (ApiService.settle _) as [data|e]; [|done].
  destruct (token_fields data) as [[a [r|]]|]; js_simpl; [| |done].
  - destruct (String.eqb r ""); js_simpl; eexists; split_and!; try done;
      js_simpl; rewrite ?lookup_insert_eq; try done.
    + by rewrite lookup_insert_ne.
    + by rewrite lookup_insert_ne, lookup_insert_eq.
  - eexists; split_and!; try done; js_simpl.
    + by rewrite lookup_insert_eq.
    + by rewrite lookup_insert_ne.
Qed.

(* whatever the network answers, one call of the client sends at most
   one refresh and at most two copies of the request *)
Lemma client_sends_bounded net config w :
  exists new,
    trace (exec (ApiService.client net config) w) = trace w ++ new /\
    length (requests_of bare new) <= 1 /\
    length (requests_of api_client new) <= 2.
Proof.
  unfold exec. rewrite client_unfold. unfold ApiService.dispatch.
  set (c1 := ApiService.request_interceptor w config).
  destruct (ApiService.settle (net (trace w) api_client c1)) as [r|err].
  { exists [EHttp api_client c1]. simpl. split_and!; [done|lia..]. }
  destruct (is_401 err && negb (_retry c1)).
  2:{ exists [EHttp api_client c1]. simpl. split_and!; [done|lia..]. }
  pose proof (refresh_spec net (emit (EHttp api_client c1) w)) as Hrefresh.
  cbn [trace localStorage emit] in Hrefresh.
  set (rq := ApiService.refresh_request (localStorage w !! "refresh_token")) in *.
  destruct (ApiService.settle (net (trace w ++ _) bare rq)) as [data|e];
    [destruct (token_fields data) as [[a r]|]|].
  - destruct Hrefresh as (w2 & -> & Ht2 & Hat & _).
    rewrite client_retried by done.
    rewrite request_interceptor_fresh by done.
    unfold ApiService.dispatch. cbn [snd trace emit]. rewrite Ht2.
    eexists [_; _; _]. rewrite <- !app_assoc. split; [done|].
    simpl. lia.
  - rewrite Hrefresh. unfold ApiService.refresh_failed. unfold_js. js_simpl.
    eexists [_; _]. rewrite <- !app_assoc. split; [done|]. simpl. lia.
  - rewrite Hrefresh. unfold ApiService.refresh_failed. unfold_js. js_simpl.
    eexists [_; _]. rewrite <- !app_assoc. split; [done|]. simpl. lia.
Qed.

(* the catch block around the refresh *)
Lemma refresh_failed_spec e w :
  (ApiService.refresh_failed e w).1 = Throw e /\
  trace (ApiService.refresh_failed e w).2 = trace w /\
  localStorage (ApiService.refresh_failed e w).2 !! "access_token" = None /\
  localStorage (ApiService.refresh_failed e w).2 !! "refresh_token" = None /\
  location (ApiService.refresh_failed e w).2 = Some "/login".
Proof.
  unfold ApiService.refresh_failed. unfold_js. js_simpl. split_and!; try done.
  - by rewrite lookup_delete_ne, lookup_delete_eq.
  - by rewrite lookup_delete_eq.
Qed.

(** C6, as the web client has it: a request that is answered 401 triggers
    exactly one token refresh.  If the refresh itself fails (its request
    is rejected, or its reply is [null], from which no token can be read),
    the client gives up: both tokens are removed, the page is sent to
    /login and the promise rejects, without any retry.  If the refresh
    succeeds, the tokens of the reply are stored (the refresh token only
    when the reply carries one; the old one stays otherwise), the original
    request is re-sent exactly once with the new access token, and the
    outcome of that retry is the outcome of the call: when the retry
    fails the promise rejects with its error, with no further refresh or
    retry, the refreshed tokens stay stored and no redirect happens. *)
Theorem C6_web_refreshes_and_retries_once
    (net : Network) (config : Request) (w : World) (err : Exn) :
  _retry config = false ->
  let c1 := ApiService.request_interceptor w config in
  ApiService.settle (net (trace w) api_client c1) = Throw err ->
  is_401 err = true ->
  let rq := ApiService.refresh_request (localStorage w !! "refresh_token") in
  let t1 := trace w ++ [EHttp api_client c1] in
  let w' := exec (ApiService.client net config) w in
  let gives_up (refreshError : Exn) :=
    fst (ApiService.client net config w) = Throw refreshError /\
    trace w' = t1 ++ [EHttp bare rq] /\
    localStorage w' !! "access_token" = None /\
    localStorage w' !! "refresh_token" = None /\
    location w' = Some "/login" in
  match ApiService.settle (net t1 bare rq) with
  | Throw refreshError => gives_up refreshError
  | Ret NoBody | Ret (Payload NoData) => gives_up TypeError
  | Ret data =>
      let access_token :=
        match data with
        | TokenPair a _ => Text a
        | _ => Text "undefined"
        end in
      let c2 := set_Authorization access_token (set_retry c1) in
      let t2 := t1 ++ [EHttp bare rq] in
      fst (ApiService.client net config w) = ApiService.settle (net t2 api_client c2) /\
      trace w' = t2 ++ [EHttp api_client c2] /\
      localStorage w' !! "access_token" = Some access_token /\
      localStorage w' !! "refresh_token"
      = match data with
        | TokenPair _ (Some r) =>
            if String.eqb r "" then localStorage w !! "refresh_token"
            else Some (Text r)
        | _ => localStorage w !! "refresh_token"
        end /\
      location w' = location w
  end.
Proof.
  intros Hr c1 Herr H401 rq t1 w' gives_up. unfold gives_up, w', exec.
  assert (ApiService.client net config w
          = match ApiService.refresh net (emit (EHttp api_client c1) w) with
            | (Ret access_token, w2) =>
                ApiService.client net
                  (set_Authorization access_token (set_retry c1)) w2
            | (Throw e, w2) => ApiService.refresh_failed e w2
            end) as ->.
  { rewrite client_unfold. unfold ApiService.dispatch. fold c1.
    rewrite Herr, H401. unfold c1 at 1.
    by rewrite request_interceptor_retry, Hr. }
  pose proof (refresh_spec net (emit (EHttp api_client c1) w)) as Hrefresh.
  cbn [trace localStorage emit] in Hrefresh. fold rq t1 in Hrefresh.
  destruct (ApiService.settle (net t1 bare rq)) as [data|e].
  2:{ rewrite Hrefresh. by apply refresh_failed_spec. }
  destruct data as [|a r|[|l|o|p]|m]; cbn [token_fields] in Hrefresh;
    try (rewrite Hrefresh; by apply refresh_failed_spec);
    destruct Hrefresh as (w2 & -> & Ht2 & Hat & Hrt & Hloc & _);
    rewrite client_retried by done;
    rewrite request_interceptor_fresh by done;
    unfold ApiService.dispatch; cbn [fst snd trace emit localStorage location];
    rewrite Ht2; split_and!; done.
Qed.

Lemma C6_web_refreshes_and_retries_once_witness :
  let w' := exec (ApiService.client always_401 get_cart_request) (customer_with []) in
  fst (ApiService.client always_401 get_cart_request (customer_with []))
  = Throw (HttpError 401 None) /\
  length (requests_of bare (trace w')) = 1 /\
  length (requests_of api_client (trace w')) = 2 /\
  localStorage w' !! "access_token" = Some (Text "at2") /\
  localStorage w' !! "refresh_token" = Some (Text "rt2") /\
  location w' = None.
Proof.
  pose proof (C6_web_refreshes_and_retries_once always_401 get_cart_request
                (customer_with []) (HttpError 401 None)
                eq_refl eq_refl eq_refl) as H.
  cbn in H. destruct H as (Hres & Htr & Hat & Hrt & Hloc).
  split; [exact Hres|]. rewrite Htr. split; [reflexivity|].
  split; [reflexivity|]. split; [exact Hat|]. split; [exact Hrt | exact Hloc].
Defined.

(** C6 as stated fails on the web client: when the retried request is
    rejected again, the client does not clear the tokens and does not
    redirect to /login; it only rejects. *)
Lemma C6_counterexample :
  let w' := exec (ApiService.client always_401 get_cart_request) (customer_with []) in
  (* one refresh, then the retry, which fails *)
  requests_of bare (trace w')
  = [ApiService.refresh_request (Some (Text "rt"))] /\
  fst (ApiService.client always_401 get_cart_request (customer_with []))
  = Throw (HttpError 401 None) /\
  ~ (localStorage w' !! "access_token" = None /\ location w' = Some "/login").
Proof.
  split_and!.
  - vm_compute. reflexivity.
  - vm_compute. reflexivity.
  - intros [_ Hloc]. vm_compute in Hloc. discriminate.
Qed.

(** ** The checkout page *)

Section CheckoutPage.
Import Checkout_page.

Lemma count_calls_snoc f t e :
  count_calls f (t ++ [e])
  = count_calls f t + match e with
                      | ECall c => if f c then 1 else 0
                      | _ => 0
                      end.
Proof.
  unfold count_calls. rewrite calls_of_app, filter_app, length_app. f_equal.
  destruct e as [c| | |]; simpl; try done.
  unfold calls_of. simpl. rewrite filter_cons. by destruct (f c).
Qed.

Lemma awaits_order_insert (l : list (option Phase)) i x y :
  l !! i = Some x ->
  sum_list_with awaits_order (<[i := y]> l) + awaits_order x
  = sum_list_with awaits_order l + awaits_order y.
Proof.
  revert i. induction l as [|z l IH]; intros [|i] Hi; simplify_eq/=; [lia|].
  specialize (IH i Hi). lia.
Qed.

Lemma awaits_order_snoc (l : list (option Phase)) y :
  sum_list_with awaits_order (l ++ [y])
  = sum_list_with awaits_order l + awaits_order y.
Proof. rewrite sum_list_with_app. simpl. lia. Qed.

Ltac count_simpl :=
  unfold creations, orders_created, payments_created, pending_orders,
    order_failed, payment_completed, suspend, finish, release, toast,
    console_error, call;
  cbn [world tasks setWorld setTasks setProcessing setOrderInFlight
       setPaymentJustCompleted setOrderSuccess setWidgets trace emit
       clearCart_finally setStorage setItems];
  rewrite ?count_calls_snoc; cbn [is_createOrder is_createPayment].

(* the bookkeeping of a task that moves from one await to the next *)
Ltac moved Hi ph :=
  let Hs := fresh "Hs" in
  pose proof (awaits_order_insert _ _ _ ph Hi) as Hs;
  cbn [awaits_order] in Hs; f_equal; lia.

Lemma resume_creations i ph r s :
  tasks s !! i = Some (Some ph) ->
  orderInFlight (resume i ph r s) = true ->
  creations (resume i ph r s) = creations s.
Proof.
  intros Hi.
  destruct ph as [addr|o|o p|o|o], r as [[ | |o'|p']|e]; simpl;
    try destruct (isLoggedIn (world _)); simpl; try discriminate;
    intros _; count_simpl; try done.
  - moved Hi (Some (AwaitPayment o')).
  - moved Hi (Some (AwaitScript o p')).
  - moved Hi (Some (AwaitClear o)).
  - moved Hi (Some (AwaitClear o)).
  - moved Hi (Some (AwaitClear o)).
  - moved Hi (Some (AwaitClear o)).
Qed.

Lemma step_creations s inp :
  orderInFlight s = true ->
  orderInFlight (step s inp) = true ->
  creations (step s inp) = creations s.
Proof.
  intros Hlatch. destruct inp as [|i r|i ok|j resp|j d|j]; simpl.
  - unfold handleCreateOrder. rewrite Hlatch. simpl.
    destruct (selectedAddressId s) as [a|]; [destruct (String.eqb a "")|];
      intros _; count_simpl; try done; f_equal; lia.
  - destruct (tasks s !! i) as [[ph|]|] eqn:Hi; try done.
    by apply resume_creations.
  - destruct (tasks s !! i) as [[[addr|o|o p|o|o]|]|] eqn:Hi; try done.
    unfold script_loaded. destruct ok; simpl; [|discriminate].
    intros _. count_simpl. moved Hi (@None Phase).
  - destruct (widgets s !! j) as [[o|]|]; try done.
    intros _. unfold handler. count_simpl. rewrite awaits_order_snoc. simpl.
    f_equal; lia.
  - destruct (widgets s !! j) as [[o|]|]; try done.
  - destruct (widgets s !! j) as [[o|]|]; try done.
Qed.

(* under the latch no submission starts: those that await their order
   can only become fewer *)
Lemma step_pending s inp :
  orderInFlight s = true ->
  pending_orders (step s inp) <= pending_orders s.
Proof.
  intros Hlatch. unfold pending_orders.
  destruct inp as [|i r|i ok|j resp|j d|j]; simpl.
  - unfold handleCreateOrder. rewrite Hlatch. simpl.
    destruct (selectedAddressId s) as [a|]; [destruct (String.eqb a "")|]; done.
  - destruct (tasks s !! i) as [[ph|]|] eqn:Hi; try done.
    destruct ph as [addr|o|o p|o|o], r as [[ | |o'|p']|e]; simpl;
      try destruct (isLoggedIn (world _)); simpl; try done;
      match goal with
      | |- context [<[i := ?ph]> (tasks s)] =>
          pose proof (awaits_order_insert _ _ _ ph Hi) as Hs;
          cbn [awaits_order] in Hs; lia
      end.
  - destruct (tasks s !! i) as [[[addr|o|o p|o|o]|]|] eqn:Hi; try done.
    pose proof (awaits_order_insert _ _ _ None Hi) as Hs.
    cbn [awaits_order] in Hs. unfold script_loaded.
    destruct ok; simpl; lia.
  - destruct (widgets s !! j) as [[o|]|]; try done.
    unfold handler. simpl. rewrite awaits_order_snoc. simpl. lia.
  - destruct (widgets s !! j) as [[o|]|]; done.
  - destruct (widgets s !! j) as [[o|]|]; done.
Qed.

Lemma step_selectedAddressId s inp :
  selectedAddressId (step s inp) = selectedAddressId s.
Proof.
  destruct inp as [|i r|i ok|j resp|j d|j]; simpl.
  - unfold handleCreateOrder.
    destruct (selectedAddressId s) as [a|] eqn:Ha; [|by rewrite <- Ha].
    destruct (String.eqb a ""); [by rewrite <- Ha|].
    destruct (_ || _); by rewrite <- Ha.
  - destruct (tasks s !! i) as [[ph|]|]; try done.
    destruct ph, r as [[ | | | ]|]; simpl; try done;
      by destruct (isLoggedIn _).
  - destruct (tasks s !! i) as [[[addr|o|o p|o|o]|]|]; try done.
    by destruct ok.
  - by destruct (widgets s !! j) as [[o|]|].
  - by destruct (widgets s !! j) as [[o|]|].
  - by destruct (widgets s !! j) as [[o|]|].
Qed.

Lemma run_selectedAddressId s inputs :
  selectedAddressId (run s inputs) = selectedAddressId s.
Proof.
  revert s. induction inputs as [|inp inputs IH]; intros s; [done|].
  simpl. unfold run in IH. by rewrite IH, step_selectedAddressId.
Qed.

(* while the latch stays set, nothing is created *)
Lemma run_creations s inputs :
  (forall k, k <= length inputs -> orderInFlight (run s (take k inputs)) = true) ->
  creations (run s inputs) = creations s.
Proof.
  revert s. induction inputs as [|inp inputs IH]; intros s Hlatch; [done|].
  simpl. unfold run in IH. rewrite IH.
  - apply step_creations.
    + apply (Hlatch 0). simpl. lia.
    + apply (Hlatch 1). simpl. lia.
  - intros k Hk. apply (Hlatch (S k)). simpl. lia.
Qed.

Lemma run_pending s inputs :
  (forall k, k <= length inputs -> orderInFlight (run s (take k inputs)) = true) ->
  pending_orders (run s inputs) <= pending_orders s.
Proof.
  revert s. induction inputs as [|inp inputs IH]; intros s Hlatch; [done|].
  simpl. unfold run in IH. etrans; [apply IH|].
  - intros k Hk. apply (Hlatch (S k)). simpl. lia.
  - apply step_pending. apply (Hlatch 0). simpl. lia.
Qed.

(* a submission that finds the latch set returns at once *)
Lemma click_in_flight s a :
  selectedAddressId s = Some a -> a <> "" ->
  orderInFlight s = true ->
  step s Click = s.
Proof.
  intros Ha Hne Hl. simpl. unfold handleCreateOrder. rewrite Ha, Hl.
  by apply String.eqb_neq in Hne as ->.
Qed.

(* the first submission: one order-creation call, now awaited *)
Lemma click_idle s a :
  selectedAddressId s = Some a -> a <> "" ->
  orderInFlight s = false -> processing s = false ->
  orderInFlight (step s Click) = true /\
  calls_of (trace (world (step s Click)))
  = calls_of (trace (world s)) ++ [apiService.createOrder a] /\
  creations (step s Click)
  = (orders_created s + 1, payments_created s + pending_orders s + 1).
Proof.
  intros Ha Hne Hl Hp. simpl. unfold handleCreateOrder. rewrite Ha, Hl, Hp.
  apply String.eqb_neq in Hne as ->. simpl. split_and!; [done| |].
  - unfold call. cbn [world setWorld setTasks trace emit].
    by rewrite calls_of_app.
  - count_simpl. rewrite awaits_order_snoc. simpl. f_equal; lia.
Qed.

End CheckoutPage.

Section CheckoutProperties.
Import Checkout_page.

(** C2: from a page with an address selected and nothing in flight, the
    first press of Place Order issues one order-creation call.  While
    that submission is in flight (the latch stays set through all of
    [inputs], whatever they are: more presses, answers of the server,
    widget events), exactly one order-creation call has been issued; at
    most one submission awaits the answer to its order creation, and the
    payment-creation calls number none while it does and exactly one once
    the order creation has answered; and every further press leaves the
    page as it is: it returns without calling the server. *)
Theorem C2_latch_allows_one_creation
    (s0 : Checkout) (addressId : string) (inputs : list Input) :
  selectedAddressId s0 = Some addressId -> addressId <> "" ->
  orderInFlight s0 = false -> processing s0 = false ->
  pending_orders s0 = 0 ->
  let s1 := step s0 Click in
  (forall k, k <= length inputs -> orderInFlight (run s1 (take k inputs)) = true) ->
  let s := run s1 inputs in
  orders_created s = orders_created s0 + 1 /\
  pending_orders s <= 1 /\
  payments_created s + pending_orders s = payments_created s0 + 1 /\
  (forall k, k <= length inputs ->
     step (run s1 (take k inputs)) Click = run s1 (take k inputs)).
Proof.
  intros Ha Hne Hl Hp Hpend s1 Hlatch s.
  destruct (click_idle s0 addressId Ha Hne Hl Hp) as (_ & _ & Hc1).
  pose proof (run_creations s1 inputs Hlatch) as Hc. fold s in Hc.
  pose proof (run_pending s1 inputs Hlatch) as Hle. fold s in Hle.
  assert (pending_orders s1 = 1) as Hp1.
  { unfold s1. simpl. unfold handleCreateOrder. rewrite Ha, Hl, Hp.
    apply String.eqb_neq in Hne as ->. simpl. unfold pending_orders in *.
    simpl. rewrite awaits_order_snoc. simpl. lia. }
  unfold s1 in Hc. rewrite Hc1 in Hc. unfold creations in Hc.
  injection Hc as Ho Hpay. rewrite Hpend in Hpay. split_and!; [lia..|].
  intros k Hk. apply (click_in_flight _ addressId); [|done|by apply Hlatch].
  unfold s1. by rewrite run_selectedAddressId, step_selectedAddressId.
Qed.

Lemma C2_latch_allows_one_creation_witness :
  let s := run (step at_checkout Click) impatient in
  orders_created s = 1 /\ payments_created s = 1 /\
  widgets s = [Some order1].
Proof.
  destruct (C2_latch_allows_one_creation at_checkout "addr1" impatient)
    as (Ho & _ & Hpay & _).
  - reflexivity.
  - discriminate.
  - reflexivity.
  - reflexivity.
  - reflexivity.
  - intros k Hk.
    do 9 (destruct k as [|k]; [vm_compute; reflexivity|]).
    simpl in Hk. lia.
  - split; [exact Ho|]. split; [|vm_compute; reflexivity].
    change (pending_orders (run (step at_checkout Click) impatient)) with 0 in Hpay.
    change (payments_created at_checkout) with 0 in Hpay. lia.
Defined.

Lemma count_calls_nil_event f t k msg :
  count_calls f (t ++ [EToast k msg]) = count_calls f t /\
  count_calls f (t ++ [EConsole msg]) = count_calls f t.
Proof. rewrite !count_calls_snoc. lia. Qed.

(* every transition other than the two that follow a verification leaves
   cart, storage, success state and the number of clearCart calls alone *)
Lemma step_shown s inp :
  ~ after_verification s inp -> shown (step s inp) = shown s.
Proof.
  intros Hnot. destruct inp as [|i r|i ok|j resp|j d|j]; simpl.
  - unfold handleCreateOrder.
    destruct (selectedAddressId s) as [a|]; [destruct (String.eqb a "")|];
      [| destruct (_ || _) |]; unfold shown, toast, call; simpl;
      rewrite ?count_calls_snoc; simpl; rewrite ?Nat.add_0_r; done.
  - destruct (tasks s !! i) as [[ph|]|] eqn:Hi; try done.
    destruct ph as [addr|o|o p|o|o].
    + destruct r as [[ | |o'|p']|e]; unfold shown; simpl;
        rewrite ?count_calls_snoc; simpl; rewrite ?Nat.add_0_r; done.
    + destruct r as [[ | |o'|p']|e]; unfold shown; simpl;
        rewrite ?count_calls_snoc; simpl; rewrite ?Nat.add_0_r; done.
    + done.
    + destruct r as [d|e].
      * destruct Hnot. exists i, o. left. by exists d.
      * unfold shown; simpl. rewrite ?count_calls_snoc; simpl.
        by rewrite ?Nat.add_0_r.
    + destruct Hnot. exists i, o. right. by exists r.
  - destruct (tasks s !! i) as [[[addr|o|o p|o|o]|]|] eqn:Hi; try done.
    destruct ok; unfold shown; simpl; rewrite ?count_calls_snoc; simpl;
      rewrite ?Nat.add_0_r; done.
  - destruct (widgets s !! j) as [[o|]|]; try done.
    unfold shown; simpl. rewrite ?count_calls_snoc; simpl.
    by rewrite ?Nat.add_0_r.
  - destruct (widgets s !! j) as [[o|]|]; try done.
    unfold shown; simpl. rewrite ?count_calls_snoc; simpl.
    by rewrite ?Nat.add_0_r.
  - destruct (widgets s !! j) as [[o|]|]; try done.
    unfold shown; simpl. rewrite ?count_calls_snoc; simpl.
    by rewrite ?Nat.add_0_r.
Qed.


(* no task is found at the end of [clearCart] unless it was already
   there, or it is the task whose verification has just succeeded *)
Lemma AwaitClear_after_verified s inp i o :
  tasks (step s inp) !! i = Some (Some (AwaitClear o)) ->
  tasks s !! i = Some (Some (AwaitClear o)) \/
  (tasks s !! i = Some (Some (AwaitVerify o)) /\
   exists d, inp = Settle i (Ret d)).
Proof.
  destruct inp as [|i' r|i' ok|j resp|j d|j]; simpl.
  - unfold handleCreateOrder.
    destruct (selectedAddressId s) as [a|]; [destruct (String.eqb a "")|];
      [| destruct (_ || _) |]; simpl; auto.
    intros [[_ H]|[_ H]]%lookup_snoc_Some; [auto|discriminate].
  - destruct (tasks s !! i') as [[ph|]|] eqn:Hi; auto.
    destruct ph as [addr|o1|o1 p|o1|o1], r as [dd|e]; simpl;
      try destruct dd; try destruct (isLoggedIn _); simpl; auto;
      intros [(<- & Hx & _)|[_ H]]%list_lookup_insert_Some; auto;
      try discriminate.
    all: injection Hx as <-; right; split; [done|]; by eexists.
  - destruct (tasks s !! i') as [[[addr|o1|o1 p|o1|o1]|]|] eqn:Hi; auto.
    destruct ok; simpl;
      intros [(<- & Hx & _)|[_ H]]%list_lookup_insert_Some; auto;
      discriminate.
  - destruct (widgets s !! j) as [[o1|]|]; auto. simpl.
    intros [[_ H]|[_ H]]%lookup_snoc_Some; [auto|discriminate].
  - destruct (widgets s !! j) as [[o1|]|]; auto.
  - destruct (widgets s !! j) as [[o1|]|]; auto.
Qed.

(** C3: the success callback of the payment widget first calls
    [verifyPayment] and touches nothing else.  If the verification fails,
    that execution ends there: the cart, the local storage and the success
    state are as before and no cart-clearing call is made.  Throughout the
    page, the cart is cleared, the [clearCart] call is issued and the
    success state is shown only by the continuation of a verification
    that has succeeded (and they are, once it has). *)
Theorem C3_verification_precedes_clearing :
  (* the callback starts with the verification *)
  (forall s j orderRes response,
     widgets s !! j = Some (Some orderRes) ->
     let s' := step s (PaymentSuccess j response) in
     trace (world s') = trace (world s) ++ [ECall (apiService.verifyPayment response)] /\
     tasks s' = tasks s ++ [Some (AwaitVerify orderRes)] /\
     shown s' = shown s) /\
  (* a failed verification ends the callback *)
  (forall s i orderRes e,
     tasks s !! i = Some (Some (AwaitVerify orderRes)) ->
     let s' := step s (Settle i (Throw e)) in
     shown s' = shown s /\
     calls_of (trace (world s')) = calls_of (trace (world s)) /\
     tasks s' !! i = Some None) /\
  (* nothing is cleared or shown except after a successful verification *)
  (forall s inp, ~ after_verification s inp -> shown (step s inp) = shown s) /\
  (forall s inp i orderRes,
     tasks (step s inp) !! i = Some (Some (AwaitClear orderRes)) ->
     tasks s !! i = Some (Some (AwaitClear orderRes)) \/
     (tasks s !! i = Some (Some (AwaitVerify orderRes)) /\
      exists d, inp = Settle i (Ret d))) /\
  (* after a successful verification the cart is cleared and success shown *)
  (forall s i orderRes d r,
     tasks s !! i = Some (Some (AwaitVerify orderRes)) ->
     isLoggedIn (world s) = true ->
     let s1 := step s (Settle i (Ret d)) in
     let s2 := step s1 (Settle i r) in
     calls_of (trace (world s1)) = calls_of (trace (world s)) ++ [apiService.clearCart] /\
     paymentJustCompleted s1 = true /\
     items (world s2) = [] /\
     localStorage (world s2) !! "guest_cart" = None /\
     orderSuccess s2 = Some (order_number orderRes, order_total orderRes)).
Proof.
  split_and!.
  - intros s j o resp Hj s'. unfold s'. simpl. rewrite Hj.
    unfold handler, shown, call. simpl. rewrite count_calls_snoc. simpl.
    by rewrite Nat.add_0_r.
  - intros s i o e Hi s'. unfold s'. simpl. rewrite Hi. simpl.
    unfold shown. simpl. rewrite !count_calls_snoc, !calls_of_app. simpl.
    rewrite !app_nil_r, !Nat.add_0_r. split_and!; try done.
    apply list_lookup_insert_eq. by eapply lookup_lt_Some.
  - apply step_shown.
  - apply AwaitClear_after_verified.
  - intros s i o d r Hi Hlog s1 s2.
    assert (tasks s1 !! i = Some (Some (AwaitClear o))) as Hi1.
    { unfold s1. simpl. rewrite Hi. simpl. rewrite Hlog. simpl.
      apply list_lookup_insert_eq. by eapply lookup_lt_Some. }
    split_and!.
    + unfold s1. simpl. rewrite Hi. simpl. rewrite Hlog. simpl.
      by rewrite calls_of_app.
    + unfold s1. simpl. rewrite Hi. simpl. by rewrite Hlog.
    + unfold s2. simpl. rewrite Hi1. by destruct r.
    + unfold s2. simpl. rewrite Hi1. destruct r; simpl; apply lookup_delete_eq.
    + unfold s2. simpl. rewrite Hi1. by destruct r.
Qed.

Lemma C3_verification_precedes_clearing_witness :
  let s := run widget_open [PaymentSuccess 0 paid1] in
  let s' := step s (Settle 1 (Throw NetworkError)) in
  calls_of (trace (world s))
  = [apiService.createOrder "addr1"; apiService.createPayment "o1";
     apiService.verifyPayment paid1] /\
  shown s' = shown widget_open /\
  items (world s') = [mala_item (Some "i1") 1] /\ orderSuccess s' = None.
Proof.
  destruct C3_verification_precedes_clearing as (Hstart & Hfail & _).
  destruct (Hstart widget_open 0 order1 paid1 eq_refl) as (Htr & Hts & Hsh).
  destruct (Hfail (run widget_open [PaymentSuccess 0 paid1]) 1 order1
              NetworkError eq_refl) as (Hsh' & _ & _).
  split; [vm_compute; reflexivity|].
  split; [exact (eq_trans Hsh' Hsh)|].
  split; vm_compute; reflexivity.
Defined.

(** C4: when the customer dismisses the payment widget, or the payment
    fails, the handler only resets the latch and the processing flag (and
    shows a toast): no call goes to the server, so the order stays as the
    server has it (pending); cart, local storage and success state are
    unchanged, and a cart that held items still holds them.  The pending
    order is paid later from the account page, whose [Pay Now] issues a
    new payment-creation call for that order. *)
Theorem C4_cancelled_payment_keeps_order_and_cart
    (s : Checkout) (j : nat) (orderRes : Order) (description : option string)
    (a : Account_page.Account) :
  widgets s !! j = Some (Some orderRes) ->
  Account_page.paymentInFlight a = false ->
  (forall inp, inp = Dismiss j \/ inp = PaymentFailed j description ->
     let s' := step s inp in
     items (world s') = items (world s) /\
     (items (world s) <> [] -> items (world s') <> []) /\
     localStorage (world s') = localStorage (world s) /\
     orderSuccess s' = orderSuccess s /\
     calls_of (trace (world s')) = calls_of (trace (world s)) /\
     orderInFlight s' = false /\ processing s' = false) /\
  (let a' := Account_page.step a (Account_page.ContinuePayment orderRes) in
   calls_of (trace (Account_page.world a'))
   = calls_of (trace (Account_page.world a))
       ++ [apiService.createPayment (order_id orderRes)]).
Proof.
  intros Hj Hidle. split.
  - intros inp [->| ->] s'; unfold s'; simpl; rewrite Hj;
      unfold ondismiss, payment_failed; simpl; rewrite calls_of_app; simpl;
      rewrite app_nil_r; done.
  - simpl. unfold Account_page.handleContinuePayment. rewrite Hidle. simpl.
    by rewrite calls_of_app.
Qed.

Lemma C4_cancelled_payment_keeps_order_and_cart_witness :
  let s' := step widget_open (Dismiss 0) in
  items (world s') = [mala_item (Some "i1") 1] /\
  orderInFlight s' = false /\
  calls_of (trace (world s')) = calls_of (trace (world widget_open)).
Proof.
  destruct (C4_cancelled_payment_keeps_order_and_cart widget_open 0 order1 None
              (Account_page.mount (customer_with [])))
    as [Hweb _].
  - reflexivity.
  - reflexivity.
  - destruct (Hweb (Dismiss 0) (or_introl eq_refl))
      as (Hi & _ & _ & _ & Hc & Hl & _).
    split; [exact Hi|]. split; [exact Hl | exact Hc].
Defined.

End CheckoutProperties.

(** ** The mobile client *)

(* the checkout screen never gets an address: [_selectedAddressId] is
   declared and tested, and nothing assigns it.  No submission ever
   reaches the server, whatever the customer presses. *)
Lemma mobile_checkout_never_submits (inputs : list Mobile.Input) :
  let s := Mobile.run Mobile.initial inputs in
  Mobile.calls s = [] /\ Mobile._isProcessing s = false /\
  Mobile.tasks s = [] /\ Mobile._selectedAddressId s = None.
Proof.
  assert (forall s,
            Mobile.calls s = [] /\ Mobile._isProcessing s = false /\
            Mobile.tasks s = [] /\ Mobile._selectedAddressId s = None ->
            Mobile.calls (Mobile.run s inputs) = [] /\
            Mobile._isProcessing (Mobile.run s inputs) = false /\
            Mobile.tasks (Mobile.run s inputs) = [] /\
            Mobile._selectedAddressId (Mobile.run s inputs) = None) as Hrun.
  { induction inputs as [|inp inputs IH]; intros s Hs; [done|].
    simpl. apply IH. destruct Hs as (Hc & Hp & Ht & Ha).
    destruct inp as [| | |i r|]; simpl.
    - destruct (negb (Mobile.mounted s)); [done|].
      destruct (_ <? _)%Z; [done|].
      unfold Mobile._placeOrder. by rewrite Ha.
    - destruct (negb (Mobile.mounted s)); [done|]. by destruct (_ >? _)%Z.
    - destruct (negb (Mobile.mounted s) || Mobile._isProcessing s); [done|].
      unfold Mobile._placeOrder. by rewrite Ha.
    - by rewrite Ht.
    - done. }
  by apply Hrun.
Qed.

(* on a network that answers every request 401 and every refresh with
   new tokens, one request of the mobile client refreshes as many times
   as it is allowed to go on, and its future never completes *)
Lemma dio_refreshes_without_bound (n : nat) (opts : Request) (d : Mobile.Device) :
  is_Some (Mobile.secure_storage d !! "refresh_token") ->
  let (r, d') := Mobile.fetch n always_401 opts d in
  r = None /\
  length (requests_of bare (Mobile.log d'))
  = length (requests_of bare (Mobile.log d)) + n.
Proof.
  revert opts d. induction n as [|n IH]; intros opts d [rt Hrt]; simpl.
  { split; [done|lia]. }
  unfold Mobile._refreshToken. simpl. rewrite Hrt. simpl.
  match goal with
  | |- context [Mobile.fetch n always_401 ?o ?d2] =>
      specialize (IH o d2); destruct (Mobile.fetch n always_401 o d2) as [r d']
  end.
  destruct IH as [-> Hlen].
  { simpl. rewrite lookup_insert_eq. by eexists. }
  split; [done|]. rewrite Hlen. simpl.
  unfold requests_of. rewrite !omap_app. simpl. rewrite !length_app. simpl. lia.
Qed.

Example dio_five_refreshes :
  length (requests_of bare
            (Mobile.log (Mobile.fetch 5 always_401 get_cart_request signed_in_device).2))
  = 5.
Proof. vm_compute. reflexivity. Qed.

(** * Further properties *)

(** ** The cart context *)

(* a guest's [refreshCart] reads local storage, and nothing else *)
Lemma refreshCart_guest srv w :
  isLoggedIn w = false ->
  let w' := exec (refreshCart srv) w in
  fst (refreshCart srv w) = Ret tt /\
  items w' = stored_cart (localStorage w) /\
  trace w' = trace w /\ loading w' = false /\ isLoggedIn w' = false /\
  queryCache w' = queryCache w /\ location w' = location w /\
  localStorage w'
  = match localStorage w !! "guest_cart" with
    | Some (Text s) => if String.eqb s "" then localStorage w
                       else delete "guest_cart" (localStorage w)
    | _ => localStorage w
    end.
Proof.
  intros Hg. unfold refreshCart, stored_cart. unfold_js. js_simpl.
  rewrite Hg. js_simpl.
  destruct (localStorage w !! "guest_cart") as [[s|l]|]; js_simpl; [|done..].
  destruct (String.eqb s ""); js_simpl; done.
Qed.

(* the guest operations write one key of local storage *)
Lemma run_ops_other_keys srv ops w k :
  isLoggedIn w = false -> k <> "guest_cart" ->
  localStorage (run_ops srv ops w) !! k = localStorage w !! k.
Proof.
  intros Hg Hk. revert w Hg.
  induction ops as [|op ops IH]; intros w Hg; [done|].
  change (run_ops srv (op :: ops) w)
    with (run_ops srv ops (exec (run_op srv op) w)).
  assert (isLoggedIn (exec (run_op srv op) w) = false /\
          localStorage (exec (run_op srv op) w) !! k = localStorage w !! k)
    as [Hg' Hk'].
  { destruct op as [p q|pid q|pid]; simpl.
    - unfold addToCart. destruct (negb _ || _); [unfold_js; by js_simpl|].
      unfold_js. js_simpl. rewrite Hg.
      destruct (list_find _ (items w)) as [[i x]|]; js_simpl;
        [destruct (_ >? _)%Z; js_simpl|]; rewrite ?lookup_insert_ne; done.
    - unfold updateQuantity. destruct (q <? 1)%Z; [unfold_js; by js_simpl|].
      unfold_js. js_simpl. rewrite Hg.
      destruct (list_find _ (items w)) as [[i x]|]; js_simpl; [|done].
      destruct (_ <? _)%Z; js_simpl; rewrite ?lookup_insert_ne; done.
    - unfold removeFromCart. unfold_js. js_simpl. rewrite Hg. js_simpl.
      by rewrite lookup_insert_ne. }
  by rewrite IH.
Qed.

(** X1: the guest cart survives a page load.  Whatever a guest has done
    to the cart, when the page is loaded again (empty state, the same
    local storage) the first [refreshCart] shows exactly the items the
    guest had, without any call to the server. *)
Theorem guest_cart_survives_page_load (srv : Backend) (ops : list GuestOp) :
  let w := run_ops srv ops guest_world in
  let w' := exec (refreshCart srv) (page_load (localStorage w)) in
  items w' = items w /\ isLoggedIn w' = false /\ loading w' = false /\
  trace w' = [].
Proof.
  intros w w'.
  destruct (run_ops_guest_inv srv ops guest_world guest_world_inv)
    as [Hg Hnd Hst Hc]. fold w in Hg, Hnd, Hst, Hc.
  assert (localStorage w !! "access_token" = None) as Hat.
  { unfold w. by rewrite run_ops_other_keys. }
  assert (isLoggedIn (page_load (localStorage w)) = false) as Hguest.
  { unfold page_load. simpl. by rewrite Hat. }
  destruct (refreshCart_guest srv _ Hguest) as (_ & Hi & Ht & Hl & Hlog & _).
  fold w' in Hi, Ht, Hl, Hlog. split_and!; try done.
  rewrite Hi. unfold stored_cart, page_load. simpl.
  destruct Hst as [->|[-> ->]]; done.
Qed.

(* [refreshCart] catches what it awaits *)
Lemma refreshCart_returns (srv : Backend) (w : World) :
  fst (refreshCart srv w) = Ret tt.
Proof.
  unfold refreshCart. unfold_js. js_simpl.
  destruct (isLoggedIn w) eqn:Hlog; js_simpl.
  - destruct (localStorage w !! "guest_cart") as [[s|l]|]; js_simpl.
    + destruct (String.eqb s ""); js_simpl;
        destruct (srv _ apiService.getCart); repeat (js_simpl; rewrite ?Hlog);
        done.
    + destruct l as [|i l]; js_simpl.
      * destruct (srv _ apiService.getCart); repeat (js_simpl; rewrite ?Hlog);
          done.
      * destruct (srv _ (apiService.mergeCart _)); js_simpl;
          destruct (srv _ apiService.getCart); repeat (js_simpl; rewrite ?Hlog);
          done.
    + destruct (srv _ apiService.getCart); repeat (js_simpl; rewrite ?Hlog);
        done.
  - destruct (localStorage w !! "guest_cart") as [[s|l]|]; js_simpl; [|done..].
    destruct (String.eqb s ""); js_simpl; done.
Qed.

(** X2: [refreshCart] never throws and never leaves the cart loading:
    whatever is stored and whatever the server answers, it returns
    normally with [loading] false, and it leaves the login flag alone. *)
Theorem refreshCart_always_settles (srv : Backend) (w : World) :
  fst (refreshCart srv w) = Ret tt /\
  loading (exec (refreshCart srv) w) = false /\
  isLoggedIn (exec (refreshCart srv) w) = isLoggedIn w.
Proof.
  destruct (isLoggedIn w) eqn:Hlog.
  2:{ destruct (refreshCart_guest srv w Hlog) as (H1 & _ & _ & H2 & H3 & _).
      by rewrite H3. }
  unfold refreshCart. unfold_js. js_simpl. rewrite Hlog. js_simpl.
  destruct (localStorage w !! "guest_cart") as [[s|l]|]; js_simpl.
  - destruct (String.eqb s ""); js_simpl;
      destruct (srv _ apiService.getCart); repeat (js_simpl; rewrite ?Hlog);
      done.
  - destruct l as [|i l]; js_simpl.
    + destruct (srv _ apiService.getCart); repeat (js_simpl; rewrite ?Hlog);
        done.
    + destruct (srv _ (apiService.mergeCart _)); js_simpl;
        destruct (srv _ apiService.getCart); repeat (js_simpl; rewrite ?Hlog);
        done.
  - destruct (srv _ apiService.getCart); repeat (js_simpl; rewrite ?Hlog);
      done.
Qed.

(* the texts of JSON values are not among the strings of [not_json];
   strings that end after white space, or go on with another character,
   are *)
Example not_json_values :
  Forall (fun s => not_json s = false)
    ["[]"; "{}"; " [1]"; "null"; "true"; "false"; "0"; "-1"; "42"] /\
  Forall (fun s => not_json s = true)
    [""; "  "; "undefined"; "NaN"; "'x'"; "x[]"].
Proof. split; repeat constructor. Qed.

(** X3: a guest whose stored cart is a non-empty string that cannot be
    JSON text (after white space it ends or goes on with a character that
    begins no JSON value, so that [JSON.parse] throws) starts with an
    empty cart, and the unreadable entry is removed from local storage;
    the server is not called. *)
Theorem unreadable_guest_cart_is_dropped
    (srv : Backend) (w : World) (s : string) :
  isLoggedIn w = false ->
  localStorage w !! "guest_cart" = Some (Text s) ->
  s <> "" -> not_json s = true ->
  let w' := exec (refreshCart srv) w in
  fst (refreshCart srv w) = Ret tt /\
  items w' = [] /\ localStorage w' !! "guest_cart" = None /\
  trace w' = trace w.
Proof.
  intros Hg Hs Hne _ w'.
  destruct (refreshCart_guest srv w Hg) as (Hr & Hi & Ht & _ & _ & _ & _ & Hst).
  fold w' in Hi, Ht, Hst. rewrite Hs in Hst.
  apply String.eqb_neq in Hne. rewrite Hne in Hst.
  split_and!; try done.
  - rewrite Hi. unfold stored_cart. by rewrite Hs.
  - rewrite Hst. apply lookup_delete_eq.
Qed.

Lemma unreadable_guest_cart_is_dropped_witness :
  let w := setStorage {[ "guest_cart" := Text "undefined" ]} guest_world in
  items (exec (refreshCart offline) w) = [] /\
  localStorage (exec (refreshCart offline) w) !! "guest_cart" = None.
Proof.
  destruct (unreadable_guest_cart_is_dropped offline
              (setStorage {[ "guest_cart" := Text "undefined" ]} guest_world)
              "undefined")
    as (_ & Hi & Hs & _).
  - reflexivity.
  - reflexivity.
  - discriminate.
  - reflexivity.
  - split; [exact Hi | exact Hs].
Defined.

(* a logged-in [refreshCart]: after the merge attempt, the outcome of
   [getCart] decides *)
Lemma refreshCart_logged_in srv w :
  isLoggedIn w = true ->
  exists wm,
    items wm = items w /\ isLoggedIn wm = true /\
    exec (refreshCart srv) w
    = match srv (trace wm) apiService.getCart with
      | Ret d => setLoading false
                   (setItems (cart_items_of d) (emit (ECall apiService.getCart) wm))
      | Throw _ => setLoading false
                     (emit (EConsole "Failed to load cart:")
                        (emit (ECall apiService.getCart) wm))
      end.
Proof.
  intros Hlog. unfold refreshCart. unfold_js. js_simpl. rewrite Hlog. js_simpl.
  destruct (localStorage w !! "guest_cart") as [[s|l]|]; js_simpl.
  - destruct (String.eqb s ""); js_simpl.
    + exists (setLoading true w). split_and!; [done..|].
      destruct (srv _ apiService.getCart); repeat (js_simpl; rewrite ?Hlog); done.
    + exists (setStorage (delete "guest_cart" (localStorage w))
                (emit (EConsole "Failed to merge cart:") (setLoading true w))).
      split_and!; [done..|].
      destruct (srv _ apiService.getCart); repeat (js_simpl; rewrite ?Hlog); done.
  - destruct l as [|i l]; cbn -[lookup delete insert mergePayload].
    + exists (setStorage (delete "guest_cart" (localStorage w)) (setLoading true w)).
      split_and!; [done..|].
      destruct (srv _ apiService.getCart); repeat (js_simpl; rewrite ?Hlog); done.
    + destruct (srv _ (apiService.mergeCart _));
        cbn -[lookup delete insert mergePayload].
      * exists (setStorage (delete "guest_cart" (localStorage w))
                  (emit (ECall (apiService.mergeCart (mergePayload (i :: l))))
                     (setLoading true w))).
        split_and!; [done..|].
        destruct (srv _ apiService.getCart);
          repeat (cbn -[lookup delete insert mergePayload]; rewrite ?Hlog); done.
      * exists (setStorage (delete "guest_cart" (localStorage w))
                  (emit (EConsole "Failed to merge cart:")
                     (emit (ECall (apiService.mergeCart (mergePayload (i :: l))))
                        (setLoading true w)))).
        split_and!; [done..|].
        destruct (srv _ apiService.getCart);
          repeat (cbn -[lookup delete insert mergePayload]; rewrite ?Hlog); done.
  - exists (setLoading true w). split_and!; [done..|].
    destruct (srv _ apiService.getCart); repeat (js_simpl; rewrite ?Hlog); done.
Qed.

(** X4: when the server cart cannot be fetched, a logged-in customer
    keeps the items the page already shows: [refreshCart] logs the error
    and does not empty the cart. *)
Theorem unreachable_server_keeps_cart (srv : Backend) (w : World) :
  isLoggedIn w = true ->
  (forall t, exists e, srv t apiService.getCart = Throw e) ->
  let w' := exec (refreshCart srv) w in
  items w' = items w /\
  EConsole "Failed to load cart:" ∈ trace w'.
Proof.
  intros Hlog Hfail w'.
  destruct (refreshCart_logged_in srv w Hlog) as (wm & Hi & _ & Heq).
  unfold w'. rewrite Heq. destruct (Hfail (trace wm)) as [e ->]. simpl.
  split; [done|]. set_solver.
Qed.

Lemma unreachable_server_keeps_cart_witness :
  items (exec (refreshCart offline) (customer_with [mala_item (Some "i1") 2]))
  = [mala_item (Some "i1") 2].
Proof.
  destruct (unreachable_server_keeps_cart offline
              (customer_with [mala_item (Some "i1") 2])) as [Hi _].
  - reflexivity.
  - intros t. by exists NetworkError.
  - exact Hi.
Defined.

(** ** The item count and the buttons of the cart page *)

Lemma reduce_sum_acc {A} (g : A -> Z) (l : list A) (a : Z) :
  foldl (fun sum x => (sum + g x)%Z) a l = (a + reduce_sum g l)%Z.
Proof.
  unfold reduce_sum. revert a. induction l as [|x l IH]; intros a; simpl; [lia|].
  rewrite (IH (a + g x)%Z), (IH (0 + g x)%Z). lia.
Qed.

Lemma reduce_sum_cons {A} (g : A -> Z) x l :
  reduce_sum g (x :: l) = (g x + reduce_sum g l)%Z.
Proof. unfold reduce_sum at 1. simpl. by rewrite reduce_sum_acc. Qed.

Lemma itemCount_reduce l : itemCount l = reduce_sum CartItem.quantity l.
Proof. done. Qed.

#[local] Arguments reduce_sum : simpl never.

Lemma reduce_sum_alter {A} (g : A -> Z) f n (l : list A) x :
  l !! n = Some x ->
  reduce_sum g (alter f n l) = (reduce_sum g l - g x + g (f x))%Z.
Proof.
  revert n. induction l as [|y l IH]; intros [|n] Hn; try done; simpl in *.
  - injection Hn as ->. rewrite !reduce_sum_cons. lia.
  - change (list_alter f n l) with (alter f n l).
    rewrite !reduce_sum_cons, (IH n Hn). lia.
Qed.

Lemma filter_other_id pid (l : list CartItem.t) :
  pid ∉ CartItem.product_id <$> l ->
  filter (fun i => CartItem.product_id i <> pid) l = l.
Proof.
  induction l as [|x l IH]; [done|]. rewrite fmap_cons, not_elem_of_cons.
  intros [Hx Hl]. rewrite filter_cons_True by done. by rewrite IH.
Qed.

Lemma reduce_sum_filter_one (g : CartItem.t -> Z) n (l : list CartItem.t) x :
  NoDup (CartItem.product_id <$> l) -> l !! n = Some x ->
  reduce_sum g (filter (fun i => CartItem.product_id i <> CartItem.product_id x) l)
  = (reduce_sum g l - g x)%Z.
Proof.
  revert n. induction l as [|y l IH]; intros [|n] Hnd Hn; try done;
    rewrite fmap_cons in Hnd; apply NoDup_cons in Hnd as [Hy Hnd]; simpl in Hn.
  - injection Hn as ->. rewrite filter_cons_False by (intros H; by apply H).
    rewrite filter_other_id by done. rewrite reduce_sum_cons. lia.
  - assert (CartItem.product_id y <> CartItem.product_id x) as Hne.
    { intros Heq. apply Hy. rewrite Heq. apply list_elem_of_fmap.
      exists x. split; [done|]. by eapply list_elem_of_lookup_2. }
    rewrite filter_cons_True by done. rewrite !reduce_sum_cons, (IH n Hnd Hn). lia.
Qed.

(* with one line per product, [findIndex] by product finds the line itself *)
Lemma list_find_own_line n (l : list CartItem.t) x :
  NoDup (CartItem.product_id <$> l) -> l !! n = Some x ->
  list_find (fun i => CartItem.product_id i = CartItem.product_id x) l = Some (n, x).
Proof.
  intros Hnd Hn. apply list_find_Some. split_and!; [done..|].
  intros j y Hj Hlt Heq.
  assert (j = n); [|lia].
  eapply NoDup_lookup; [exact Hnd| |]; rewrite list_lookup_fmap.
  - by rewrite Hj.
  - rewrite Hn. simpl. by rewrite Heq.
Qed.

(* what an enabled button of a guest's cart line does *)
Lemma press_guest srv w n b item :
  guest_inv w -> in_range item -> items w !! n = Some item ->
  Cart_page.disabled b item = false ->
  let w' := exec (Cart_page.press srv b item) w in
  items w'
  = match b with
    | Cart_page.Trash =>
        filter (fun i => CartItem.product_id i <> CartItem.product_id item) (items w)
    | _ => alter (CartItem.set_quantity (CartItem.quantity item + units b item)) n
                 (items w)
    end /\
  loading w' = loading w /\
  trace w' = trace w ++ match b with
                        | Cart_page.Trash => [EToast success "Removed from cart"]
                        | _ => []
                        end.
Proof.
  intros [Hg Hnd Hst Hc] [Hlo Hhi] Hn Hen.
  pose proof (list_find_own_line n (items w) item Hnd Hn) as Hfind.
  destruct b; simpl in Hen |- *.
  - unfold Cart_page.press_minus, Cart_page.minus_disabled in *. rewrite Hen.
    apply Z.leb_gt in Hen. unfold updateQuantity.
    destruct (_ <? 1)%Z eqn:H1; [apply Z.ltb_lt in H1; lia|].
    unfold_js. js_simpl. rewrite Hg, Hfind. js_simpl.
    destruct (Product.stock _ <? _)%Z eqn:H2; [apply Z.ltb_lt in H2; lia|].
    js_simpl. by rewrite app_nil_r.
  - unfold Cart_page.press_plus, Cart_page.plus_disabled in *. rewrite Hen.
    rewrite Z.geb_leb in Hen. apply Z.leb_gt in Hen. unfold updateQuantity.
    destruct (_ <? 1)%Z eqn:H1; [apply Z.ltb_lt in H1; lia|].
    unfold_js. js_simpl. rewrite Hg, Hfind. js_simpl.
    destruct (Product.stock _ <? _)%Z eqn:H2; [apply Z.ltb_lt in H2; lia|].
    js_simpl. by rewrite app_nil_r.
  - unfold Cart_page.press_remove, removeFromCart. unfold_js. js_simpl.
    rewrite Hg. js_simpl. done.
Qed.

(** X5: a guest who adds a product that is not yet in the cart and then
    removes it has the cart of before, on the page and in local storage
    (where the cart is written even if it was not stored before), and the
    server has not been called. *)
Theorem add_then_remove_restores_cart
    (srv : Backend) (w : World) (p : Product.t) (q : option Z) :
  isLoggedIn w = false ->
  Product.id p ∉ CartItem.product_id <$> items w ->
  let w' := exec (removeFromCart srv (Product.id p)) (exec (addToCart srv p q) w) in
  items w' = items w /\
  localStorage w' !! "guest_cart" = Some (Stringified (items w)) /\
  calls_of (trace w') = calls_of (trace w).
Proof.
  intros Hg Hfresh w'.
  assert (exists wa, exec (addToCart srv p q) w = wa /\ isLoggedIn wa = false /\
                     calls_of (trace wa) = calls_of (trace w) /\
                     filter (fun i => CartItem.product_id i <> Product.id p) (items wa)
                     = items w) as (wa & Hwa & Hga & Hca & Hfa).
  { eexists. split; [done|]. unfold addToCart.
    destruct (negb _ || _).
    { unfold_js. js_simpl. rewrite calls_of_app, app_nil_r.
      by rewrite filter_other_id. }
    unfold_js. js_simpl. rewrite Hg.
    destruct (list_find _ (items w)) as [[i x]|] eqn:Hfind; js_simpl.
    - apply list_find_Some in Hfind as (Hix & Hid & _). exfalso. apply Hfresh.
      apply list_elem_of_fmap. exists x. split; [done|].
      by eapply list_elem_of_lookup_2.
    - rewrite calls_of_app, app_nil_r. split_and!; try done.
      rewrite filter_app, filter_other_id by done.
      rewrite filter_cons_False, filter_nil, app_nil_r; [done|].
      simpl. intros H. by apply H. }
  unfold w'. rewrite Hwa. unfold removeFromCart. unfold_js. js_simpl.
  rewrite Hga. js_simpl. rewrite Hfa, lookup_insert_eq, calls_of_app, Hca.
  by rewrite app_nil_r.
Qed.

Lemma add_then_remove_restores_cart_witness :
  items (exec (removeFromCart offline "p1")
           (exec (addToCart offline mala (Some 2%Z)) guest_world)) = [].
Proof.
  destruct (add_then_remove_restores_cart offline guest_world mala (Some 2%Z))
    as [Hi _].
  - reflexivity.
  - simpl. apply not_elem_of_nil.
  - exact Hi.
Defined.

(* asking for at least one unit keeps every line at one unit or more *)
Lemma run_ops_positive srv ops w :
  isLoggedIn w = false -> Forall positive_add ops ->
  Forall (fun i => (1 <= CartItem.quantity i)%Z) (items w) ->
  Forall (fun i => (1 <= CartItem.quantity i)%Z) (items (run_ops srv ops w)).
Proof.
  intros Hg Hops. revert w Hg.
  induction Hops as [|op ops Hop Hops IH]; intros w Hg Hpos; [done|].
  simpl. destruct op as [p q|pid q|pid]; simpl in *.
  - unfold addToCart. destruct (negb _ || _).
    { unfold_js. js_simpl. by apply IH. }
    unfold_js. js_simpl. rewrite Hg.
    destruct (list_find _ (items w)) as [[i x]|] eqn:Hfind; js_simpl.
    + apply list_find_Some in Hfind as (Hix & _ & _).
      destruct (_ >? _)%Z; js_simpl; apply IH; try done.
      apply Forall_alter; [done|]. intros y Hy Hq.
      assert (y = x) as -> by congruence. simpl. lia.
    + apply IH; try done. apply Forall_app. split; [done|].
      apply Forall_singleton. simpl. lia.
  - unfold updateQuantity. destruct (q <? 1)%Z eqn:Hq.
    { unfold_js. js_simpl. by apply IH. }
    apply Z.ltb_ge in Hq. unfold_js. js_simpl. rewrite Hg.
    destruct (list_find _ (items w)) as [[i x]|] eqn:Hfind; js_simpl;
      [|by apply IH].
    destruct (Product.stock _ <? _)%Z; js_simpl; apply IH; try done.
    apply Forall_alter; [done|]. intros y _ _. simpl. lia.
  - unfold removeFromCart. unfold_js. js_simpl. rewrite Hg. js_simpl.
    apply IH; try done. apply Forall_forall. intros y [_ Hy]%list_elem_of_filter.
    rewrite Forall_forall in Hpos. by apply Hpos.
Qed.

Lemma itemCount_positive l :
  Forall (fun i => (1 <= CartItem.quantity i)%Z) l ->
  (Z.of_nat (length l) <= itemCount l)%Z.
Proof.
  rewrite itemCount_reduce.
  induction 1 as [|x l Hx Hl IH]; [done|].
  rewrite reduce_sum_cons. simpl length. lia.
Qed.

(** X6: as long as a guest asks [addToCart] for at least one unit (the
    pages ask for 1), every line of the cart holds at least one unit,
    whatever else is done to the cart; so the item count shown in the
    header is zero exactly when the cart is empty. *)
Theorem guest_quantities_positive (srv : Backend) (ops : list GuestOp) :
  Forall positive_add ops ->
  let l := items (run_ops srv ops guest_world) in
  Forall (fun i => (1 <= CartItem.quantity i)%Z) l /\
  (itemCount l = 0%Z <-> l = []).
Proof.
  intros Hops l.
  assert (Forall (fun i => (1 <= CartItem.quantity i)%Z) l) as Hpos.
  { by apply run_ops_positive. }
  split; [done|]. split.
  - intros H0. apply itemCount_positive in Hpos. destruct l; [done|].
    simpl length in Hpos. lia.
  - by intros ->.
Qed.

Lemma guest_quantities_positive_witness :
  Forall (fun i => (1 <= CartItem.quantity i)%Z)
         (items (run_ops offline [OpAdd mala None; OpUpdate "p1" 3%Z; OpUpdate "p1" 0%Z]
                         guest_world)).
Proof.
  apply (guest_quantities_positive offline
           [OpAdd mala None; OpUpdate "p1" 3%Z; OpUpdate "p1" 0%Z]).
  repeat constructor; simpl; lia.
Defined.

(* one click of a guest on the cart page *)
Lemma click_guest srv c w :
  guest_inv w -> Forall in_range (items w) ->
  let w' := Cart_page.click srv c w in
  guest_inv w' /\ Forall in_range (items w') /\
  exists new, trace w' = trace w ++ new /\
              forall k msg, EToast k msg ∈ new -> k = success.
Proof.
  intros Hinv Hr w'. unfold w', Cart_page.click.
  assert (exists new, trace w = trace w ++ new /\
                      forall k msg, EToast k msg ∈ new -> k = success) as Hsame.
  { exists []. rewrite app_nil_r. split; [done|]. by intros k msg ?%elem_of_nil. }
  destruct (loading w); [done|].
  destruct c as [b n]. simpl.
  destruct (items w !! n) as [item|] eqn:Hn; [|done].
  assert (in_range item) as Hitem.
  { rewrite Forall_forall in Hr. apply Hr. by eapply list_elem_of_lookup_2. }
  destruct (Cart_page.disabled b item) eqn:Hen.
  { destruct b; simpl in Hen |- *; try done.
    - unfold Cart_page.press_minus. rewrite Hen. done.
    - unfold Cart_page.press_plus. rewrite Hen. done. }
  destruct (press_guest srv w n b item Hinv Hitem Hn Hen) as (Hi & _ & Ht).
  split_and!.
  - destruct b; simpl; unfold Cart_page.press_minus, Cart_page.press_plus,
      Cart_page.press_remove;
      repeat match goal with |- context [if ?c then _ else _] => destruct c end;
      auto using updateQuantity_guest_inv, removeFromCart_guest_inv.
  - rewrite Hi. destruct Hitem as [Hlo Hhi].
    destruct b; simpl in Hen |- *.
    + apply Z.leb_gt in Hen. apply Forall_alter; [done|].
      intros y Hy _. assert (y = item) as -> by congruence.
      unfold in_range. simpl. lia.
    + unfold Cart_page.plus_disabled in Hen. rewrite Z.geb_leb in Hen.
      apply Z.leb_gt in Hen. apply Forall_alter; [done|].
      intros y Hy _. assert (y = item) as -> by congruence.
      unfold in_range. simpl. lia.
    + apply Forall_forall. intros y [_ Hy]%list_elem_of_filter.
      rewrite Forall_forall in Hr. by apply Hr.
  - eexists. split; [exact Ht|]. intros k msg.
    destruct b; [by intros ?%elem_of_nil..|].
    intros ?%list_elem_of_singleton. congruence.
Qed.

(** X7: on the cart page of a guest whose lines hold between one unit
    and the stock, no sequence of clicks on the minus, plus and remove
    buttons takes a line out of that range; no click calls the server or
    shows an error. *)
Theorem cart_buttons_keep_quantities_in_range
    (srv : Backend) (cs : list (Cart_page.Button * nat)) (w : World) :
  guest_inv w -> Forall in_range (items w) ->
  let w' := Cart_page.clicks srv cs w in
  Forall in_range (items w') /\
  calls_of (trace w') = [] /\
  exists new, trace w' = trace w ++ new /\
              forall k msg, EToast k msg ∈ new -> k = success.
Proof.
  intros Hinv Hr w'. unfold w'. clear w'.
  assert (guest_inv (Cart_page.clicks srv cs w) /\
          Forall in_range (items (Cart_page.clicks srv cs w)) /\
          exists new, trace (Cart_page.clicks srv cs w) = trace w ++ new /\
                      forall k msg, EToast k msg ∈ new -> k = success)
    as (Hinv' & Hr' & Hnew).
  { revert w Hinv Hr. induction cs as [|c cs IH]; intros w Hinv Hr.
    - split_and!; try done. exists []. rewrite app_nil_r.
      split; [done|]. by intros k msg ?%elem_of_nil.
    - destruct (click_guest srv c w Hinv Hr) as (Hinv1 & Hr1 & new1 & Ht1 & Hk1).
      destruct (IH _ Hinv1 Hr1) as (Hinv2 & Hr2 & new2 & Ht2 & Hk2).
      change (Cart_page.clicks srv (c :: cs) w)
        with (Cart_page.clicks srv cs (Cart_page.click srv c w)).
      split_and!; try done. exists (new1 ++ new2).
      rewrite Ht2, Ht1, app_assoc. split; [done|].
      intros k msg [?|?]%elem_of_app; eauto. }
  split_and!; try done. by destruct Hinv'.
Qed.

Lemma cart_buttons_keep_quantities_in_range_witness :
  Forall in_range
    (items (Cart_page.clicks offline
              [(Cart_page.Plus, 0); (Cart_page.Minus, 0); (Cart_page.Minus, 0);
               (Cart_page.Minus, 0)]
              (run_ops offline [OpAdd mala None] guest_world))).
Proof.
  apply (cart_buttons_keep_quantities_in_range offline
           [(Cart_page.Plus, 0); (Cart_page.Minus, 0); (Cart_page.Minus, 0);
            (Cart_page.Minus, 0)]
           (run_ops offline [OpAdd mala None] guest_world)).
  - apply run_ops_guest_inv, guest_world_inv.
  - apply Forall_singleton. unfold in_range. simpl. lia.
Defined.

Example safe_integer_value : safe_integer = 9007199254740992%Z.
Proof. reflexivity. Qed.

(** X8: a click on an enabled button of a guest's cart line changes the
    item count by exactly that line's share: plus adds one unit, minus
    takes one unit away, remove takes the units of the whole line away;
    the other lines do not count differently.  (The lines hold between
    one unit and the stock, and the count is within the integers a
    JavaScript number holds exactly.) *)
Theorem cart_button_changes_item_count
    (srv : Backend) (w : World) (n : nat) (b : Cart_page.Button)
    (item : CartItem.t) :
  guest_inv w -> Forall in_range (items w) ->
  (itemCount (items w) < safe_integer)%Z ->
  items w !! n = Some item ->
  Cart_page.disabled b item = false ->
  let w' := exec (Cart_page.press srv b item) w in
  itemCount (items w') = (itemCount (items w) + units b item)%Z /\
  (itemCount (items w') <= safe_integer)%Z.
Proof.
  intros Hinv Hr Hsafe Hn Hen w'.
  assert (in_range item) as Hitem.
  { rewrite Forall_forall in Hr. apply Hr. by eapply list_elem_of_lookup_2. }
  destruct (press_guest srv w n b item Hinv Hitem Hn Hen) as (Hi & _).
  fold w' in Hi. rewrite Hi.
  assert (CartItem.quantity item <= itemCount (items w))%Z as Hle.
  { clear -Hr Hn. change itemCount with (reduce_sum CartItem.quantity).
    revert n Hn. induction Hr as [|x l Hx Hl IH]; intros [|n] Hn; try done;
      rewrite reduce_sum_cons; simpl in Hn.
    - injection Hn as ->.
      assert (0 <= reduce_sum CartItem.quantity l)%Z; [|lia].
      clear -Hl. induction Hl as [|y l [Hy _] _ IH]; [done|].
      rewrite reduce_sum_cons. lia.
    - specialize (IH n Hn). destruct Hx as [Hx _]. lia. }
  change itemCount with (reduce_sum CartItem.quantity) in *.
  destruct Hinv as [_ Hnd _ _]. destruct Hitem as [Hlo _].
  destruct b; simpl;
    [rewrite !(reduce_sum_alter _ _ _ _ _ Hn)..
    |rewrite !(reduce_sum_filter_one _ _ _ _ Hnd Hn)];
    simpl; lia.
Qed.

Lemma cart_button_changes_item_count_witness :
  let w := guest_with [mala_item None 2] in
  itemCount (items (exec (Cart_page.press offline Cart_page.Plus (mala_item None 2)) w))
  = 3%Z.
Proof.
  destruct (cart_button_changes_item_count offline (guest_with [mala_item None 2]) 0
              Cart_page.Plus (mala_item None 2)) as [Hc _].
  - split; simpl; auto using NoDup_nil_2. apply NoDup_singleton.
  - apply Forall_singleton. unfold in_range. simpl. lia.
  - reflexivity.
  - reflexivity.
  - reflexivity.
  - exact Hc.
Defined.

(** X9: when the call of a change to the cart of a logged-in customer
    (add, update or remove) is rejected, the page keeps the cart it
    shows: the items, the loading flag and local storage up to the two
    token keys are as before, [getCart] is not called again, and the
    only notifications are errors.  (The token keys are left out: a call
    that is answered 401 goes through the refresh of the HTTP client,
    which writes or removes them.) *)
Theorem rejected_change_keeps_cart (srv : Backend) (w : World) (op : GuestOp) :
  isLoggedIn w = true ->
  (forall c, c <> apiService.getCart -> exists e, srv (trace w) c = Throw e) ->
  let w' := exec (run_op srv op) w in
  items w' = items w /\
  (forall k, k <> "access_token" -> k <> "refresh_token" ->
             localStorage w' !! k = localStorage w !! k) /\
  loading w' = loading w /\
  exists new, trace w' = trace w ++ new /\
              (apiService.getCart ∉ calls_of new) /\
              forall k msg, EToast k msg ∈ new -> k = error.
Proof.
  intros Hlog Hrej w'. unfold w'. clear w'.
  destruct op as [p q|pid q|pid]; simpl.
  - unfold addToCart. destruct (negb _ || _).
    { unfold_js. js_simpl. split_and!; try done. eexists [_]. split; [done|].
      split; [simpl; apply not_elem_of_nil|].
      intros k msg ?%list_elem_of_singleton. congruence. }
    unfold_js. js_simpl. rewrite Hlog. js_simpl.
    destruct (Hrej (apiService.addToCart (Product.id p) (default 1%Z q)))
      as [e ->]; [done|].
    js_simpl. split_and!; try done. eexists [_; _; _].
    rewrite <- !app_assoc. split; [done|].
    split; [simpl; apply not_elem_of_cons; split; [done|apply not_elem_of_nil]|].
    intros k msg Hin. repeat (apply elem_of_cons in Hin as [Hin|Hin]; [congruence|]).
    by apply elem_of_nil in Hin.
  - unfold updateQuantity. destruct (q <? 1)%Z.
    { unfold_js. js_simpl. split_and!; try done. exists []. rewrite app_nil_r.
      split; [done|]. split; [apply not_elem_of_nil|]. by intros k msg ?%elem_of_nil. }
    unfold_js. js_simpl. rewrite Hlog. js_simpl.
    destruct (item_id_of _) as [itemId|]; js_simpl.
    + destruct (Hrej (apiService.updateCartItem itemId q)) as [e ->]; [done|].
      js_simpl. split_and!; try done. eexists [_; _; _].
      rewrite <- !app_assoc. split; [done|].
      split; [simpl; apply not_elem_of_cons; split; [done|apply not_elem_of_nil]|].
      intros k msg Hin. repeat (apply elem_of_cons in Hin as [Hin|Hin]; [congruence|]).
      by apply elem_of_nil in Hin.
    + split_and!; try done. exists []. rewrite app_nil_r.
      split; [done|]. split; [apply not_elem_of_nil|]. by intros k msg ?%elem_of_nil.
  - unfold removeFromCart. unfold_js. js_simpl. rewrite Hlog. js_simpl.
    destruct (item_id_of _) as [itemId|]; js_simpl.
    + destruct (Hrej (apiService.removeFromCart itemId)) as [e ->]; [done|].
      js_simpl. split_and!; try done. eexists [_; _; _].
      rewrite <- !app_assoc. split; [done|].
      split; [simpl; apply not_elem_of_cons; split; [done|apply not_elem_of_nil]|].
      intros k msg Hin. repeat (apply elem_of_cons in Hin as [Hin|Hin]; [congruence|]).
      by apply elem_of_nil in Hin.
    + split_and!; try done. exists []. rewrite app_nil_r.
      split; [done|]. split; [apply not_elem_of_nil|]. by intros k msg ?%elem_of_nil.
Qed.

Lemma rejected_change_keeps_cart_witness :
  items (exec (run_op refusing (OpUpdate "p1" 5%Z))
           (customer_with [mala_item (Some "i1") 2]))
  = [mala_item (Some "i1") 2].
Proof.
  destruct (rejected_change_keeps_cart refusing
              (customer_with [mala_item (Some "i1") 2]) (OpUpdate "p1" 5%Z))
    as [Hi _].
  - reflexivity.
  - intros c _. by exists (HttpError 500 None).
  - exact Hi.
Defined.

(** X10: [clearCart] empties the cart on the page and removes the stored
    guest cart whatever the server answers; it never throws; a guest's
    call does not reach the server, a customer's makes the one
    [clearCart] call; in local storage the keys other than [guest_cart]
    and the two token keys are as before. *)
Theorem clearCart_always_empties (srv : Backend) (w : World) :
  let w' := exec (clearCart srv) w in
  fst (clearCart srv w) = Ret tt /\
  items w' = [] /\ itemCount (items w') = 0%Z /\
  localStorage w' !! "guest_cart" = None /\
  (forall k, k <> "guest_cart" -> k <> "access_token" -> k <> "refresh_token" ->
             localStorage w' !! k = localStorage w !! k) /\
  isLoggedIn w' = isLoggedIn w /\
  calls_of (trace w')
  = calls_of (trace w) ++ (if isLoggedIn w then [apiService.clearCart] else []).
Proof.
  unfold clearCart. unfold_js. js_simpl.
  destruct (isLoggedIn w) eqn:Hlog; js_simpl.
  - destruct (srv (trace w) apiService.clearCart); js_simpl;
      rewrite ?calls_of_app; simpl; rewrite ?app_nil_r, lookup_delete_eq;
      (split_and!; try done; intros k Hk _ _; by rewrite lookup_delete_ne).
  - rewrite app_nil_r, lookup_delete_eq.
    split_and!; try done. intros k Hk _ _. by rewrite lookup_delete_ne.
Qed.

(** ** The axios instance and the session *)

(* the refresh writes the two token keys, and nothing else *)
Lemma refresh_frame net w :
  let w' := (ApiService.refresh net w).2 in
  page_state w' = page_state w /\ location w' = location w /\
  forall k, k <> "access_token" -> k <> "refresh_token" ->
            localStorage w' !! k = localStorage w !! k.
Proof.
  unfold ApiService.refresh, ApiService.dispatch. unfold_js. js_simpl.
  destruct (ApiService.settle _) as [data|e]; [|done].
  destruct (token_fields data) as [[a [r|]]|]; js_simpl; [| |done].
  - destruct (negb (String.eqb r "")); js_simpl; split_and!; try done;
      intros k H1 H2; by rewrite ?lookup_insert_ne.
  - split_and!; try done. intros k H1 H2. by rewrite lookup_insert_ne.
Qed.

Lemma client_frame net config w :
  let w' := exec (ApiService.client net config) w in
  page_state w' = page_state w /\
  forall k, k <> "access_token" -> k <> "refresh_token" ->
            localStorage w' !! k = localStorage w !! k.
Proof.
  unfold exec. rewrite client_unfold. unfold ApiService.dispatch.
  set (c1 := ApiService.request_interceptor w config).
  destruct (ApiService.settle (net (trace w) api_client c1)) as [r|err]; [done|].
  destruct (is_401 err && negb (_retry c1)); [|done].
  pose proof (refresh_frame net (emit (EHttp api_client c1) w)) as (Hp & _ & Hk).
  destruct (ApiService.refresh net (emit (EHttp api_client c1) w)) as [[a|e] w2];
    simpl in Hp, Hk.
  - rewrite client_retried by done. unfold ApiService.dispatch. simpl. done.
  - unfold ApiService.refresh_failed. unfold_js. js_simpl. split; [done|].
    intros k H1 H2. rewrite !lookup_delete_ne by done. by apply Hk.
Qed.

(** X11: the HTTP client never changes what the page shows.  Whatever
    the network answers (also when a refresh fails and the client removes
    the tokens and sends the browser to /login), the cart items, the
    loading flag, the logged-in flag and the query cache are as before,
    and in local storage only the two token keys can have changed. *)
Theorem client_leaves_page_state (net : Network) (config : Request) (w : World) :
  let w' := exec (ApiService.client net config) w in
  items w' = items w /\ loading w' = loading w /\
  isLoggedIn w' = isLoggedIn w /\ queryCache w' = queryCache w /\
  forall k, k <> "access_token" -> k <> "refresh_token" ->
            localStorage w' !! k = localStorage w !! k.
Proof.
  intros w'. destruct (client_frame net config w) as [Hp Hk].
  unfold page_state in Hp. injection Hp as H1 H2 H3 H4. by split_and!.
Qed.

(** X12: a reply that is not a 401 is handed to the caller as it is.
    The client sends the one request, with the stored access token in
    its Authorization header when there is one, asks for no refresh,
    and leaves local storage and the location alone. *)
Theorem client_passes_other_replies
    (net : Network) (config : Request) (w : World) :
  let c1 := ApiService.request_interceptor w config in
  let r := ApiService.settle (net (trace w) api_client c1) in
  (forall e, r = Throw e -> is_401 e = false) ->
  ApiService.client net config w = (r, emit (EHttp api_client c1) w) /\
  (forall token, localStorage w !! "access_token" = Some token ->
                 truthy token = true -> Authorization c1 = Some token).
Proof.
  intros c1 r Hr. split.
  - rewrite client_unfold. unfold ApiService.dispatch. fold c1 r.
    destruct r as [b|e] eqn:Heq; [done|]. by rewrite (Hr e eq_refl).
  - intros token Ht Htr. unfold c1, ApiService.request_interceptor.
    by rewrite Ht, Htr.
Qed.

Lemma client_passes_other_replies_witness :
  let w' := exec (ApiService.client forbidding get_cart_request) (customer_with []) in
  fst (ApiService.client forbidding get_cart_request (customer_with []))
  = Throw (HttpError 403 (Some "Forbidden")) /\
  requests_of bare (trace w') = [] /\
  localStorage w' = localStorage (customer_with []).
Proof.
  destruct (client_passes_other_replies forbidding get_cart_request
              (customer_with [])) as [Heq _].
  - intros e He. injection He as <-. reflexivity.
  - unfold exec. rewrite Heq. split_and!; reflexivity.
Defined.

(** X13: the session outlives the page.  After [login] with a non-empty
    access token a reloaded page starts logged in; after [logout],
    whatever the network did, a reloaded page starts logged out. *)
Theorem session_survives_reload
    (net : Network) (accessToken refreshToken : string) (w : World) :
  accessToken <> "" ->
  let w1 := exec (login accessToken refreshToken) w in
  let w2 := exec (logout net) w1 in
  isLoggedIn (page_load (localStorage w1)) = true /\
  isLoggedIn (page_load (localStorage w2)) = false.
Proof.
  intros Hne w1 w2. split.
  - unfold w1, login, page_load. unfold_js. js_simpl.
    rewrite lookup_insert_ne, lookup_insert_eq by done. simpl.
    apply String.eqb_neq in Hne. by rewrite Hne.
  - unfold w2, logout, ApiService.logout, page_load. unfold_js.
    destruct (ApiService.client net _ w1) as [[r|e] w']; js_simpl;
      by rewrite lookup_delete_ne, lookup_delete_eq.
Qed.

Lemma session_survives_reload_witness :
  isLoggedIn (page_load (localStorage (exec (login "at" "rt") guest_world))) = true.
Proof.
  destruct (session_survives_reload unplugged "at" "rt" guest_world) as [H _].
  - discriminate.
  - exact H.
Defined.

(* [logout] leaves the cart key of local storage alone *)
Lemma logout_frame net w :
  let w' := exec (logout net) w in
  items w' = items w /\ isLoggedIn w' = false /\
  localStorage w' !! "guest_cart" = localStorage w !! "guest_cart".
Proof.
  pose proof (client_frame net (ApiService.request POST "/api/v1/auth/logout") w)
    as [Hp Hk].
  unfold logout, ApiService.logout. unfold_js. unfold exec in Hp, Hk.
  destruct (ApiService.client net _ w) as [[r|e] w1]; js_simpl;
    simpl in Hp, Hk; unfold page_state in Hp;
    rewrite !lookup_delete_ne by done;
    (split_and!; [congruence|done|by apply Hk]).
Qed.

(** X14: the guest cart does not come back after a session.  A guest
    fills the cart, logs in (the cart is merged, or the merge fails) and
    logs out again: the cart the page then shows is empty, whatever the
    server and the network did in between. *)
Theorem guest_cart_gone_after_logout
    (srv : Backend) (net : Network) (ops : list GuestOp)
    (accessToken refreshToken : string) :
  let w0 := run_ops srv ops guest_world in
  let w1 := exec (refreshCart srv) (exec (login accessToken refreshToken) w0) in
  let w2 := exec (refreshCart srv) (exec (logout net) w1) in
  items w2 = [] /\ isLoggedIn w2 = false /\
  localStorage w2 !! "guest_cart" = None.
Proof.
  intros w0 w1 w2.
  destruct (run_ops_guest_inv srv ops guest_world guest_world_inv)
    as [_ _ Hst _]. fold w0 in Hst.
  destruct (login_spec accessToken refreshToken w0) as (Hlog & _ & _ & Hgc).
  set (wl := exec (login accessToken refreshToken) w0) in *.
  assert (localStorage w1 !! "guest_cart" = None) as Hnone.
  { unfold w1. destruct Hst as [Hst|[Hnil Hst]].
    - destruct (items w0) as [|i l] eqn:Hi.
      + apply (refreshCart_no_merge srv wl Hlog). right. by rewrite Hgc.
      + destruct (refreshCart_merge srv wl (i :: l) Hlog) as (_ & _ & -> & _);
          [by rewrite Hgc|done|]. apply lookup_delete_eq.
    - apply (refreshCart_no_merge srv wl Hlog). left. by rewrite Hgc. }
  destruct (logout_frame net w1) as (_ & Hout & Hkey).
  destruct (refreshCart_guest srv _ Hout) as (_ & Hi & _ & _ & Hg & _ & _ & Hs).
  fold w2 in Hi, Hg, Hs. rewrite Hkey, Hnone in Hs.
  split_and!; try done.
  - rewrite Hi. unfold stored_cart. by rewrite Hkey, Hnone.
  - by rewrite Hs, Hkey.
Qed.

(** ** The checkout page: the latch and the empty cart guard *)

Section CheckoutInvariants.
Import Checkout_page.

(* the button state follows the latch, and a set latch has something to
   wait for *)
Lemma step_latch s inp :
  processing s = orderInFlight s /\ (orderInFlight s = true -> in_progress s) ->
  processing (step s inp) = orderInFlight (step s inp) /\
  (orderInFlight (step s inp) = true -> in_progress (step s inp)).
Proof.
  intros [Hp Hl]. destruct inp as [|i r|i ok|j resp|j d|j]; simpl.
  - unfold handleCreateOrder.
    destruct (selectedAddressId s) as [a|]; [destruct (String.eqb a "")|];
      [| destruct (_ || _) |]; simpl; try done.
    split; [done|]. intros _. left. exists (length (tasks s)), (AwaitOrder a).
    cbn [tasks widgets setTasks setWidgets]; by apply list_lookup_middle.
  - destruct (tasks s !! i) as [[ph|]|] eqn:Hi; try done.
    pose proof (lookup_lt_Some _ _ _ Hi) as Hlt.
    destruct ph as [addr|o|o p|o|o], r as [dd|e]; simpl;
      try destruct dd; try destruct (isLoggedIn _); simpl; try done;
      (split; [done|]); intros _; left; eexists i, _;
      cbn [tasks setTasks suspend]; by apply list_lookup_insert_eq.
  - destruct (tasks s !! i) as [[[addr|o|o p|o|o]|]|] eqn:Hi; try done.
    destruct ok; simpl; [|done]. split; [done|]. intros _. right.
    exists (length (widgets s)), o. cbn [tasks widgets setTasks setWidgets]; by apply list_lookup_middle.
  - destruct (widgets s !! j) as [[o|]|]; try done. simpl.
    split; [done|]. intros _. left.
    exists (length (tasks s)), (AwaitVerify o).
    cbn [tasks widgets setTasks setWidgets]; by apply list_lookup_middle.
  - destruct (widgets s !! j) as [[o|]|]; try done.
  - destruct (widgets s !! j) as [[o|]|]; try done.
Qed.

(** X15: on the checkout page the Place Order button is never left
    stuck.  In every state the page can reach, the [processing] state
    that disables the button equals the [orderInFlight] latch, and when
    the latch is set something is under way that will release it: a
    suspended submission or an open payment widget. *)
Theorem place_order_never_stuck
    (w : World) (addressId : option string) (inputs : list Input) :
  let s := run (mount w addressId) inputs in
  processing s = orderInFlight s /\ (orderInFlight s = true -> in_progress s).
Proof.
  intros s. unfold s, run. clear s.
  assert (forall s0,
            processing s0 = orderInFlight s0 /\
            (orderInFlight s0 = true -> in_progress s0) ->
            processing (foldl step s0 inputs) = orderInFlight (foldl step s0 inputs) /\
            (orderInFlight (foldl step s0 inputs) = true ->
             in_progress (foldl step s0 inputs))) as Hrun.
  { induction inputs as [|inp inputs IH]; intros s0 H0; [done|].
    simpl. by apply IH, step_latch. }
  apply Hrun. by split.
Qed.

Lemma step_paymentJustCompleted s inp :
  paymentJustCompleted s = true -> paymentJustCompleted (step s inp) = true.
Proof.
  intros Hp. destruct inp as [|i r|i ok|j resp|j d|j]; simpl.
  - unfold handleCreateOrder.
    destruct (selectedAddressId s) as [a|]; [destruct (String.eqb a "")|];
      [| destruct (_ || _) |]; done.
  - destruct (tasks s !! i) as [[ph|]|]; try done.
    destruct ph as [addr|o|o p|o|o], r as [dd|e]; simpl;
      try destruct dd; try destruct (isLoggedIn _); done.
  - destruct (tasks s !! i) as [[[addr|o|o p|o|o]|]|]; try done.
    by destruct ok.
  - by destruct (widgets s !! j) as [[o|]|].
  - by destruct (widgets s !! j) as [[o|]|].
  - by destruct (widgets s !! j) as [[o|]|].
Qed.

(* the page's view of the cart context: only a verified payment
   changes the items; nothing changes the loading flag *)
Lemma step_cart_untouched s inp l :
  paymentJustCompleted s = true \/
  (items (world s) = l /\
   forall i o, tasks s !! i <> Some (Some (AwaitClear o))) ->
  paymentJustCompleted (step s inp) = true \/
  (items (world (step s inp)) = l /\
   forall i o, tasks (step s inp) !! i <> Some (Some (AwaitClear o))).
Proof.
  intros [Hp|[Hi Hno]]; [left; by apply step_paymentJustCompleted|].
  destruct (paymentJustCompleted (step s inp)) eqn:Hflag; [by left|right].
  assert (~ after_verification s inp) as Hnot.
  { intros (i & o & [(d & -> & Ht)|(r & -> & Ht)]).
    - simpl in Hflag. rewrite Ht in Hflag. simpl in Hflag.
      destruct (isLoggedIn _); simpl in Hflag; discriminate.
    - by apply (Hno i o). }
  split.
  - apply step_shown in Hnot. unfold shown in Hnot. congruence.
  - intros i o Hc. apply AwaitClear_after_verified in Hc as [Hc|[Hc [d ->]]].
    + by apply (Hno i o).
    + apply Hnot. exists i, o. left. by exists d.
Qed.

Lemma step_loading s inp : loading (world (step s inp)) = loading (world s).
Proof.
  destruct inp as [|i r|i ok|j resp|j d|j]; simpl.
  - unfold handleCreateOrder.
    destruct (selectedAddressId s) as [a|]; [destruct (String.eqb a "")|];
      [| destruct (_ || _) |]; done.
  - destruct (tasks s !! i) as [[ph|]|]; try done.
    destruct ph as [addr|o|o p|o|o], r as [dd|e]; simpl;
      try destruct dd; try destruct (isLoggedIn _); done.
  - destruct (tasks s !! i) as [[[addr|o|o p|o|o]|]|]; try done.
    by destruct ok.
  - by destruct (widgets s !! j) as [[o|]|].
  - by destruct (widgets s !! j) as [[o|]|].
  - by destruct (widgets s !! j) as [[o|]|].
Qed.

(** X16: the empty cart guard of the checkout page never sends a
    customer away who came with a cart.  If the cart holds units when the
    page mounts, then in no state the page can reach does the guard's
    condition hold: the cart is only emptied by a verified payment, and
    that sets [paymentJustCompleted] first. *)
Theorem empty_cart_guard_never_fires
    (w : World) (addressId : option string) (inputs : list Input)
    (cartSettled : bool) :
  itemCount (items w) <> 0%Z ->
  empty_cart_guard cartSettled (run (mount w addressId) inputs) = false.
Proof.
  intros Hcount.
  assert (forall s0,
            paymentJustCompleted s0 = true \/
            (items (world s0) = items w /\
             forall i o, tasks s0 !! i <> Some (Some (AwaitClear o))) ->
            paymentJustCompleted (run s0 inputs) = true \/
            items (world (run s0 inputs)) = items w) as Hrun.
  { unfold run. induction inputs as [|inp inputs IH]; intros s0 H0.
    - simpl. destruct H0 as [?|[? _]]; auto.
    - simpl. by apply IH, step_cart_untouched. }
  unfold empty_cart_guard.
  destruct (Hrun (mount w addressId)) as [-> | ->].
  - right. split; [done|]. intros i o. simpl. by rewrite lookup_nil.
  - by rewrite andb_false_r.
  - apply Z.eqb_neq in Hcount. rewrite Hcount. by rewrite andb_false_r.
Qed.

Lemma empty_cart_guard_never_fires_witness :
  empty_cart_guard true
    (run (mount (customer_with [mala_item (Some "i1") 2]) (Some "a1"))
         [Click; Settle 0 (Ret (OrderData order1));
          Settle 0 (Ret (PaymentData intent1)); ScriptLoaded 0 true;
          PaymentSuccess 0 paid1; Settle 1 (Ret NoData); Settle 1 (Ret NoData)])
  = false.
Proof.
  apply (empty_cart_guard_never_fires (customer_with [mala_item (Some "i1") 2])).
  vm_compute. discriminate.
Defined.

End CheckoutInvariants.

(** ** The account page *)

Section AccountPage.
Import Account_page.

Lemma account_step_calls a inp :
  exists new,
    trace (world (step a inp)) = trace (world a) ++ new /\
    Forall (fun c => payment_call c = true) (calls_of new) /\
    items (world (step a inp)) = items (world a) /\
    localStorage (world (step a inp)) = localStorage (world a).
Proof.
  assert (exists new, trace (world a) = trace (world a) ++ new /\
                      Forall (fun c => payment_call c = true) (calls_of new) /\
                      items (world a) = items (world a) /\
                      localStorage (world a) = localStorage (world a)) as Hsame.
  { exists []. by rewrite app_nil_r. }
  destruct inp as [order|i r|i ok|j resp|j d|j]; simpl.
  - unfold handleContinuePayment. destruct (paymentInFlight a); [done|].
    eexists [_]. simpl. split_and!; try done; by repeat constructor.
  - destruct (tasks a !! i) as [[ph|]|]; try done.
    destruct ph as [o|o p|o], r as [dd|e]; simpl; try destruct dd; simpl;
      try done;
      try (eexists [_]; simpl; split_and!; try done; by repeat constructor).
    all: eexists [_; _]; simpl; rewrite <- ?app_assoc; split_and!; try done;
      by repeat constructor.
  - destruct (tasks a !! i) as [[[o|o p|o]|]|]; try done.
    destruct ok; simpl; [done|].
    eexists [_]. simpl. split_and!; try done; by repeat constructor.
  - destruct (widgets a !! j) as [[o|]|]; try done.
    eexists [_]. simpl. split_and!; try done; by repeat constructor.
  - destruct (widgets a !! j) as [[o|]|]; try done.
    eexists [_]. simpl. split_and!; try done; by repeat constructor.
  - destruct (widgets a !! j) as [[o|]|]; try done.
    eexists [_]. simpl. split_and!; try done; by repeat constructor.
Qed.

(** X17: paying a pending order from the account page never creates an
    order and never touches the cart.  Whatever happens in the payment
    flow of the page, the only methods of [apiService] it calls are
    [createPayment], [verifyPayment] and the reload of the orders; the
    cart items stay as they were, also after a payment that succeeded,
    and so does local storage up to the two token keys, the stored guest
    cart included. *)
Theorem account_payment_leaves_cart (w : World) (inputs : list Input) :
  let a := foldl step (mount w) inputs in
  exists new,
    trace (world a) = trace w ++ new /\
    Forall (fun c => payment_call c = true) (calls_of new) /\
    items (world a) = items w /\
    (forall k, k <> "access_token" -> k <> "refresh_token" ->
               localStorage (world a) !! k = localStorage w !! k).
Proof.
  intros a. unfold a. clear a.
  assert (forall a0,
            exists new,
              trace (world (foldl step a0 inputs)) = trace (world a0) ++ new /\
              Forall (fun c => payment_call c = true) (calls_of new) /\
              items (world (foldl step a0 inputs)) = items (world a0) /\
              localStorage (world (foldl step a0 inputs)) = localStorage (world a0))
    as Hrun.
  { induction inputs as [|inp inputs IH]; intros a0.
    - exists []. by rewrite app_nil_r.
    - simpl. destruct (account_step_calls a0 inp) as (n1 & Ht1 & Hc1 & Hi1 & Hs1).
      destruct (IH (step a0 inp)) as (n2 & Ht2 & Hc2 & Hi2 & Hs2).
      exists (n1 ++ n2). rewrite Ht2, Ht1, app_assoc, calls_of_app.
      split_and!; try congruence. by apply Forall_app. }
  destruct (Hrun (mount w)) as (new & Ht & Hc & Hi & Hs).
  exists new. split_and!; try done. intros k _ _. by rewrite Hs.
Qed.

Lemma account_step_latch a inp :
  (payingOrderId a = None <-> paymentInFlight a = false) /\
  (paymentInFlight a = true -> paying a) ->
  (payingOrderId (step a inp) = None <-> paymentInFlight (step a inp) = false) /\
  (paymentInFlight (step a inp) = true -> paying (step a inp)).
Proof.
  intros [Hp Hl].
  destruct inp as [order|i r|i ok|j resp|j d|j]; simpl.
  - unfold handleContinuePayment. destruct (paymentInFlight a) eqn:E; [rewrite E; by split|]. simpl.
    split; [split; discriminate|]. intros _. left.
    exists (length (tasks a)), (AwaitPayment order). by apply list_lookup_middle.
  - destruct (tasks a !! i) as [[ph|]|] eqn:Hi; try (by split).
    pose proof (lookup_lt_Some _ _ _ Hi) as Hlt.
    destruct ph as [o|o p|o], r as [dd|e]; simpl; try destruct dd; simpl;
      try (by split); try (split; [done|discriminate]).
    split; [done|]. intros _. left. eexists i, _.
    by apply list_lookup_insert_eq.
  - destruct (tasks a !! i) as [[[o|o p|o]|]|] eqn:Hi; try (by split).
    destruct ok; simpl; [|split; [done|discriminate]].
    split; [done|]. intros _. right.
    exists (length (widgets a)), o. by apply list_lookup_middle.
  - destruct (widgets a !! j) as [[o|]|]; try (by split). simpl.
    split; [done|]. intros _. left. exists (length (tasks a)), (AwaitVerify o).
    by apply list_lookup_middle.
  - destruct (widgets a !! j) as [[o|]|]; by split.
  - destruct (widgets a !! j) as [[o|]|]; by split.
Qed.

(** X18: on the account page Pay Now is never left stuck.  In every
    state the page can reach, an order is marked as being paid exactly
    when the [paymentInFlight] latch is set, and when the latch is set a
    payment is under way that will release it: a suspended function or
    an open payment widget. *)
Theorem pay_now_never_stuck (w : World) (inputs : list Input) :
  let a := foldl step (mount w) inputs in
  (payingOrderId a = None <-> paymentInFlight a = false) /\
  (paymentInFlight a = true -> paying a).
Proof.
  intros a. unfold a. clear a.
  assert (forall a0,
            (payingOrderId a0 = None <-> paymentInFlight a0 = false) /\
            (paymentInFlight a0 = true -> paying a0) ->
            (payingOrderId (foldl step a0 inputs) = None
             <-> paymentInFlight (foldl step a0 inputs) = false) /\
            (paymentInFlight (foldl step a0 inputs) = true ->
             paying (foldl step a0 inputs))) as Hrun.
  { induction inputs as [|inp inputs IH]; intros a0 H0; [done|].
    simpl. by apply IH, account_step_latch. }
  apply Hrun. by split.
Qed.

End AccountPage.

(** ** The mobile client: requests that do end *)

(* without a stored refresh token there is nothing to retry with *)
Lemma fetch_no_refresh_token n net opts d :
  Mobile.secure_storage d !! "refresh_token" = None ->
  Mobile.fetch (S n) net opts d
  = (Some (ApiService.settle (net (Mobile.log d) api_client (onRequest d opts))),
     Mobile.record (EHttp api_client (onRequest d opts)) d).
Proof.
  intros Hrt. simpl. fold (onRequest d opts).
  destruct (ApiService.settle _) as [r|err]; [done|].
  destruct (is_401 err); [|done].
  unfold Mobile._refreshToken. simpl. by rewrite Hrt.
Qed.

(** X19: on a device without a stored refresh token the mobile client
    sends a request once and hands its outcome to the caller, a 401
    included: no refresh is asked for, nothing is retried and the secure
    storage is left alone, however long the client is allowed to run. *)
Theorem dio_without_refresh_token_gives_up
    (n : nat) (net : Network) (opts : Request) (d : Mobile.Device) :
  Mobile.secure_storage d !! "refresh_token" = None ->
  let (r, d') := Mobile.fetch (S n) net opts d in
  r = Some (ApiService.settle (net (Mobile.log d) api_client (onRequest d opts))) /\
  Mobile.log d' = Mobile.log d ++ [EHttp api_client (onRequest d opts)] /\
  Mobile.secure_storage d' = Mobile.secure_storage d.
Proof.
  intros Hrt. by rewrite fetch_no_refresh_token.
Qed.

Lemma dio_without_refresh_token_gives_up_witness :
  (Mobile.fetch 7 always_401 get_cart_request half_signed_in_device).1
  = Some (Throw (HttpError 401 None)).
Proof.
  pose proof (dio_without_refresh_token_gives_up 6 always_401 get_cart_request
                half_signed_in_device eq_refl) as H.
  destruct (Mobile.fetch 7 always_401 get_cart_request half_signed_in_device)
    as [r d']. destruct H as [-> _]. reflexivity.
Defined.

(** X20: when the reply to a refresh carries no new refresh token, the
    mobile client stores the new access token and deletes the stored
    refresh token, and the original request is retried once with the new
    token: in all, two requests and one refresh, however long the client
    is allowed to run.  If the retry succeeds its response completes the
    call.  If the retry fails (a second 401 included, which can no
    longer be refreshed), nothing completes the call: the error of the
    retry is thrown inside [onError] and is not handed on. *)
Theorem dio_refresh_without_new_token_ends
    (n : nat) (net : Network) (opts : Request) (d : Mobile.Device)
    (refreshToken access_token : string) (err : Exn) :
  Mobile.secure_storage d !! "refresh_token" = Some refreshToken ->
  let opts1 := onRequest d opts in
  let rq := Mobile.refresh_request refreshToken in
  let opts2 := set_Authorization (Text access_token) opts1 in
  let t1 := Mobile.log d ++ [EHttp api_client opts1] in
  let t2 := t1 ++ [EHttp bare rq] in
  ApiService.settle (net (Mobile.log d) api_client opts1) = Throw err ->
  is_401 err = true ->
  ApiService.settle (net t1 bare rq) = Ret (TokenPair access_token None) ->
  let (r, d') := Mobile.fetch (S (S n)) net opts d in
  r = match ApiService.settle (net t2 api_client opts2) with
      | Ret response => Some (Ret response)
      | Throw _ => None
      end /\
  Mobile.log d' = t2 ++ [EHttp api_client opts2] /\
  Mobile.secure_storage d' !! "access_token" = Some access_token /\
  Mobile.secure_storage d' !! "refresh_token" = None.
Proof.
  intros Hrt opts1 rq opts2 t1 t2 Herr H401 Href.
  change (Mobile.fetch (S (S n)) net opts d)
    with (let d1 := Mobile.record (EHttp api_client opts1) d in
          match ApiService.settle (net (Mobile.log d) api_client opts1) with
          | Ret response => (Some (Ret response), d1)
          | Throw err =>
              if is_401 err then
                match Mobile._refreshToken net d1 with
                | (true, d2) =>
                    match
                      Mobile.fetch (S n) net
                        (set_Authorization
                           (Mobile.bearer (Mobile.secure_storage d2 !! "access_token"))
                           opts1) d2
                    with
                    | (Some (Ret response), d3) => (Some (Ret response), d3)
                    | (_, d3) => (None, d3)
                    end
                | (false, d2) => (Some (Throw err), d2)
                end
              else (Some (Throw err), d1)
          end).
  cbv zeta. rewrite Herr, H401.
  unfold Mobile._refreshToken. cbn [Mobile.record Mobile.secure_storage Mobile.log].
  rewrite Hrt. fold rq t1. rewrite Href.
  cbn [Mobile.token_entries Mobile.write Mobile.secure_storage Mobile.log
       Mobile.record].
  rewrite fetch_no_refresh_token by (simpl; apply lookup_delete_eq).
  unfold onRequest. simpl.
  rewrite !lookup_delete_ne, !lookup_insert_eq by done. simpl.
  change (set_Authorization (Text access_token)
            (set_Authorization (Mobile.bearer (Some access_token)) opts1))
    with opts2.
  fold t1 t2.
  destruct (ApiService.settle (net t2 api_client opts2)) as [response|e];
    simpl; rewrite lookup_delete_eq, lookup_delete_ne, lookup_insert_eq by done;
    split_and!; done.
Qed.

Lemma dio_refresh_without_new_token_ends_witness :
  let (r, d') := Mobile.fetch 9 stingy get_cart_request signed_in_device in
  r = None /\
  length (requests_of bare (Mobile.log d')) = 1 /\
  length (requests_of api_client (Mobile.log d')) = 2 /\
  Mobile.secure_storage d' !! "refresh_token" = None.
Proof.
  pose proof (dio_refresh_without_new_token_ends 7 stingy get_cart_request
                signed_in_device "rt" "at2" (HttpError 401 None)
                eq_refl eq_refl eq_refl eq_refl) as H.
  destruct (Mobile.fetch 9 stingy get_cart_request signed_in_device) as [r d'].
  destruct H as (-> & Hlog & _ & Hrt). rewrite Hlog.
  split; [reflexivity|]. split; [reflexivity|].
  split; [reflexivity | exact Hrt].
Defined.

(** ** The OTP screen of the mobile app *)

Section OtpScreenProperties.
Import OtpScreen.

Lemma otp_step_inv s inp : otp_inv s -> otp_inv (step s inp).
Proof.
  intros Hsame. pose proof Hsame as (Hc & Hs & Ht & Hrun & Htasks & Hcalls).
  destruct inp as [|t| | |i r|]; cbn [step].
  - unfold tick. destruct (timers s) as [|[|k]] eqn:Hk; [done| |lia].
    destruct (negb (mounted s)).
    { unfold otp_inv. cbn -[Z.le Z.lt]. split_and!; try done; lia. }
    specialize (Hrun eq_refl).
    destruct (_resendSeconds s >? 0)%Z eqn:Hpos; [|lia].
    cbn [_resendSeconds set_resendSeconds].
    destruct (_resendSeconds s - 1 >? 0)%Z eqn:Hnext;
      unfold otp_inv; cbn -[Z.le Z.lt]; rewrite ?Hk; split_and!; try done; lia.
  - destruct (negb (mounted s)); [done|].
    destruct (String.length t =? 6); [|by unfold otp_inv].
    unfold _verifyOtp. cbn [text set_text].
    destruct (negb (String.length t =? 6)); [by unfold otp_inv|].
    unfold otp_inv; cbn -[Z.le Z.lt]; split_and!; try done; try lia;
      (apply Forall_app; split; [done|]; by apply Forall_singleton).
  - destruct (negb (mounted s) || _isLoading s); [done|].
    unfold _verifyOtp. destruct (negb (String.length (text s) =? 6)); [done|].
    unfold otp_inv; cbn -[Z.le Z.lt]; split_and!; try done; try lia;
      (apply Forall_app; split; [done|]; by apply Forall_singleton).
  - rewrite Hc. simpl. by rewrite orb_true_r.
  - destruct (tasks s !! i) as [[ph|]|] eqn:Hi; [|done..].
    destruct ph.
    + destruct r as [ok|e]; cbn [resume]; unfold verify_finally;
        repeat match goal with |- context [if ?c then _ else _] => destruct c end;
        unfold otp_inv; cbn -[Z.le Z.lt]; split_and!; try done; try lia;
        by apply Forall_insert.
    + exfalso. rewrite Forall_forall in Htasks.
      apply (Htasks (Some AwaitSendOtp)); [|done].
      by eapply list_elem_of_lookup_2.
  - by unfold otp_inv.
Qed.

(** X21: on the OTP screen of the mobile app Resend never becomes
    available.  The countdown loop stops on the turn that brings the
    seconds to zero, before the turn that would set [_canResend]; so in
    every state the screen can reach, whatever the customer does and
    however the futures settle, [_canResend] is false, the seconds stay
    between 0 and 30, and [sendOtp] has not been called from the
    screen. *)
Theorem otp_resend_never_enabled (mobile : string) (inputs : list Input) :
  let s := run (initState mobile) inputs in
  _canResend s = false /\
  (0 <= _resendSeconds s <= 30)%Z /\
  Forall (fun c => is_sendOtp c = false) (calls s).
Proof.
  intros s. unfold s, run. clear s.
  assert (forall s0, otp_inv s0 -> otp_inv (foldl step s0 inputs)) as Hrun.
  { induction inputs as [|inp inputs IH]; intros s0 H0; [done|].
    simpl. by apply IH, otp_step_inv. }
  destruct (Hrun (initState mobile)) as (Hc & Hs & _ & _ & _ & Hcalls).
  - unfold otp_inv. cbn -[Z.le Z.lt]. split_and!; try done; lia.
  - done.
Qed.

End OtpScreenProperties.

(** ** The mobile number of a new address *)

Lemma forallb_is_digit (l : list N) :
  Forall (fun c => is_digit c = true) l -> forallb is_digit l = true.
Proof. induction 1 as [|c l Hc _ IH]; [done|]. simpl. by rewrite Hc, IH. Qed.

(** X22: a ten-digit number typed into the address form of the checkout
    page with any spaces, hyphens and parentheses, and with or without
    one leading zero, is sent as +91 followed by its ten digits, and
    passes the validation. *)
Theorem ten_digit_number_gets_country_code (typed digits : list N) :
  length digits = 10 ->
  Forall (fun c => is_digit c = true) digits ->
  startsWith 48 digits = false ->
  without_separators typed = digits \/
  without_separators typed = 48%N :: digits ->
  sanitize_mobile typed = plus_91 ++ digits /\
  valid_mobile (sanitize_mobile typed) = true.
Proof.
  intros Hlen Hdig Hzero Htyped.
  assert (startsWith 43 digits = false) as Hplus.
  { destruct Hdig as [|c l Hc _]; [done|]. simpl.
    unfold is_digit in Hc. apply andb_prop in Hc as [Hc _].
    apply N.leb_le in Hc. apply N.eqb_neq. lia. }
  assert (sanitize_mobile typed = plus_91 ++ digits) as Hs.
  { unfold sanitize_mobile. destruct Htyped as [-> | ->].
    - rewrite Hzero, Hplus, Hlen. done.
    - simpl. rewrite drop_0, Hplus, Hlen. done. }
  split; [done|]. rewrite Hs. unfold valid_mobile, plus_91. simpl.
  rewrite forallb_is_digit by done. rewrite Hlen. done.
Qed.

Lemma ten_digit_number_gets_country_code_witness :
  sanitize_mobile typed_number
  = [43; 57; 49; 57; 56; 55; 54; 53; 52; 51; 50; 49; 48]%N.
Proof.
  destruct (ten_digit_number_gets_country_code typed_number
              [57; 56; 55; 54; 53; 52; 51; 50; 49; 48]%N) as [H _].
  - reflexivity.
  - repeat constructor.
  - reflexivity.
  - right. reflexivity.
  - exact H.
Defined.

(** X23: what the checkout page accepts as a mobile number is never a
    bare ten-digit number: it either starts with + or has between 11
    and 15 characters, and in both cases at most 16. *)
Theorem accepted_number_is_never_bare (typed : list N) :
  valid_mobile (sanitize_mobile typed) = true ->
  let mobile := sanitize_mobile typed in
  (startsWith 43 mobile = true /\ 11 <= length mobile <= 16) \/
  (startsWith 43 mobile = false /\ 11 <= length mobile <= 15).
Proof.
  intros Hvalid mobile. fold mobile in Hvalid.
  assert (startsWith 43 mobile = false -> length mobile <> 10) as Hbare.
  { unfold mobile, sanitize_mobile.
    set (m := if startsWith 48 (without_separators typed) then _ else _).
    destruct (startsWith 43 m) eqn:Hp; simpl.
    - by rewrite Hp.
    - destruct (length m =? 10) eqn:Hl; [done|]. intros _.
      by apply Nat.eqb_neq in Hl. }
  unfold valid_mobile in Hvalid.
  destruct (startsWith 43 mobile) eqn:Hp.
  - left. split; [done|]. destruct mobile as [|c0 m]; [done|].
    cbn [drop] in Hvalid. rewrite drop_0 in Hvalid.
    destruct m as [|c rest]; [done|].
    rewrite !andb_true_iff in Hvalid.
    destruct Hvalid as ((((_ & _) & _) & Hlo) & Hhi).
    apply Nat.leb_le in Hlo, Hhi. cbn [length]. lia.
  - right. split; [done|]. specialize (Hbare eq_refl).
    destruct mobile as [|c rest]; [done|].
    rewrite !andb_true_iff in Hvalid.
    destruct Hvalid as ((((_ & _) & _) & Hlo) & Hhi).
    apply Nat.leb_le in Hlo, Hhi. cbn [length] in *. lia.
Qed.

Lemma accepted_number_is_never_bare_witness :
  startsWith 43 (sanitize_mobile typed_number) = true.
Proof.
  destruct (accepted_number_is_never_bare typed_number) as [[H _]|[H _]].
  - reflexivity.
  - exact H.
  - discriminate H.
Defined.

(** ** From the cart to the checkout, through the login page *)

(** X24: a guest who asks for the checkout comes back to it after
    logging in.  Whether the guest pressed Login & Checkout on a cart
    that holds units or opened /checkout directly, a verification that
    succeeds with an access token logs the guest in and navigates to
    /checkout; the return url is used up; and the cart on the page and
    the stored guest cart are still there for the merge. *)
Theorem checkout_resumes_after_login
    (b b1 : Browser) (mobileNumber otp access_token : string)
    (refresh_token : option string) :
  isLoggedIn (page b) = false ->
  (itemCount (items (page b)) <> 0%Z /\ b1 = Cart.handleCheckout b) \/
  b1 = Checkout_effects.auth_guard b ->
  String.length otp = 6 ->
  access_token <> "" ->
  let b2 := Login.handleVerifyOTP mobileNumber otp
              (Ret (TokenPair access_token refresh_token)) b1 in
  path b1 = Some "/login" /\
  path b2 = Some "/checkout" /\
  sessionStorage b2 !! "return_url" = None /\
  isLoggedIn (page b2) = true /\
  localStorage (page b2) !! "access_token" = Some (Text access_token) /\
  items (page b2) = items (page b) /\
  localStorage (page b2) !! "guest_cart" = localStorage (page b) !! "guest_cart".
Proof.
  intros Hg Hb1 Hotp Hat b2.
  assert (b1 = navigate "/login"
                 (set_sessionStorage
                    (<["return_url" := "/checkout"]> (sessionStorage b)) b)) as ->.
  { destruct Hb1 as [[Hc ->]| ->].
    - unfold Cart.handleCheckout. apply Z.eqb_neq in Hc. by rewrite Hc, Hg.
    - unfold Checkout_effects.auth_guard. by rewrite Hg. }
  unfold b2, Login.handleVerifyOTP. rewrite Hotp. simpl.
  apply String.eqb_neq in Hat. rewrite Hat. simpl.
  rewrite lookup_insert_eq. simpl.
  destruct (login_spec access_token (default "undefined" refresh_token) (page b))
    as (Hlog & _ & Hi & Hgc).
  split_and!; try done.
  - apply lookup_delete_eq.
  - unfold login. unfold_js. js_simpl.
    by rewrite lookup_insert_ne, lookup_insert_eq.
Qed.

Lemma checkout_resumes_after_login_witness :
  path (Login.handleVerifyOTP "9876543210" "123456"
          (Ret (TokenPair "at" (Some "rt")))
          (Cart.handleCheckout (browse (guest_with [mala_item None 2]))))
  = Some "/checkout".
Proof.
  destruct (checkout_resumes_after_login (browse (guest_with [mala_item None 2]))
              (Cart.handleCheckout (browse (guest_with [mala_item None 2])))
              "9876543210" "123456" "at" (Some "rt")) as (_ & H & _).
  - reflexivity.
  - left. split; [vm_compute; discriminate | reflexivity].
  - reflexivity.
  - discriminate.
  - exact H.
Defined.

(* six digits are six characters in the browser as well; a letter with
   an accent is two bytes here and one character there *)
Example ascii_only_values :
  ascii_only "123456" = true /\ ascii_only "12345é" = false /\
  String.length "12345é" = 7.
Proof. by split_and!. Qed.

(** X27: a verification that fails, or that answers without an access
    token, or an OTP that does not have six characters, never logs the
    customer in: the logged-in flag, the cart and local storage up to the
    two token keys are as before, the route does not change, and the
    return url stays in session storage for the next attempt; the
    customer gets one notification. *)
Theorem failed_verification_changes_nothing
    (b : Browser) (mobileNumber otp : string) (r : Res Body) :
  no_token otp r ->
  let b' := Login.handleVerifyOTP mobileNumber otp r b in
  (forall k, k <> "access_token" -> k <> "refresh_token" ->
             localStorage (page b') !! k = localStorage (page b) !! k) /\
  isLoggedIn (page b') = isLoggedIn (page b) /\
  items (page b') = items (page b) /\
  path b' = path b /\
  sessionStorage b' = sessionStorage b /\
  length (notices b') = S (length (notices b)).
Proof.
  intros Hno b'. unfold b', Login.handleVerifyOTP.
  destruct (String.length otp =? 6) eqn:Hlen; simpl.
  2:{ rewrite length_app. simpl. split_and!; try done. lia. }
  destruct Hno as [[_ Hno]|Hno]; [by apply Nat.eqb_eq in Hlen|].
  destruct r as [[|a rt|d|m]|e]; simpl; rewrite ?length_app; simpl;
    try (split_and!; try done; lia).
  rewrite Hno. simpl. rewrite length_app. simpl. split_and!; try done. lia.
Qed.

Lemma failed_verification_changes_nothing_witness :
  let b := Cart.handleCheckout (browse (guest_with [mala_item None 2])) in
  let b' := Login.handleVerifyOTP "9876543210" "123456"
              (Throw (HttpError 400 (Some "Invalid OTP"))) b in
  sessionStorage b' !! "return_url" = Some "/checkout" /\
  isLoggedIn (page b') = false.
Proof.
  destruct (failed_verification_changes_nothing
              (Cart.handleCheckout (browse (guest_with [mala_item None 2])))
              "9876543210" "123456" (Throw (HttpError 400 (Some "Invalid OTP"))))
    as (_ & Hl & _ & _ & Hs & _).
  - right. exact I.
  - cbv zeta. rewrite Hs, Hl. split; reflexivity.
Defined.

(* the operations of the cart context catch what they await *)
Lemma addToCart_returns srv p q w : (addToCart srv p q w).1 = Ret tt.
Proof.
  unfold addToCart. destruct (negb _ || _); [done|].
  unfold try_catch at 1. unfold bind at 1. unfold gets at 1.
  destruct (isLoggedIn w) eqn:Hlog.
  - unfold bind at 1. unfold await_call.
    destruct (srv (trace w) _) as [d|e]; [|done].
    unfold bind at 1.
    pose proof (refreshCart_returns srv (emit (ECall (apiService.addToCart
                  (Product.id p) (default 1%Z q))) w)) as Hr.
    destruct (refreshCart srv _) as [[[]|e] w1]; [done|discriminate].
  - unfold_js. js_simpl.
    destruct (list_find _ (items w)) as [[i x]|]; js_simpl; [|done].
    by destruct (_ >? _)%Z.
Qed.

(** X25: Buy Now on the home page always leaves the page.  With a
    product on display, a logged-in customer is sent to /checkout and a
    guest to /cart, whether or not the product could be added: when it
    is sold out or inactive nothing is added, no call is made, and the
    customer is sent on all the same. *)
Theorem buy_now_always_navigates
    (srv : Backend) (product : Product.t) (b : Browser) :
  let b' := Index.handleBuyNow srv (Some product) b in
  path b' = Some (if isLoggedIn (page b) then "/checkout" else "/cart") /\
  page b' = exec (addToCart srv product (Some 1%Z)) (page b) /\
  (negb (Product.is_active product) || (Product.stock product <? 1)%Z = true ->
   items (page b') = items (page b) /\
   calls_of (trace (page b')) = calls_of (trace (page b))).
Proof.
  intros b'. unfold b', Index.handleBuyNow, exec.
  pose proof (addToCart_returns srv product (Some 1%Z) (page b)) as Hr.
  destruct (addToCart srv product (Some 1%Z) (page b)) as [[[]|e] w] eqn:Hadd;
    [|discriminate].
  split_and!.
  - by destruct (isLoggedIn (page b)).
  - by destruct (isLoggedIn (page b)).
  - intros Hout. unfold addToCart in Hadd. simpl in Hadd. rewrite Hout in Hadd.
    unfold_js. injection Hadd as <-.
    destruct (isLoggedIn (page b)); simpl; by rewrite calls_of_app, app_nil_r.
Qed.

Lemma buy_now_always_navigates_witness :
  let b' := Index.handleBuyNow offline (Some sold_out)
              (browse (guest_with [mala_item None 2])) in
  path b' = Some "/cart" /\ items (page b') = [mala_item None 2].
Proof.
  destruct (buy_now_always_navigates offline sold_out
              (browse (guest_with [mala_item None 2]))) as (Hp & _ & Hout).
  destruct (Hout eq_refl) as [Hi _].
  split; [exact Hp | exact Hi].
Defined.

(** ** The cart of the mobile app *)

(** X26: a change to the cart of the mobile app fails silently.  When
    the server rejects an add, an update or a removal, the state of the
    cart is exactly what it was: same cart, no error message, no reload.
    When the server accepts it the cart is loaded again: the state ends
    not loading, with the map the server sent as the cart and no error,
    or, if that load fails or answers null, with the cart of before and
    the message that loading failed. *)
Theorem mobile_cart_change_fails_silently
    (srv : Backend) (t : CartNotifier.Tap) (n : CartNotifier.Notifier) :
  let c := CartNotifier.call_of_tap t in
  let n' := CartNotifier.tap srv t n in
  let kept :=
    CartNotifier.cart (CartNotifier.state n')
    = CartNotifier.cart (CartNotifier.state n) /\
    CartNotifier.error (CartNotifier.state n') = Some "Failed to load cart" in
  match srv (CartNotifier.log n) c with
  | Throw _ =>
      CartNotifier.state n' = CartNotifier.state n /\
      CartNotifier.log n' = CartNotifier.log n ++ [ECall c]
  | Ret _ =>
      let t1 := CartNotifier.log n ++ [ECall c] in
      CartNotifier.log n' = t1 ++ [ECall apiService.getCart] /\
      CartNotifier.isLoading (CartNotifier.state n') = false /\
      match srv t1 apiService.getCart with
      | Ret NoData => kept
      | Ret d =>
          CartNotifier.cart (CartNotifier.state n') = Some d /\
          CartNotifier.error (CartNotifier.state n') = None
      | Throw _ => kept
      end
  end.
Proof.
  intros c n' kept. unfold kept, n', c.
  assert (forall c0,
            CartNotifier.change srv c0 n
            = match srv (CartNotifier.log n) c0 with
              | Ret _ => CartNotifier.loadCart srv
                           {| CartNotifier.state := CartNotifier.state n;
                              CartNotifier.log := CartNotifier.log n ++ [ECall c0] |}
              | Throw _ => {| CartNotifier.state := CartNotifier.state n;
                              CartNotifier.log := CartNotifier.log n ++ [ECall c0] |}
              end) as Hchange.
  { intros c0. unfold CartNotifier.change, CartNotifier.await_api.
    by destruct (srv _ c0). }
  assert (CartNotifier.tap srv t n
          = CartNotifier.change srv (CartNotifier.call_of_tap t) n) as ->
    by (by destruct t).
  rewrite Hchange.
  destruct (srv (CartNotifier.log n) (CartNotifier.call_of_tap t)) as [d|e];
    [|done].
  unfold CartNotifier.loadCart, CartNotifier.await_api. simpl.
  destruct (srv _ apiService.getCart) as [d'|e']; [|done].
  destruct d'; done.
Qed.

Lemma mobile_cart_change_fails_silently_witness :
  CartNotifier.state
    (CartNotifier.tap refusing (CartNotifier.update "i1" 3%Z) mobile_cart)
  = CartNotifier.state mobile_cart /\
  CartNotifier.cart
    (CartNotifier.state
       (CartNotifier.tap lenient (CartNotifier.update "i1" 25%Z) mobile_cart))
  = Some (CartData (Some [mala_item (Some "i1") 25])).
Proof.
  pose proof (mobile_cart_change_fails_silently refusing
                (CartNotifier.update "i1" 3%Z) mobile_cart) as H.
  pose proof (mobile_cart_change_fails_silently lenient
                (CartNotifier.update "i1" 25%Z) mobile_cart) as H'.
  simpl in H, H'. destruct H as [H _]. destruct H' as (_ & _ & H' & _).
  split; [exact H | exact H'].
Defined.
